(* ===== verification/_CoqProject ===== *)
-Q . S2P
Prelude.v
Numbers.v
Interpret.v
Tensors.v
Preprocess.v
Base64.v
Server.v
Floats.v
Concurrency.v
Interleaving.v
Express.v
Client.v
Lifecycle.v
Readme.v
