(* ===== verification/Prelude.v ===== *)
(** * Verification of the benign/malignant image classification server

    The program. [src/server.js] is an Express server around a
    TensorFlow.js graph model. At start it loads the model
    ([loadModel]), then listens. [POST /predict] takes a JSON body whose
    [image] is a base64 string (optionally a data URL);
    [POST /predict/upload] takes a multipart file. Both decode and
    resize the image with Jimp and turn the RGBA bitmap into a
    [1,224,224,3] tensor of values in [0,1] ([preprocessImage]). They
    then run the model and turn its score into a diagnosis and a
    confidence ([makePrediction]). [GET /health] and [GET /model/status]
    report the ready flag. [SIGINT]/[SIGTERM] dispose the model and exit.
    [src/test-client.js] reads an image file, encodes it as a data URL
    ([imageToBase64]) and posts it.

    The files (in dependency order) and what they model:
    - [Prelude] (this file): a state and exception monad [PM] with its
      notation in [prog_scope]. A JavaScript exception keeps the
      mutations made before it. Also the [JsError] record, the hint
      databases [prog] and [prog_rw], the tactics [pm_step] and
      [solve_preserves], and the [pm_preserves] lemmas that prove
      invariants of composed handlers; the string equations of the
      rewrite database [str_rw].
    - [Numbers]: the class [JsNumber] of the number operations the code
      uses ([/], [-], [*], [>], [===], [Math.round], the Float32Array
      store), with NaN as [None] of [jsnum]. Its instance is exact
      rationals [Q], where [Math.round] is [Qround_half_up] (ties
      towards +infinity, as ECMAScript specifies).
    - [Interpret]: lines 108-118 of [makePrediction]
      ([interpret_prediction]) and [classNames]. [diagnosis_spec] is the
      abstract contract of spec 4.3.
    - [Tensors]: the TensorFlow engine's registry of live tensors
      ([Engine], [tf_alloc], [tf_dispose], [tensor3d], [expandDims0]).
      [numTensors] is [tf.memory().numTensors].
    - [Preprocess]: [preprocessImage] (lines 58-91). Jimp is the
      interface [ImageLib] with its laws [ImageLibLaws]; [RawImageLib]
      is a concrete instance used by the witnesses. The loop of lines
      67-80 is [rgba_loop] over a Float32Array ([f32_new], [f32_set];
      a write out of range is dropped), and [rgb_of_rgba] is its
      reference definition.
    - [Base64]: the data-URL regex of line 167 ([strip_data_url]),
      Node's lenient [Buffer.from(s, 'base64')] ([base64_decode]), and
      [Buffer.toString('base64')] ([base64_encode]). Also
      [path.extname] ([extname]), [toLowerCase] ([to_lower]) and the
      client's [imageToBase64].
    - [Server]: the global state [ServerState] (model, ready flag,
      engine), [loadModel], [makePrediction], the handlers
      ([predict_handler], [upload_handler], [health_handler],
      [model_status_handler], [not_found], [unexpected_error]), the
      middleware and routing order ([dispatch]), and the process
      ([Process], [proc_step], [reachable], [run]).
      [predict_spec] is the stateless contract of [POST /predict].
    - [Floats]: a second instance of [JsNumber], IEEE binary64 on
      Rocq's primitive floats. [Math.round] is [float_round] and the
      Float32Array store is [float_fround] (rounding to single
      precision). Its theorems are evaluated on concrete doubles.
    - [Concurrency]: the prediction handlers split at their [await]s.
      [request_start] is the synchronous prefix of a handler. [resume]
      runs a suspended [Thread] to its next [await]. [makePrediction]
      splits into [mp_start] and [mp_finish] at [await model.predict].
      [Conc] is the server with its in-flight handlers, and [conc_step]
      is one event of the event loop: a request arrives
      ([request_start]), or a promise settles and its handler resumes
      ([resume]).
    - [Interleaving]: the invariant [conc_inv] of [Conc]. Each in-flight
      handler owns its tensors ([thread_ids], [thread_ok]), distinct
      handlers own distinct tensors, and each request's [footprint]
      accounts for the tensor count. [req_spec] is the contract of a
      request and [req_leak] its leak when run alone.
    - [Express]: the middleware in front of [dispatch]. [cors()]
      answers the [OPTIONS] preflight. [json_body] and [form_body] are
      [express.json] and [express.urlencoded] with their limits, and
      [multer_single] is [upload.single('image')] with its 10 MiB file
      limit. [express_app] composes them with [dispatch].
      [JSON.parse] and [qs.parse] are the interface [JsonLib].
      [stringify_obj] is [JSON.stringify] of the client's body, and
      [client_raw] is the request the client sends.
    - [Client]: [src/test-client.js]. [imageToBase64_logged],
      [client_makePrediction], [checkServerStatus] and [ejemplo] are
      written against the interface [Fetch], from the request as it
      goes on the wire ([RawRequest]) to the reply. [server_fetch]
      implements it with the server process: a listening process
      answers through the whole [express_app], a process that is not
      listening refuses the connection.
    - [Lifecycle]: the model handle with its weights. [WProcess] is the
      process of [Server] with the registry ids of the weight tensors
      the model holds. [w_loadModel] registers them as
      [tf.loadGraphModel] does ([tf_alloc_all]). [w_shutdown] is the
      [SIGINT]/[SIGTERM] handler ([if (model) model.dispose()], with
      [model_dispose]). [w_proc_step] is the step of the process.
      [w_inv] is its invariant on the weights.
    - [Readme]: the end of [src/test-client.js]. [client_main] and
      [client_exports] are its entry point and [module.exports] (lines
      89-98). The README after them documents the API: its endpoints
      ([readme_endpoints], [documented]), response examples
      ([readme_health] and the others) and status codes
      ([readme_status_codes]). [json_shape] is the shape of a JSON
      value as [res.json] sends it. [diagnosticar] is the README's
      integration example, written against [Fetch].

    How the components interact. [dispatch] calls the handlers. The
    prediction handlers call [preprocessImage] on the engine (through
    [on_engine]) and then [makePrediction], which calls
    [interpret_prediction]. The engine is the only state the handlers
    change; [frame] states this and [dispatch_frame] proves it. In
    [Concurrency] the handlers of several requests interleave on that
    engine. [Express] puts the middleware in front of [dispatch]. The
    client of [Client] sends the text of its requests to
    [server_fetch], which hands them to [express_app] on the state of a
    listening process, so every client theorem goes through [cors()],
    the body parsers and their limits. [Lifecycle] refines [proc_step]:
    its requests go through the same [dispatch], and [w_match] relates
    its states to those of [Server] ([w_run_sim]). [Readme] compares
    the README's documented API with [express_app] and [app_spec], and
    runs its [diagnosticar] against [server_fetch].

    What the theorems show (claim ids in the doc comments):
    - Interpreter: the 0.5 threshold with its tie toward Benigno (C1).
      A refinement of the abstract contract (C2). The confidence is
      never below 50 (C8) and lies in [50,100] for scores in [0,1]
      (C20). Symmetry around 0.5 (C9).
    - Normalizer: the index loop equals the chunk-wise reference (C6).
      The loop terminates within [data.length] iterations (C18).
      [preprocessImage] yields a [1,224,224,3] tensor of values in
      [0,1] and registers two tensors (C5).
    - Transport: the data URL the client builds is decoded by the
      server into the bytes of the file (C7), by the base64 round trip
      [decode_encode].
    - Server: [POST /predict] refines the stateless [predict_spec] (C3),
      and the whole application refines [app_spec] (C16). A successful
      request leaks its [tensor3d] (C4), and a shape error leaks both
      tensors (C27). It fails fast with 503 when the model is not loaded
      (C10). An undecodable image gets a 500 (C11). Lifecycle invariant
      (C12). The model is loaded once (C13). A request, on every route,
      keeps each tensor that was live before it (C15).
    - Doubles: every byte is normalized into [0,1] even with
      single-precision stores (C28). The spec's examples are checked in
      binary64 ([interpret_float_spec_examples]).
    - Interleaving: each request is answered after three resumptions of
      its handler, whatever else runs (C29, liveness). The invariant
      holds under every schedule (C30). Answers do not depend on the
      interleaving (C31), and neither does the leak count (C32). The
      segments compose to the sequential handlers
      ([segments_sequential]).
    - Middleware: the JSON text of the client's request is read back by
      [express.json] as the client's body, within the 50 MiB limit
      (C17, a round trip through [JSON.stringify] and [JSON.parse]). An
      upload over 10 MiB gets 500 in every state, before the 503 check
      (C19). [OPTIONS] gets the 204 of [cors()], and a rejected body
      gets 500 on every route (C22).
    - Client, through the Express application: end to end, the client
      prints and returns the interpretation of the model's output on
      the file it read, or the 500 body when the JSON text exceeds the
      limit of [express.json] (C33). The status check reports the ready
      flag (C34). The error paths return the 503 (or 500) body, or
      [null] for a refused connection or an unreadable file (C35).
    - README: the status codes it lists are all the application
      answers, except 404 outside its endpoints and the 204 preflight
      (C14). Every JSON reply of [express_app] has the shape of one of
      its examples, except a prediction whose NaN confidence is sent as
      [null] (C21). Its [diagnosticar] prints a connection error, the
      500 of an over-limit body, the 503 error, or the model's
      diagnosis and confidence, by the server's state and the body's
      size (C23).
    - Model handle and shutdown: by C15 the weights stay registered
      and read-only while the server listens. The process with weights simulates
      [proc_step] step by step with the same responses ([w_step_sim],
      [w_run_sim]). In every reachable state the weights are distinct
      ids, live while the server listens and released after a signal
      (C24). A signal to a listening server disposes exactly the
      weights, and [numTensors] drops by their number (C25). Over a
      whole run, each successful prediction leaves one tensor more:
      after the load of weights [ws] and [n] such requests, [|ws| + n]
      tensors are registered (C26).

    Bounds and fuel. [rgba_loop] takes fuel; [to_rgb_floats] gives it
    [data.length], and [rgba_loop_fuel] shows that any fuel of at least
    [data.length - i] gives the same result, because each iteration
    moves [i] by 4. Nothing else recurses except structurally. The
    24-bit groups of base64 are proved in [Z] with their bounds
    ([sext_ranges], [group_bytes]). A schedule is a finite list of
    events, so [conc_run] is a fold. The progress measure [rank] (the
    [await]s a handler has left, at most 3) bounds the resumptions a
    handler needs.

    Not modelled, and why. HTTP transport, the response headers of
    [cors()], logging and the port are plumbing. The body parsers'
    charset checks and compressed bodies are not modelled; [qs]'s
    parameter and depth limits are errors of [qs_parse]. The model's forward computation is the field
    [gm_forward]. Jimp's decoders and resampling are the [ImageLib]
    interface, with only the laws the code relies on. Model loading
    from disk is its outcome (an option). The outputs of [gm_forward]
    are any numbers of the instance: that a Float32 output tensor holds
    single-precision values is not imposed on them. The general theorems
    are proved on the rational instance. Floating-point rounding is only
    checked at concrete doubles ([Floats]): proving the general
    theorems on floats would need the axioms of the primitive float
    library. Strings are byte strings.

    In [Concurrency], the microtask ticks between an [async] function's
    return and its caller's resumption touch no shared state. They are
    merged into the neighbouring segment. So are the [await] on the
    synchronous [model.predict] and the call of [prediction.data()].
    The synchronous routes ([GET /health], [GET /model/status], the 404
    and the error middleware) run atomically in [dispatch]. In
    [Server] the weights are not in the registry; [Lifecycle] adds them,
    and [w_run_sim] shows that they change no response. The [catch] of
    [startServer] (lines 272-275, [process.exit(1)]) is reached only by
    a synchronous error of [app.listen], such as an invalid [PORT],
    because [loadModel] catches every error of the load; the port is
    not modelled. The console output of the server is not modelled. In
    the client, the string conversion of interpolated numbers
    ([${result.confidence}]) is kept as the value. [Express] writes
    out [JSON.stringify] of the client's body and reads it back through
    [JsonLib]; the JSON text of the server's replies is not modelled,
    the client reads the reply's value. Of the README (lines
    99-293 of [src/test-client.js]) the installation steps, the curl
    commands and the file layout are instructions for a shell, not
    behaviour of the program, and are not modelled.

    What is left. General theorems on the binary64 instance of
    [JsNumber] would need the axioms of the primitive float library
    (or a Flocq-level model of rounding), which the development does
    not assume. The rest of the program that is code is modelled. *)

From stdpp Require Export base list gmap strings.
From Stdlib Require Export ZArith QArith Qround Lqa Strings.Byte.

(** Bytes of Node [Buffer]s. *)
Abbreviation byte := Init.Byte.byte.

(** ** A state and exception monad

    The handlers of [src/server.js] are [async] functions that mutate
    global state (the TensorFlow engine's tensor registry) and [throw].
    A thrown exception does not roll back the mutations done before it,
    so the monad returns the state reached at the throw. *)

Definition PM (S E A : Type) : Type := S -> ((E + A) * S)%type.

Definition pm_ret {S E A} (a : A) : PM S E A := fun s => (inr a, s).

Definition pm_bind {S E A B} (m : PM S E A) (k : A -> PM S E B) : PM S E B :=
  fun s => match m s with
           | (inl e, s') => (inl e, s')
           | (inr a, s') => k a s'
           end.

Definition pm_throw {S E A} (e : E) : PM S E A := fun s => (inl e, s).

(** [try { m } catch (e) { h(e) }]: the handler runs in the state the
    failing computation left behind. *)
Definition pm_catch {S E E' A} (m : PM S E A) (h : E -> PM S E' A) : PM S E' A :=
  fun s => match m s with
           | (inl e, s') => h e s'
           | (inr a, s') => (inr a, s')
           end.

Definition pm_get {S E} : PM S E S := fun s => (inr s, s).
Definition pm_modify {S E} (f : S -> S) : PM S E unit := fun s => (inr tt, f s).

Declare Scope prog_scope.
Delimit Scope prog_scope with prog.
Notation "x <- m ;; k" := (pm_bind m (fun x => k))
  (at level 100, m at next level, right associativity) : prog_scope.
Notation "m ;; k" := (pm_bind m (fun _ => k))
  (at level 100, right associativity) : prog_scope.

(** A JavaScript [Error] object: what the handlers read of it is its
    [message]. *)
Record JsError := Error { message : string }.

(** ** Shared automation *)

Create HintDb prog discriminated.
Create Rewrite HintDb prog_rw.

Lemma pm_bind_ret_l {S E A B} (a : A) (k : A -> PM S E B) s :
  pm_bind (pm_ret a) k s = k a s.
Proof. reflexivity. Qed.

Lemma pm_bind_throw {S E A B} (e : E) (k : A -> PM S E B) s :
  pm_bind (pm_throw e) k s = (inl e, s).
Proof. reflexivity. Qed.

Lemma pm_bind_assoc {S E A B C} (m : PM S E A) (k : A -> PM S E B)
      (k' : B -> PM S E C) s :
  pm_bind (pm_bind m k) k' s = pm_bind m (fun a => pm_bind (k a) k') s.
Proof. unfold pm_bind. destruct (m s) as [[e|a] s']; reflexivity. Qed.

#[export] Hint Rewrite @pm_bind_ret_l @pm_bind_throw @pm_bind_assoc : prog_rw.

(** Unfold one monadic step: evaluate the bound computation at the
    current state and split on its outcome. *)
Ltac pm_step :=
  unfold pm_bind, pm_catch, pm_ret, pm_throw, pm_get, pm_modify;
  repeat match goal with
  | |- context [match ?m ?s with (_, _) => _ end] =>
      let o := fresh "o" in let s' := fresh "s" in
      destruct (m s) as [[o|o] s'] eqn:?
  end.

(** ** Generic list lemmas *)

Lemma Forall_lookup_total {A} (P : A -> Prop) (l : list A) i x :
  Forall P l -> l !! i = Some x -> P x.
Proof. rewrite Forall_lookup. eauto. Qed.

(** ** Invariants of monadic computations

    [pm_preserves P m]: running [m] from a state satisfying [P] ends,
    normally or by an exception, in a state satisfying [P]. The lemmas
    below are the hints that prove it for composed handlers. *)
Definition pm_preserves {S E A} (P : S -> Prop) (m : PM S E A) : Prop :=
  forall s, P s -> P (snd (m s)).

Lemma pm_preserves_ret {S E A} (P : S -> Prop) (a : A) : pm_preserves (E:=E) P (pm_ret a).
Proof. intros s Hs. exact Hs. Qed.

Lemma pm_preserves_throw {S E A} (P : S -> Prop) (e : E) : pm_preserves (A:=A) P (pm_throw e).
Proof. intros s Hs. exact Hs. Qed.

Lemma pm_preserves_get {S E} (P : S -> Prop) : pm_preserves (E:=E) P pm_get.
Proof. intros s Hs. exact Hs. Qed.

Lemma pm_preserves_bind {S E A B} (P : S -> Prop) (m : PM S E A) (k : A -> PM S E B) :
  pm_preserves P m -> (forall a, pm_preserves P (k a)) -> pm_preserves P (pm_bind m k).
Proof.
  intros Hm Hk s Hs. unfold pm_bind.
  specialize (Hm s Hs). destruct (m s) as [[e|a] s']; [exact Hm|]. apply Hk, Hm.
Qed.

Lemma pm_preserves_catch {S E E' A} (P : S -> Prop) (m : PM S E A) (h : E -> PM S E' A) :
  pm_preserves P m -> (forall e, pm_preserves P (h e)) -> pm_preserves P (pm_catch m h).
Proof.
  intros Hm Hh s Hs. unfold pm_catch.
  specialize (Hm s Hs). destruct (m s) as [[e|a] s']; [apply Hh, Hm|exact Hm].
Qed.

Lemma pm_preserves_if {S E A} (P : S -> Prop) (b : bool) (m1 m2 : PM S E A) :
  pm_preserves P m1 -> pm_preserves P m2 -> pm_preserves P (if b then m1 else m2).
Proof. destruct b; auto. Qed.

(** A [try] whose [catch] returns a value never throws. *)
Lemma pm_catch_ret_total {S E E' A} (m : PM S E A) (h : E -> A) s :
  exists a, fst (pm_catch (E':=E') m (fun e => pm_ret (h e)) s) = inr a.
Proof. unfold pm_catch, pm_ret. destruct (m s) as [[e|a] s']; eauto. Qed.

#[export] Hint Resolve pm_preserves_ret pm_preserves_throw pm_preserves_get
  pm_preserves_bind pm_preserves_catch pm_preserves_if : prog.

(** Prove [pm_preserves] of a composed computation by following its
    structure; the leaves are closed by the [prog] hints. *)
Ltac solve_preserves :=
  repeat (intros; match goal with
    | |- pm_preserves _ (pm_bind _ _) => apply pm_preserves_bind
    | |- pm_preserves _ (pm_catch _ _) => apply pm_preserves_catch
    | |- pm_preserves _ (if _ then _ else _) => apply pm_preserves_if
    | |- pm_preserves _ (pm_ret _) => apply pm_preserves_ret
    | |- pm_preserves _ (pm_throw _) => apply pm_preserves_throw
    | |- pm_preserves _ pm_get => apply pm_preserves_get
    | |- pm_preserves _ (match ?x with _ => _ end) => destruct x
    | |- pm_preserves _ _ => solve [eauto with prog]
    end).

(** ** Strings

    stdpp makes [String.append] [simpl never]; these equations take its
    place in proofs, and [str_rw] rewrites with them. *)

Lemma str_app_cons c s t : (String c s ++ t)%string = String c (s ++ t)%string.
Proof. reflexivity. Qed.

Lemma str_app_nil_l t : ("" ++ t)%string = t.
Proof. reflexivity. Qed.

Lemma str_app_assoc s t u : ((s ++ t) ++ u)%string = (s ++ (t ++ u))%string.
Proof. induction s as [|c s IH]; [reflexivity|]. rewrite !str_app_cons, IH. reflexivity. Qed.

Lemma str_length_app s t : String.length (s ++ t) = (String.length s + String.length t)%nat.
Proof. induction s as [|c s IH]; [reflexivity|]. rewrite str_app_cons. cbn. rewrite IH. reflexivity. Qed.

Create HintDb str_rw discriminated.
#[export] Hint Rewrite str_app_cons str_app_nil_l str_app_assoc str_length_app : str_rw.
