(* ===== verification/Numbers.v ===== *)
(** Numbers of the JavaScript code.

    [src/server.js] computes with JavaScript numbers: it divides pixel
    bytes by [255.0], compares the model score with [0.5], and rounds a
    percentage with [Math.round]. The operations it uses form the class
    [JsNumber]; the development's theorems are proved for the instance on
    exact rationals [Q], in which [Math.round] is rounding half up
    (towards +infinity, as ECMAScript specifies) and the Float32Array
    store is exact. A NaN (produced by [undefined / 255] or by reading
    index 0 of an empty Float32Array) is [None] of [jsnum]. *)
From S2P Require Import Prelude.

Class JsNumber (N : Type) := {
  js_of_Z : Z -> N;            (** integer literals *)
  js_add : N -> N -> N;
  js_sub : N -> N -> N;
  js_mul : N -> N -> N;
  js_div : N -> N -> N;
  js_gtb : N -> N -> bool;     (** [a > b] *)
  js_eqb : N -> N -> bool;     (** [a === b] *)
  js_round : N -> N;           (** [Math.round] *)
  js_fround : N -> N           (** the rounding of a Float32Array store *)
}.

(** A JavaScript number: [None] is NaN. NaN propagates through
    arithmetic and every comparison with it is false. *)
Definition jsnum (N : Type) : Type := option N.

Section JsOps.
Context {N : Type} `{JsNumber N}.

Definition jlift2 (f : N -> N -> N) (a b : jsnum N) : jsnum N :=
  match a, b with
  | Some x, Some y => Some (f x y)
  | _, _ => None
  end.

Definition jsub := jlift2 js_sub.
Definition jmul := jlift2 js_mul.
Definition jdiv := jlift2 js_div.
Definition jround (a : jsnum N) : jsnum N := option_map js_round a.

(** [a > b] is false as soon as one side is NaN. *)
Definition jgt (a b : jsnum N) : bool :=
  match a, b with
  | Some x, Some y => js_gtb x y
  | _, _ => false
  end.

Definition jlit (z : Z) : jsnum N := Some (js_of_Z z).

(** The literal [0.5] of the source, which is exactly [1 / 2]. *)
Definition jhalf : jsnum N := Some (js_div (js_of_Z 1) (js_of_Z 2)).
End JsOps.

(** ** Exact rational instance *)

(** [Math.round(x)]: the integer closest to [x], ties towards +infinity. *)
Definition Qround_half_up (q : Q) : Q := inject_Z (Qfloor (q + (1#2))).

#[export] Instance JsNumber_Q : JsNumber Q := {
  js_of_Z := inject_Z;
  js_add := Qplus;
  js_sub := Qminus;
  js_mul := Qmult;
  js_div := Qdiv;
  js_gtb := fun a b => negb (Qle_bool a b);
  js_eqb := Qeq_bool;
  js_round := Qround_half_up;
  js_fround := fun q => q
}.

(** ** Lemmas on the rational instance *)

Lemma js_gtb_Q (a b : Q) : js_gtb a b = true <-> b < a.
Proof.
  cbn. rewrite negb_true_iff.
  split; intros Hlt.
  - apply Qnot_le_lt. intros Hle. apply Qle_bool_iff in Hle. congruence.
  - destruct (Qle_bool a b) eqn:E; [|reflexivity].
    apply Qle_bool_iff in E. exfalso. apply (Qlt_not_le b a); assumption.
Qed.

Lemma js_gtb_Q_false (a b : Q) : js_gtb a b = false <-> a <= b.
Proof.
  cbn. rewrite negb_false_iff. apply Qle_bool_iff.
Qed.

Lemma Qround_half_up_bounds (q : Q) :
  q - (1#2) < Qround_half_up q /\ Qround_half_up q <= q + (1#2).
Proof.
  unfold Qround_half_up. split.
  - pose proof (Qlt_floor (q + (1#2))) as Hf.
    rewrite inject_Z_plus in Hf. change (inject_Z 1) with (1#1) in Hf. lra.
  - pose proof (Qfloor_le (q + (1#2))). lra.
Qed.

#[export] Instance Qround_half_up_Proper : Proper (Qeq ==> Qeq) Qround_half_up.
Proof.
  intros a b Hab. unfold Qround_half_up.
  rewrite (Qfloor_comp (a + (1#2)) (b + (1#2))); [reflexivity|].
  rewrite Hab. reflexivity.
Qed.

(** [Math.round] is monotone. *)
Lemma Qround_half_up_mono (a b : Q) :
  a <= b -> Qround_half_up a <= Qround_half_up b.
Proof.
  intros Hab. unfold Qround_half_up. rewrite <- Zle_Qle.
  apply Qfloor_resp_le. lra.
Qed.
