(* ===== verification/Interpret.v ===== *)
(** The result interpreter: the second half of [makePrediction]
    ([src/server.js], lines 108-118) and the class names of line 26.

    The raw score [predictionData[0]] becomes a diagnosis string
    (['Maligno'] when the score is strictly above [0.5], ['Benigno']
    otherwise) and a confidence percentage rounded to two decimals with
    [Math.round(finalConfidence * 100 * 100) / 100]. The abstract
    contract [diagnosis_spec] states what the spec promises of it; the
    theorems show the code meets it on rationals, that the confidence
    never drops below 50, the symmetry around 0.5 and the NaN case. *)
From S2P Require Import Prelude Numbers.
From Stdlib Require Import Qminmax.
From stdpp Require Import strings.

Open Scope string_scope.
Open Scope Q_scope.

(** [const classNames = ['Benigno', 'Maligno'];] *)
Definition classNames : list string := ["Benigno"; "Maligno"].

(** The object returned by [makePrediction]. *)
Record PredictionResult (N : Type) := {
  diagnosis : string;
  confidence : jsnum N;
  rawPrediction : jsnum N
}.
Arguments diagnosis {N}.
Arguments confidence {N}.
Arguments rawPrediction {N}.

Section Interpreter.
Context {N : Type} `{JsNumber N}.

(** Lines 109-118: [confidence] is [predictionData[0]]. *)
Definition interpret_prediction (confidence : jsnum N) : PredictionResult N :=
  let isMalignant := jgt confidence jhalf in
  let diagnosis := if isMalignant then "Maligno" else "Benigno" in
  let finalConfidence := if isMalignant then confidence
                         else jsub (jlit 1) confidence in
  {| diagnosis := diagnosis;
     confidence := jdiv (jround (jmul (jmul finalConfidence (jlit 100)) (jlit 100)))
                        (jlit 100);
     rawPrediction := confidence |}.
End Interpreter.

(** ** The abstract contract (spec 4.3)

    A label of a closed two-variant enumeration and a percentage: the
    label is [Malignant] exactly when the score is strictly above one
    half, and the confidence is the percentage of the more likely class,
    [100 * max(s, 1 - s)], kept to two decimals (a whole number of
    hundredths within half a hundredth of the exact value). *)
Inductive Label := Benign | Malignant.

Definition label_name (l : Label) : string :=
  match l with Benign => "Benigno" | Malignant => "Maligno" end.

Definition two_decimals (c : Q) : Prop := exists k : Z, c == inject_Z k / inject_Z 100.

Definition diagnosis_spec (s : Q) (l : Label) (c : Q) : Prop :=
  (l = Malignant <-> 1#2 < s) /\
  two_decimals c /\
  - (1#200) < c - 100 * Qmax s (1 - s) <= 1#200.

(** Equality of results up to [Qeq] on the numbers. *)
Definition jeq (a b : jsnum Q) : Prop :=
  match a, b with
  | Some x, Some y => x == y
  | None, None => True
  | _, _ => False
  end.

Definition pr_equiv (r1 r2 : PredictionResult Q) : Prop :=
  diagnosis r1 = diagnosis r2 /\ jeq (confidence r1) (confidence r2) /\
  jeq (rawPrediction r1) (rawPrediction r2).

#[export] Instance jeq_Equivalence : Equivalence jeq.
Proof.
  split.
  - intros [x|]; cbn; [reflexivity|exact I].
  - intros [x|] [y|]; cbn; auto. intros; symmetry; assumption.
  - intros [x|] [y|] [z|]; cbn; try tauto. intros; etransitivity; eauto.
Qed.

#[export] Instance pr_equiv_Equivalence : Equivalence pr_equiv.
Proof.
  split.
  - intros r. repeat split; reflexivity.
  - intros r1 r2 (?&?&?). repeat split; symmetry; assumption.
  - intros r1 r2 r3 (?&?&?) (?&?&?). repeat split; etransitivity; eauto.
Qed.

(** ** Computation lemmas for the rational instance *)

Lemma jhalf_Q : @jhalf Q _ = Some (1#2).
Proof. reflexivity. Qed.

Lemma jlit_Q (z : Z) : @jlit Q _ z = Some (inject_Z z).
Proof. reflexivity. Qed.

(** The confidence the code computes from the final confidence [f]. *)
Definition percent2 (f : Q) : Q := Qround_half_up (f * 100 * 100) / 100.

Lemma interpret_prediction_Some (s : Q) :
  interpret_prediction (Some s) =
  {| diagnosis := if js_gtb s (1#2) then "Maligno" else "Benigno";
     confidence := Some (percent2 (if js_gtb s (1#2) then s else 1 - s));
     rawPrediction := Some s |}.
Proof. unfold interpret_prediction. rewrite jhalf_Q. cbn [jgt]. by destruct (js_gtb s (1#2)). Qed.

(** The final confidence is the larger of [s] and [1 - s]. *)
Lemma final_confidence_max (s : Q) :
  (if js_gtb s (1#2) then s else 1 - s) == Qmax s (1 - s).
Proof.
  destruct (js_gtb s (1#2)) eqn:E.
  - apply js_gtb_Q in E. rewrite Q.max_l; [reflexivity|lra].
  - apply js_gtb_Q_false in E. rewrite Q.max_r; [reflexivity|lra].
Qed.

Lemma final_confidence_ge_half (s : Q) :
  1#2 <= (if js_gtb s (1#2) then s else 1 - s).
Proof.
  rewrite final_confidence_max.
  destruct (Qlt_le_dec s (1#2)); [rewrite Q.max_r | rewrite Q.max_l]; lra.
Qed.

Lemma final_confidence_le_1 (s : Q) :
  0 <= s <= 1 -> (if js_gtb s (1#2) then s else 1 - s) <= 1.
Proof.
  intros Hs. rewrite final_confidence_max.
  destruct (Qlt_le_dec s (1#2)); [rewrite Q.max_r | rewrite Q.max_l]; lra.
Qed.

Lemma percent2_bounds (f : Q) :
  - (1#200) < percent2 f - 100 * f <= 1#200.
Proof.
  unfold percent2. pose proof (Qround_half_up_bounds (f * 100 * 100)) as [Hl Hu].
  change (Qround_half_up (f * 100 * 100) / 100) with (Qround_half_up (f * 100 * 100) * (1#100)).
  split; lra.
Qed.

Lemma percent2_two_decimals (f : Q) : two_decimals (percent2 f).
Proof. exists (Qfloor (f * 100 * 100 + (1#2))). reflexivity. Qed.

#[export] Instance percent2_Proper : Proper (Qeq ==> Qeq) percent2.
Proof. intros a b Hab. unfold percent2. rewrite Hab. reflexivity. Qed.

#[export] Hint Resolve percent2_two_decimals : prog.

Lemma percent2_mono (a b : Q) : a <= b -> percent2 a <= percent2 b.
Proof.
  intros Hab. unfold percent2, Qdiv. apply Qmult_le_r; [reflexivity|].
  apply Qround_half_up_mono. apply Qmult_le_r; [reflexivity|]. apply Qmult_le_r; [reflexivity|assumption].
Qed.

#[export] Instance interpret_prediction_Proper :
  Proper (jeq ==> pr_equiv) (@interpret_prediction Q _).
Proof.
  intros [a|] [b|] Hab; unfold jeq in Hab; try contradiction.
  - rewrite !interpret_prediction_Some.
    assert (js_gtb a (1#2) = js_gtb b (1#2)) as ->.
    { destruct (js_gtb b (1#2)) eqn:E.
      - apply js_gtb_Q in E. apply js_gtb_Q. rewrite Hab. assumption.
      - apply js_gtb_Q_false in E. apply js_gtb_Q_false. rewrite Hab. assumption. }
    split; [reflexivity|split]; cbn [confidence rawPrediction jeq]; [|assumption].
    destruct (js_gtb b (1#2)); rewrite Hab; reflexivity.
  - reflexivity.
Qed.

(** ** Properties of the interpreter *)

(** C1: The diagnosis is ['Maligno'] exactly when the score is strictly
    greater than 0.5; a score of exactly 0.5 is ['Benigno']. *)
Theorem interpret_malignant_iff (s : Q) :
  diagnosis (interpret_prediction (Some s)) = "Maligno" <-> 1#2 < s.
Proof.
  rewrite interpret_prediction_Some. cbn [diagnosis].
  destruct (js_gtb s (1#2)) eqn:E.
  - apply js_gtb_Q in E. tauto.
  - apply js_gtb_Q_false in E. split; [discriminate|]. intros. lra.
Qed.

(** C2: Refinement of the contract of spec 4.3: for every rational score
    the code returns the name of a label and a confidence that satisfy
    [diagnosis_spec] (label Malignant iff score > 1/2, confidence the
    percentage of the more likely class to two decimals). *)
Theorem interpret_prediction_refines (s : Q) :
  exists l c,
    interpret_prediction (Some s) =
      {| diagnosis := label_name l; confidence := Some c; rawPrediction := Some s |} /\
    diagnosis_spec s l c.
Proof.
  rewrite interpret_prediction_Some.
  exists (if js_gtb s (1#2) then Malignant else Benign),
         (percent2 (if js_gtb s (1#2) then s else 1 - s)).
  split; [by destruct (js_gtb s (1#2))|].
  split; [|split; [apply percent2_two_decimals|]].
  - destruct (js_gtb s (1#2)) eqn:E.
    + apply js_gtb_Q in E. tauto.
    + apply js_gtb_Q_false in E. split; [discriminate|intros; lra].
  - rewrite <- final_confidence_max. apply percent2_bounds.
Qed.

(** C8: The confidence is never below 50, whatever the score (even a
    score outside [0, 1]); it is never negative, contrary to what spec
    section 7 allows. *)
Theorem confidence_at_least_50 (s : Q) :
  exists c, confidence (interpret_prediction (Some s)) = Some c /\ 50 <= c.
Proof.
  rewrite interpret_prediction_Some. eexists; split; [reflexivity|].
  apply Qle_trans with (percent2 (1#2)); [vm_compute; discriminate|].
  apply percent2_mono, final_confidence_ge_half.
Qed.

(** C20: For a score in [0, 1] the confidence lies in [50, 100]. *)
Theorem confidence_range (s : Q) :
  0 <= s <= 1 ->
  exists c, confidence (interpret_prediction (Some s)) = Some c /\ 50 <= c <= 100.
Proof.
  intros Hs. rewrite interpret_prediction_Some. eexists; split; [reflexivity|split].
  - apply Qle_trans with (percent2 (1#2)); [vm_compute; discriminate|].
    apply percent2_mono, final_confidence_ge_half.
  - apply Qle_trans with (percent2 1); [|vm_compute; discriminate].
    apply percent2_mono, final_confidence_le_1, Hs.
Qed.

Lemma confidence_range_witness :
  (0 <= 9#10 <= 1) /\
  exists c, confidence (interpret_prediction (Some (9#10))) = Some c /\ 50 <= c <= 100.
Proof.
  split; [split; vm_compute; discriminate|].
  apply confidence_range. split; vm_compute; discriminate.
Defined.

(** C9: Symmetry around 0.5: for a score [x] other than 0.5, [x] and
    [1 - x] get opposite diagnoses and equal confidences. *)
Theorem interpret_symmetric (x : Q) :
  ~ x == 1#2 ->
  diagnosis (interpret_prediction (Some x)) <> diagnosis (interpret_prediction (Some (1 - x))) /\
  jeq (confidence (interpret_prediction (Some x)))
      (confidence (interpret_prediction (Some (1 - x)))).
Proof.
  intros Hne. rewrite !interpret_prediction_Some. cbn [diagnosis confidence jeq].
  destruct (Qlt_le_dec (1#2) x) as [Hlt|Hle].
  - assert (js_gtb x (1#2) = true) as -> by (apply js_gtb_Q; lra).
    assert (js_gtb (1 - x) (1#2) = false) as -> by (apply js_gtb_Q_false; lra).
    split; [discriminate|]. apply percent2_Proper. ring.
  - assert (x < 1#2) by (apply Qle_lteq in Hle as [|]; [assumption|contradiction]).
    assert (js_gtb x (1#2) = false) as -> by (apply js_gtb_Q_false; lra).
    assert (js_gtb (1 - x) (1#2) = true) as -> by (apply js_gtb_Q; lra).
    split; [discriminate|]. reflexivity.
Qed.

Lemma interpret_symmetric_witness :
  ~ (9#10) == 1#2 /\
  diagnosis (interpret_prediction (Some (9#10))) <>
    diagnosis (interpret_prediction (Some (1 - (9#10)))) /\
  jeq (confidence (interpret_prediction (Some (9#10))))
      (confidence (interpret_prediction (Some (1 - (9#10))))).
Proof.
  assert (H : ~ (9#10) == 1#2) by (vm_compute; discriminate).
  split; [exact H|]. apply interpret_symmetric. exact H.
Defined.

(** A NaN score (a NaN model output, or reading index 0 of an empty
    output) is diagnosed ['Benigno'] with a NaN confidence: [NaN > 0.5]
    is false and [1 - NaN] is NaN. *)
Theorem interpret_nan {N} `{JsNumber N} :
  interpret_prediction (N:=N) None =
    {| diagnosis := "Benigno"; confidence := None; rawPrediction := None |}.
Proof. reflexivity. Qed.

(** The examples of spec section 8: 0.5 gives ['Benigno'] with 50,
    0.9 gives ['Maligno'] with 90 and 0.1 gives ['Benigno'] with 90. *)
Example interpret_spec_examples :
  pr_equiv (interpret_prediction (Some (1#2)))
           {| diagnosis := "Benigno"; confidence := Some 50; rawPrediction := Some (1#2) |} /\
  pr_equiv (interpret_prediction (Some (9#10)))
           {| diagnosis := "Maligno"; confidence := Some 90; rawPrediction := Some (9#10) |} /\
  pr_equiv (interpret_prediction (Some (1#10)))
           {| diagnosis := "Benigno"; confidence := Some 90; rawPrediction := Some (1#10) |}.
Proof. repeat split; reflexivity. Qed.

(** The diagnosis is always one of [classNames]. *)
Lemma diagnosis_in_classNames {N} `{JsNumber N} (c : jsnum N) :
  diagnosis (interpret_prediction c) ∈ classNames.
Proof.
  unfold interpret_prediction; cbn [diagnosis].
  destruct (jgt c jhalf); unfold classNames; repeat constructor.
Qed.
