(* ===== verification/Tensors.v ===== *)
(** The TensorFlow.js engine as [src/server.js] uses it: a registry of
    live tensors, each created by [tf.tensor3d], [expandDims] or
    [model.predict] and removed by [dispose]. [tf.memory().numTensors]
    is the size of the registry; a tensor that is never disposed stays
    in it for the life of the process. *)
From S2P Require Import Prelude Numbers.
Local Open Scope nat_scope.

Record Tensor (N : Type) := mkTensor {
  t_shape : list nat;
  t_values : list (jsnum N)
}.
Arguments mkTensor {N}.
Arguments t_shape {N}.
Arguments t_values {N}.

Record Engine (N : Type) := mkEngine {
  eng_next : nat;                    (** the id of the next tensor *)
  eng_live : gmap nat (Tensor N)     (** live tensors by id *)
}.
Arguments mkEngine {N}.
Arguments eng_next {N}.
Arguments eng_live {N}.

Section Engine.
Context {N : Type}.
Implicit Types (e : Engine N) (t : Tensor N).

(** [tf.memory().numTensors]. *)
Definition numTensors e : nat := size (eng_live e).

(** Every id in the registry is below the id counter. *)
Definition engine_wf e : Prop := forall i, i ∈ dom (eng_live e) -> i < eng_next e.

(** Creating a tensor registers it under a fresh id. *)
Definition tf_alloc {E} t : PM (Engine N) E nat :=
  fun e => (inr (eng_next e),
            mkEngine (S (eng_next e)) (<[eng_next e := t]> (eng_live e))).

(** [tensor.dispose()]: a second dispose is a no-op. *)
Definition tf_dispose {E} (i : nat) : PM (Engine N) E unit :=
  pm_modify (fun e => mkEngine (eng_next e) (delete i (eng_live e))).

(** The values of a live tensor ([await tensor.data()]). *)
Definition tf_read e (i : nat) : option (Tensor N) := eng_live e !! i.

Definition shape_size (shape : list nat) : nat := foldr Nat.mul 1 shape.

(** [tf.tensor3d(values, shape)]: the shape must have three dimensions
    whose product is the number of values. *)
Definition tensor3d (values : list (jsnum N)) (shape : list nat) : PM (Engine N) JsError nat :=
  if decide (length shape = 3 /\ shape_size shape = length values)
  then tf_alloc (mkTensor shape values)
  else pm_throw (Error "Based on the provided shape, the tensor has the wrong number of values").

(** [t.expandDims(0)]: a new tensor with a leading axis of size 1; the
    original stays registered. *)
Definition expandDims0 (i : nat) : PM (Engine N) JsError nat :=
  fun e => match tf_read e i with
           | Some t => tf_alloc (mkTensor (1 :: t_shape t) (t_values t)) e
           | None => (inl (Error "Tensor is disposed."), e)
           end.
End Engine.

(** ** The registry invariant and the tensor count *)

Section EngineLemmas.
Context {N : Type}.
Implicit Types (e : Engine N) (t : Tensor N).

Lemma engine_wf_empty : engine_wf (N:=N) (mkEngine 0 ∅).
Proof. intros i Hi. cbn in Hi. rewrite dom_empty_L in Hi. apply elem_of_empty in Hi. contradiction. Qed.

Lemma engine_wf_fresh e : engine_wf e -> eng_live e !! eng_next e = None.
Proof.
  intros Hwf. apply not_elem_of_dom. intros Hin. apply Hwf in Hin. lia.
Qed.

Lemma tf_alloc_wf {E} t : pm_preserves (@engine_wf N) (tf_alloc (E:=E) t).
Proof.
  intros e Hwf i. cbn. rewrite dom_insert_L, elem_of_union, elem_of_singleton.
  intros [->|Hi]; [lia|]. apply Hwf in Hi. lia.
Qed.

Lemma tf_dispose_wf {E} i : pm_preserves (@engine_wf N) (tf_dispose (E:=E) i).
Proof.
  intros e Hwf j. cbn. rewrite dom_delete_L, elem_of_difference. intros [Hj _]. auto.
Qed.

Lemma tensor3d_wf vs shape : pm_preserves engine_wf (tensor3d (N:=N) vs shape).
Proof. unfold tensor3d. case_decide; auto using tf_alloc_wf with prog. Qed.

Lemma expandDims0_wf i : pm_preserves engine_wf (expandDims0 (N:=N) i).
Proof.
  intros e Hwf. unfold expandDims0. destruct (tf_read e i); [apply tf_alloc_wf|]; exact Hwf.
Qed.

(** Creating a tensor adds exactly one to [numTensors]. *)
Lemma tf_alloc_numTensors {E} t e :
  engine_wf e -> numTensors (snd (tf_alloc (E:=E) t e)) = S (numTensors e).
Proof.
  intros Hwf. unfold numTensors. cbn. apply map_size_insert_None, engine_wf_fresh, Hwf.
Qed.

(** Disposing a live tensor removes exactly one. *)
Lemma tf_dispose_numTensors {E} i e t :
  eng_live e !! i = Some t -> numTensors (snd (tf_dispose (E:=E) i e)) = pred (numTensors e).
Proof. intros Hi. unfold numTensors. cbn. apply map_size_delete_Some. eauto. Qed.

(** A new tensor does not overwrite a live one. *)
Lemma tf_alloc_lookup_other {E} t e i :
  engine_wf e -> i ∈ dom (eng_live e) ->
  eng_live (snd (tf_alloc (E:=E) t e)) !! i = eng_live e !! i.
Proof.
  intros Hwf Hi. cbn. apply lookup_insert_ne. apply Hwf in Hi. lia.
Qed.
End EngineLemmas.

#[export] Hint Resolve tf_alloc_wf tf_dispose_wf tensor3d_wf expandDims0_wf : prog.
