(* ===== verification/Preprocess.v ===== *)
(** The image normalizer: [preprocessImage] of [src/server.js] (lines
    58-91). Jimp decodes and resizes the image (an interface here, with
    the laws the code relies on), a loop copies the red, green and blue
    bytes of the RGBA bitmap into a [Float32Array] divided by 255, and
    [tf.tensor3d(...).expandDims(0)] packs them into a [1,224,224,3]
    tensor. *)
From S2P Require Import Prelude Numbers Tensors.
Local Open Scope nat_scope.

(** [image.bitmap]: RGBA bytes, row-major, four per pixel. *)
Record Bitmap := mkBitmap {
  bm_width : nat;
  bm_height : nat;
  bm_data : list byte
}.

(** ** The image library: [Jimp.read] and [image.resize] *)
Class ImageLib := {
  jimp_read : list byte -> option Bitmap;        (** [None]: the promise rejects *)
  jimp_resize : nat -> nat -> Bitmap -> Bitmap
}.

(** What the code relies on: a resized bitmap has the requested size and
    four bytes per pixel. *)
Class ImageLibLaws `{ImageLib} := {
  resize_width : forall w h bm, bm_width (jimp_resize w h bm) = w;
  resize_height : forall w h bm, bm_height (jimp_resize w h bm) = h;
  resize_data : forall w h bm, length (bm_data (jimp_resize w h bm)) = 4 * (w * h)
}.

(** The numeric value of a byte read from the bitmap; reading past the
    end of a Node [Buffer] gives [undefined], which divides to NaN. *)
Definition byte_num {N} `{JsNumber N} (o : option byte) : jsnum N :=
  match o with
  | Some b => Some (js_of_Z (Z.of_N (Byte.to_N b)))
  | None => None
  end.

Section Normalizer.
Context {N : Type} `{JsNumber N}.

(** [new Float32Array(n)]: [n] zeros. *)
Definition f32_new (n : nat) : list (jsnum N) := replicate n (Some (js_of_Z 0)).

(** [arr[idx] = v] on a [Float32Array]: the value is rounded to single
    precision; a write at an index past the end is silently dropped,
    which is what stdpp's list [insert] does out of range. *)
Definition f32_set (arr : list (jsnum N)) (idx : nat) (v : jsnum N) : list (jsnum N) :=
  <[idx := option_map js_fround v]> arr.

(** [data[k] / 255.0] *)
Definition channel (data : list byte) (k : nat) : jsnum N :=
  jdiv (byte_num (data !! k)) (jlit 255).

(** The loop of lines 75-80, one iteration per unit of fuel:
    [for (let i = 0; i < data.length; i += 4)]. *)
Fixpoint rgba_loop (fuel : nat) (data : list byte) (i rgbIndex : nat)
         (rgbData : list (jsnum N)) : list (jsnum N) :=
  match fuel with
  | O => rgbData
  | S fuel' =>
      if i <? length data then
        let rgbData := f32_set rgbData rgbIndex (channel data i) in
        let rgbData := f32_set rgbData (rgbIndex + 1) (channel data (i + 1)) in
        let rgbData := f32_set rgbData (rgbIndex + 2) (channel data (i + 2)) in
        rgba_loop fuel' data (i + 4) (rgbIndex + 3) rgbData
      else rgbData
  end.

(** Lines 67-80: the loop runs at most [data.length] times, so that much
    fuel is enough (see [rgba_loop_fuel]). *)
Definition to_rgb_floats (data : list byte) (width height : nat) : list (jsnum N) :=
  rgba_loop (length data) data 0 0 (f32_new (width * height * 3)).

(** Reference definition: drop every fourth byte and scale the others. *)
Definition px (b : byte) : jsnum N := option_map js_fround (jdiv (byte_num (Some b)) (jlit 255)).

Fixpoint rgb_of_rgba (data : list byte) : list (jsnum N) :=
  match data with
  | r :: g :: b :: _ :: rest => px r :: px g :: px b :: rgb_of_rgba rest
  | _ => []
  end.
End Normalizer.

(** ** The loop computes the reference definition *)

Section NormalizerLemmas.
Context {N : Type} `{JsNumber N}.

Lemma rgb_of_rgba_length (data : list byte) k :
  length data = 4 * k -> length (rgb_of_rgba (N:=N) data) = 3 * k.
Proof.
  revert data. induction k as [|k IH]; intros data Hlen.
  - destruct data; [reflexivity|cbn in Hlen; lia].
  - destruct data as [|r [|g [|b [|a rest]]]]; cbn in Hlen; try lia.
    cbn. rewrite (IH rest); lia.
Qed.

Lemma rgb_of_rgba_app (pre rest : list byte) k :
  length pre = 4 * k -> rgb_of_rgba (N:=N) (pre ++ rest) = rgb_of_rgba pre ++ rgb_of_rgba rest.
Proof.
  revert pre. induction k as [|k IH]; intros pre Hlen.
  - destruct pre; [reflexivity|cbn in Hlen; lia].
  - destruct pre as [|r [|g [|b [|a pre]]]]; cbn in Hlen; try lia.
    cbn. rewrite (IH pre); [reflexivity|lia].
Qed.

Lemma channel_app_r (pre rest : list byte) i :
  length pre <= i ->
  channel (N:=N) (pre ++ rest) i = jdiv (byte_num (rest !! (i - length pre))) (jlit 255).
Proof. intros Hi. unfold channel. rewrite lookup_app_r by exact Hi. reflexivity. Qed.

(** One iteration over the pixel [r g b a] writes its three scaled
    channels after the ones already written. *)
Lemma f32_set3_app (pre : list (jsnum N)) (v1 v2 v3 : jsnum N) m :
  f32_set (f32_set (f32_set (pre ++ f32_new (3 * S m)) (length pre) v1)
                   (length pre + 1) v2) (length pre + 2) v3 =
  (pre ++ [option_map js_fround v1; option_map js_fround v2; option_map js_fround v3])
    ++ f32_new (3 * m).
Proof.
  unfold f32_set, f32_new.
  replace (3 * S m) with (S (S (S (3 * m)))) by lia.
  rewrite (insert_app_r_alt pre _ (length pre)), Nat.sub_diag by lia.
  rewrite (insert_app_r_alt pre _ (length pre + 1)) by lia.
  replace (length pre + 1 - length pre) with 1 by lia.
  rewrite (insert_app_r_alt pre _ (length pre + 2)) by lia.
  replace (length pre + 2 - length pre) with 2 by lia.
  cbn. rewrite <- app_assoc. reflexivity.
Qed.

Lemma rgba_loop_spec m : forall fuel (pre rest : list byte) k,
  length pre = 4 * k -> length rest = 4 * m -> m <= fuel ->
  rgba_loop fuel (pre ++ rest) (4 * k) (3 * k) (rgb_of_rgba pre ++ f32_new (3 * m)) =
  rgb_of_rgba (pre ++ rest).
Proof.
  induction m as [|m IH]; intros fuel pre rest k Hpre Hrest Hfuel.
  - destruct rest; [|cbn in Hrest; lia].
    change (@f32_new N _ (3 * 0)) with (@nil (jsnum N)). rewrite !app_nil_r.
    destruct fuel; [reflexivity|]. cbn [rgba_loop]. rewrite Hpre, Nat.ltb_irrefl. reflexivity.
  - destruct fuel as [|fuel]; [lia|].
    destruct rest as [|r [|g [|b [|a rest]]]]; cbn in Hrest; try lia.
    pose proof (rgb_of_rgba_length pre k Hpre) as Hl.
    cbn [rgba_loop].
    replace (4 * k <? length (pre ++ r :: g :: b :: a :: rest)) with true
      by (symmetry; apply Nat.ltb_lt; rewrite length_app; cbn; lia).
    rewrite !channel_app_r by lia.
    rewrite Hpre. replace (4 * k - 4 * k) with 0 by lia.
    replace (4 * k + 1 - 4 * k) with 1 by lia. replace (4 * k + 2 - 4 * k) with 2 by lia.
    rewrite <- Hl, f32_set3_app.
    replace (pre ++ r :: g :: b :: a :: rest) with ((pre ++ [r; g; b; a]) ++ rest)
      by (rewrite <- app_assoc; reflexivity).
    change ((r :: g :: b :: a :: rest) !! 0) with (Some r).
    change ((r :: g :: b :: a :: rest) !! 1) with (Some g).
    change ((r :: g :: b :: a :: rest) !! 2) with (Some b).
    change [option_map js_fround (jdiv (byte_num (Some r)) (jlit 255));
            option_map js_fround (jdiv (byte_num (Some g)) (jlit 255));
            option_map js_fround (jdiv (byte_num (Some b)) (jlit 255))]
      with (rgb_of_rgba (N:=N) [r; g; b; a]).
    rewrite <- (rgb_of_rgba_app pre [r; g; b; a] k Hpre), Hl.
    replace (4 * k + 4) with (4 * S k) by lia. replace (3 * k + 3) with (3 * S k) by lia.
    apply IH; [rewrite length_app; cbn; lia|lia|lia].
Qed.
End NormalizerLemmas.

Section NormalizerTheorems.
Context {N : Type} `{JsNumber N}.

(** C18: Termination of the loop of lines 75-80: every iteration moves
    [i] forward by 4, so any fuel of at least [data.length - i] gives
    the same array; the loop ends before the fuel does. *)
Theorem rgba_loop_fuel (f1 f2 : nat) (data : list byte) i rgbIndex (rgbData : list (jsnum N)) :
  length data - i <= f1 -> length data - i <= f2 ->
  rgba_loop f1 data i rgbIndex rgbData = rgba_loop f2 data i rgbIndex rgbData.
Proof.
  revert f2 i rgbIndex rgbData.
  induction f1 as [|f1 IH]; intros f2 i rgbIndex rgbData H1 H2.
  - destruct f2 as [|f2]; [reflexivity|]. cbn [rgba_loop].
    destruct (Nat.ltb_spec i (length data)); [lia|reflexivity].
  - destruct f2 as [|f2].
    + cbn [rgba_loop]. destruct (Nat.ltb_spec i (length data)); [lia|reflexivity].
    + cbn [rgba_loop]. destruct (Nat.ltb_spec i (length data)); [|reflexivity].
      apply IH; lia.
Qed.

(** The loop computes [rgb_of_rgba] on a full bitmap. *)
Lemma to_rgb_floats_eq (data : list byte) (width height : nat) :
  length data = 4 * (width * height) ->
  to_rgb_floats (N:=N) data width height = rgb_of_rgba data.
Proof.
  intros Hlen. unfold to_rgb_floats.
  rewrite (Nat.mul_comm (width * height) 3).
  apply (rgba_loop_spec (width * height) (length data) [] data 0); cbn; lia.
Qed.

(** C6: Equivalence of the index loop with the reference definition:
    on a bitmap of [width * height] RGBA pixels, [to_rgb_floats] is the
    list of scaled red, green and blue channels, pixel after pixel,
    and fills the [Float32Array] exactly. *)
Theorem to_rgb_floats_spec (data : list byte) (width height : nat) :
  length data = 4 * (width * height) ->
  to_rgb_floats (N:=N) data width height = rgb_of_rgba data.
Proof. intros; apply to_rgb_floats_eq; assumption. Qed.

(** The loop reads only the red, green and blue bytes: two bitmaps
    that differ only in their alpha bytes give the same array. *)
Definition same_rgb (d1 d2 : list byte) : Prop :=
  length d1 = length d2 /\ forall j, j mod 4 <> 3 -> d1 !! j = d2 !! j.

Lemma mod4_channel i k : i mod 4 = 0 -> k < 3 -> (i + k) mod 4 <> 3.
Proof. intros Hi Hk. rewrite Nat.Div0.add_mod, Hi. destruct k as [|[|[|k]]]; cbn; lia. Qed.

Lemma mod4_next i : i mod 4 = 0 -> (i + 4) mod 4 = 0.
Proof. intros Hi. rewrite Nat.Div0.add_mod, Hi. reflexivity. Qed.

Lemma rgba_loop_same_rgb fuel (d1 d2 : list byte) i rgbIndex (rgbData : list (jsnum N)) :
  same_rgb d1 d2 -> i mod 4 = 0 ->
  rgba_loop fuel d1 i rgbIndex rgbData = rgba_loop fuel d2 i rgbIndex rgbData.
Proof.
  intros [Hlen Hrgb]. revert i rgbIndex rgbData.
  induction fuel as [|fuel IH]; intros i rgbIndex rgbData Hi; [reflexivity|].
  cbn [rgba_loop]. rewrite Hlen. destruct (i <? length d2); [|reflexivity].
  unfold channel.
  assert (Hc : forall k, k < 3 -> d1 !! (i + k) = d2 !! (i + k))
    by (intros k Hk; apply Hrgb, mod4_channel; assumption).
  pose proof (Hc 0) as H0. rewrite Nat.add_0_r in H0.
  rewrite H0, (Hc 1), (Hc 2) by lia.
  apply IH, mod4_next, Hi.
Qed.

(** The alpha channel is discarded: [to_rgb_floats] does not
    depend on the alpha bytes of the bitmap. *)
Theorem to_rgb_floats_ignores_alpha (d1 d2 : list byte) (width height : nat) :
  same_rgb d1 d2 -> to_rgb_floats (N:=N) d1 width height = to_rgb_floats d2 width height.
Proof.
  intros Hs. unfold to_rgb_floats. rewrite (proj1 Hs).
  apply rgba_loop_same_rgb; [exact Hs|reflexivity].
Qed.
End NormalizerTheorems.

(** ** Range of the normalized values on rationals *)

Definition in_unit (v : jsnum Q) : Prop := exists q, v = Some q /\ (0 <= q <= 1)%Q.

Lemma px_in_unit (b : byte) : in_unit (px (N:=Q) b).
Proof.
  eexists; split; [reflexivity|].
  pose proof (Byte.to_N_bounded b) as Hb.
  assert (Hz0 : (0 <= Z.of_N (Byte.to_N b))%Z) by lia.
  assert (Hz1 : (Z.of_N (Byte.to_N b) <= 255)%Z) by lia.
  rewrite Zle_Qle in Hz0, Hz1. change (inject_Z 0) with 0%Q in Hz0.
  change (inject_Z 255) with 255%Q in Hz1.
  cbn [js_fround js_div js_of_Z JsNumber_Q]. unfold Qdiv.
  change (Qinv (inject_Z 255)) with (1#255)%Q.
  split; lra.
Qed.

Lemma rgb_of_rgba_in_unit (data : list byte) : Forall in_unit (rgb_of_rgba (N:=Q) data).
Proof.
  remember (length data) as n eqn:Hn. revert data Hn.
  induction n as [n IH] using lt_wf_ind. intros data Hn.
  destruct data as [|r [|g [|b [|a rest]]]]; cbn; auto.
  repeat (constructor; [apply px_in_unit|]). apply (IH (length rest)); [cbn in Hn; lia|reflexivity].
Qed.

(** ** [preprocessImage] *)

Section PreprocessImage.
Context {N : Type} `{JsNumber N} `{ImageLib}.
Local Open Scope prog_scope.

(** [await Jimp.read(imageBuffer)]: rejects on bytes it cannot decode. *)
Definition jimp_read_m (imageBuffer : list byte) : PM (Engine N) JsError Bitmap :=
  match jimp_read imageBuffer with
  | Some bm => pm_ret bm
  | None => pm_throw (Error "Could not find MIME for Buffer")
  end.

(** Lines 58-91. [image.resize] mutates the Jimp image in place; the
    model names the resized bitmap. Whatever fails inside the [try] is
    replaced by the error ['Error al procesar la imagen']. *)
Definition preprocessImage (imageBuffer : list byte) : PM (Engine N) JsError nat :=
  pm_catch
    (image <- jimp_read_m imageBuffer ;;
     let image := jimp_resize 224 224 image in
     let width := bm_width image in
     let height := bm_height image in
     let data := bm_data image in
     let rgbData := to_rgb_floats data width height in
     t3 <- tensor3d rgbData [224; 224; 3] ;;
     expandDims0 t3)
    (fun _ => pm_throw (Error "Error al procesar la imagen")).
End PreprocessImage.

(** ** A concrete image library

    Raw images ([width; height] followed by RGBA bytes) with
    nearest-neighbour resizing; it satisfies [ImageLibLaws] and is used
    to run the theorems on concrete inputs. *)

Definition raw_pixel (bm : Bitmap) (x y : nat) : list byte :=
  let base := 4 * (y * bm_width bm + x) in
  map (fun k => default x00 (bm_data bm !! (base + k))) [0; 1; 2; 3].

Definition raw_resize (w h : nat) (bm : Bitmap) : Bitmap :=
  mkBitmap w h
    (flat_map (fun y =>
       flat_map (fun x => raw_pixel bm (x * bm_width bm / w) (y * bm_height bm / h)) (seq 0 w))
     (seq 0 h)).

Definition raw_read (buf : list byte) : option Bitmap :=
  match buf with
  | w :: h :: data =>
      let w := N.to_nat (Byte.to_N w) in
      let h := N.to_nat (Byte.to_N h) in
      if decide (length data = 4 * (w * h)) then Some (mkBitmap w h data) else None
  | _ => None
  end.

#[export] Instance RawImageLib : ImageLib := {
  jimp_read := raw_read;
  jimp_resize := raw_resize
}.

Lemma flat_map_const_length {A B} (f : A -> list B) (l : list A) k :
  (forall x, length (f x) = k) -> length (flat_map f l) = length l * k.
Proof.
  intros Hf. induction l as [|x l IH]; [reflexivity|].
  cbn. rewrite length_app, Hf, IH. lia.
Qed.

#[export] Instance RawImageLib_laws : @ImageLibLaws RawImageLib.
Proof.
  split; [reflexivity|reflexivity|].
  intros w h bm. cbn.
  rewrite (flat_map_const_length _ _ (w * 4)), length_seq; [lia|].
  intros y. rewrite (flat_map_const_length _ _ 4), length_seq; [lia|reflexivity].
Qed.

(** ** Properties of [preprocessImage] *)

Section PreprocessLemmas.
Context {N : Type} `{JsNumber N}.
Implicit Types (e : Engine N).

Lemma tensor3d_ok (vs : list (jsnum N)) shape e :
  length shape = 3 -> shape_size shape = length vs ->
  tensor3d vs shape e = tf_alloc (mkTensor shape vs) e.
Proof. intros H1 H2. unfold tensor3d. rewrite decide_True by auto. reflexivity. Qed.

Lemma expandDims0_ok i t e :
  eng_live e !! i = Some t ->
  expandDims0 i e = tf_alloc (mkTensor (1 :: t_shape t) (t_values t)) e.
Proof. intros Hi. unfold expandDims0, tf_read. rewrite Hi. reflexivity. Qed.

Lemma tf_alloc_new {E} t e :
  tf_alloc (E:=E) t e =
  (inr (eng_next e), mkEngine (S (eng_next e)) (<[eng_next e := t]> (eng_live e))).
Proof. reflexivity. Qed.
End PreprocessLemmas.

Section PreprocessTheorems.
Context `{ImageLib} `{!ImageLibLaws}.

Lemma shape_size_224 : shape_size [224; 224; 3] = 3 * (224 * 224).
Proof.
  unfold shape_size. cbn [foldr]. rewrite Nat.mul_1_r, (Nat.mul_comm 3), Nat.mul_assoc.
  reflexivity.
Qed.

(** The normalized values of a resized bitmap. *)
Lemma resized_rgb (bm : Bitmap) :
  let bm' := jimp_resize 224 224 bm in
  to_rgb_floats (N:=Q) (bm_data bm') (bm_width bm') (bm_height bm') = rgb_of_rgba (bm_data bm') /\
  length (rgb_of_rgba (N:=Q) (bm_data bm')) = 3 * (224 * 224).
Proof.
  cbv zeta. rewrite resize_width, resize_height. split.
  - apply to_rgb_floats_eq, resize_data.
  - apply rgb_of_rgba_length, resize_data.
Qed.

(** C5: On bytes Jimp can decode, [preprocessImage] returns a live
    tensor of shape [1, 224, 224, 3] holding 224 * 224 * 3 values, each
    in [0, 1]; it registers two tensors (the [tensor3d] and its
    [expandDims]) and keeps the registry well formed. *)
Theorem preprocessImage_ok (buf : list byte) (bm : Bitmap) (e : Engine Q) :
  jimp_read buf = Some bm -> engine_wf e ->
  exists i e',
    preprocessImage buf e = (inr i, e') /\ engine_wf e' /\
    numTensors e' = numTensors e + 2 /\
    exists t, eng_live e' !! i = Some t /\ t_shape t = [1; 224; 224; 3] /\
              length (t_values t) = 224 * 224 * 3 /\ Forall in_unit (t_values t).
Proof.
  intros Hread Hwf. destruct (resized_rgb bm) as [Hrgb Hlen].
  set (vals := rgb_of_rgba (N:=Q) (bm_data (jimp_resize 224 224 bm))) in *.
  set (t3 := mkTensor [224; 224; 3] vals).
  set (t4 := mkTensor [1; 224; 224; 3] vals).
  pose proof (tf_alloc_wf (E:=JsError) t3 e Hwf) as Hwf1.
  pose proof (tf_alloc_numTensors (E:=JsError) t3 e Hwf) as Hc1.
  set (e1 := snd (tf_alloc (E:=JsError) t3 e)) in *.
  exists (eng_next e1), (snd (tf_alloc (E:=JsError) t4 e1)).
  split; [|split; [|split]].
  - unfold preprocessImage, pm_catch, pm_bind, jimp_read_m. rewrite Hread.
    cbv [pm_ret]. rewrite Hrgb, tensor3d_ok by (rewrite ?Hlen, ?shape_size_224; reflexivity).
    rewrite tf_alloc_new. cbv beta iota.
    rewrite (expandDims0_ok (eng_next e) t3); [reflexivity|].
    apply lookup_insert_eq.
  - apply tf_alloc_wf, Hwf1.
  - rewrite tf_alloc_numTensors by exact Hwf1. clear - Hc1. lia.
  - exists t4. split; [apply lookup_insert_eq|]. 
    split; [reflexivity|split; [change (t_values t4) with vals; rewrite Hlen; apply Nat.mul_comm|]].
    apply rgb_of_rgba_in_unit.
Qed.

(** When Jimp cannot decode the bytes, [preprocessImage] fails
    with ['Error al procesar la imagen'] and creates no tensor. *)
Theorem preprocessImage_decode_error (buf : list byte) (e : Engine Q) :
  jimp_read buf = None ->
  preprocessImage buf e = (inl (Error "Error al procesar la imagen"), e).
Proof.
  intros Hread. unfold preprocessImage, pm_catch, pm_bind, jimp_read_m.
  rewrite Hread. reflexivity.
Qed.
End PreprocessTheorems.

(** ** Witnesses on concrete inputs *)

Definition pixel_rgba : list byte := [x10; x20; x30; xff].
Definition pixel_rgb0 : list byte := [x10; x20; x30; x00].

Lemma rgba_loop_fuel_witness :
  length pixel_rgba - 0 <= 4 /\ length pixel_rgba - 0 <= 9 /\
  rgba_loop (N:=Q) 4 pixel_rgba 0 0 (f32_new 3) = rgba_loop 9 pixel_rgba 0 0 (f32_new 3).
Proof.
  split; [cbn; lia|split; [cbn; lia|]].
  apply rgba_loop_fuel; cbn; lia.
Defined.

Lemma to_rgb_floats_spec_witness :
  length pixel_rgba = 4 * (1 * 1) /\
  to_rgb_floats (N:=Q) pixel_rgba 1 1 = rgb_of_rgba pixel_rgba.
Proof. split; [reflexivity|]. apply to_rgb_floats_spec. reflexivity. Defined.

Lemma same_rgb_pixel : same_rgb pixel_rgba pixel_rgb0.
Proof.
  split; [reflexivity|].
  intros [|[|[|[|j]]]] Hj; try reflexivity. exfalso. apply Hj. reflexivity.
Qed.

Lemma to_rgb_floats_ignores_alpha_witness :
  same_rgb pixel_rgba pixel_rgb0 /\
  to_rgb_floats (N:=Q) pixel_rgba 1 1 = to_rgb_floats pixel_rgb0 1 1.
Proof.
  split; [exact same_rgb_pixel|]. apply to_rgb_floats_ignores_alpha, same_rgb_pixel.
Defined.

(** A raw 1x1 image and an empty engine. *)
Definition raw_1x1 : list byte := x01 :: x01 :: pixel_rgba.
Definition empty_engine : Engine Q := mkEngine 0 ∅.

Lemma empty_engine_wf : engine_wf empty_engine.
Proof. apply engine_wf_empty. Qed.

Lemma preprocessImage_ok_witness :
  jimp_read raw_1x1 = Some (mkBitmap 1 1 pixel_rgba) /\ engine_wf empty_engine /\
  exists i e',
    preprocessImage raw_1x1 empty_engine = (inr i, e') /\ engine_wf e' /\
    numTensors e' = numTensors empty_engine + 2 /\
    exists t, eng_live e' !! i = Some t /\ t_shape t = [1; 224; 224; 3] /\
              length (t_values t) = 224 * 224 * 3 /\ Forall in_unit (t_values t).
Proof.
  split; [reflexivity|split; [exact empty_engine_wf|]].
  apply (preprocessImage_ok raw_1x1 (mkBitmap 1 1 pixel_rgba)); [reflexivity|exact empty_engine_wf].
Defined.

Lemma preprocessImage_decode_error_witness :
  jimp_read [x00] = None /\
  preprocessImage [x00] empty_engine = (inl (Error "Error al procesar la imagen"), empty_engine).
Proof. split; [reflexivity|]. apply preprocessImage_decode_error. reflexivity. Defined.

(** ** The exact run of [preprocessImage] *)

Section PreprocessRun.
Context {N : Type} `{JsNumber N} `{ImageLib} `{!ImageLibLaws}.

(** The values [preprocessImage] puts in its tensors. *)
Definition normalized (bm : Bitmap) : list (jsnum N) :=
  rgb_of_rgba (bm_data (jimp_resize 224 224 bm)).

Lemma normalized_length bm : length (normalized bm) = 3 * (224 * 224).
Proof. apply rgb_of_rgba_length, resize_data. Qed.

(** On decodable bytes, [preprocessImage] registers the [tensor3d] under
    the next id and its [expandDims] under the one after, and returns
    the latter. *)
Lemma preprocessImage_run (buf : list byte) (bm : Bitmap) (e : Engine N) :
  jimp_read buf = Some bm ->
  preprocessImage buf e =
    (inr (S (eng_next e)),
     mkEngine (S (S (eng_next e)))
       (<[S (eng_next e) := mkTensor [1; 224; 224; 3] (normalized bm)]>
          (<[eng_next e := mkTensor [224; 224; 3] (normalized bm)]> (eng_live e)))).
Proof.
  intros Hread. unfold preprocessImage, pm_catch, pm_bind, jimp_read_m. rewrite Hread.
  cbv [pm_ret]. rewrite resize_width, resize_height, to_rgb_floats_eq by apply resize_data.
  rewrite tensor3d_ok
    by (reflexivity || (rewrite shape_size_224; symmetry; apply normalized_length)).
  rewrite tf_alloc_new. cbv beta iota.
  rewrite (expandDims0_ok (eng_next e) (mkTensor [224; 224; 3] (normalized bm)));
    [reflexivity|apply lookup_insert_eq].
Qed.
(** On bytes Jimp cannot decode, [preprocessImage] throws the error of
    line 89 and leaves the registry as it was. *)
Lemma preprocessImage_none (buf : list byte) (e : Engine N) :
  jimp_read buf = None -> preprocessImage buf e = (inl (Error "Error al procesar la imagen"), e).
Proof. intros Hr. unfold preprocessImage, pm_catch, pm_bind, jimp_read_m. rewrite Hr. reflexivity. Qed.
End PreprocessRun.
