(* ===== verification/Base64.v ===== *)
(** The transport encoding of the image: base64 in a data URL.

    [src/test-client.js] ([imageToBase64], lines 6-16) encodes a file
    with [Buffer.toString('base64')] and prefixes it with
    [data:image/png;base64,] or [data:image/jpeg;base64,].
    [src/server.js] ([POST /predict], lines 166-168) removes a prefix
    matching [/^data:image\/[a-z]+;base64,/] and decodes the rest with
    [Buffer.from(base64Data, 'base64')].

    Node's decoder is lenient: it skips characters outside the base64
    alphabet (it accepts the URL-safe [-] and [_] too), stops at the
    first [=], and never throws. The theorems show that the server
    recovers exactly the bytes the client read. *)
From S2P Require Import Prelude.
From Stdlib Require Import Ascii String.
Local Open Scope Z_scope.

(** ** Bytes as integers *)

Definition bval (b : byte) : Z := Z.of_N (Byte.to_N b).

Definition byte_of_Z (z : Z) : byte :=
  match Byte.of_N (Z.to_N z) with Some b => b | None => x00 end.

Lemma bval_range (b : byte) : 0 <= bval b < 256.
Proof. unfold bval. pose proof (Byte.to_N_bounded b). lia. Qed.

Lemma byte_of_Z_bval (b : byte) : byte_of_Z (bval b) = b.
Proof. unfold byte_of_Z, bval. rewrite N2Z.id, Byte.of_to_N. reflexivity. Qed.

(** ** The alphabet *)

Definition b64_alphabet : string :=
  "ABCDEFGHIJKLMNOPQRSTUVWXYZabcdefghijklmnopqrstuvwxyz0123456789+/".

(** The character of a sextet (the encoder's table). *)
Definition b64_char (v : Z) : ascii :=
  match String.get (Z.to_nat v) b64_alphabet with Some c => c | None => "A"%char end.

(** Node's [unbase64] table: the standard and the URL-safe alphabets. *)
Definition unbase64 (c : ascii) : option Z :=
  let n := Z.of_nat (nat_of_ascii c) in
  if (65 <=? n) && (n <=? 90) then Some (n - 65)
  else if (97 <=? n) && (n <=? 122) then Some (n - 97 + 26)
  else if (48 <=? n) && (n <=? 57) then Some (n - 48 + 52)
  else if (n =? 43) || (n =? 45) then Some 62
  else if (n =? 47) || (n =? 95) then Some 63
  else None.

(** ** Encoding: [Buffer.prototype.toString('base64')] *)

Definition sext1 (n : Z) : Z := n / 262144.
Definition sext2 (n : Z) : Z := (n / 4096) mod 64.
Definition sext3 (n : Z) : Z := (n / 64) mod 64.
Definition sext4 (n : Z) : Z := n mod 64.

Fixpoint base64_encode (bs : list byte) : string :=
  match bs with
  | a :: b :: c :: rest =>
      let n := bval a * 65536 + bval b * 256 + bval c in
      String (b64_char (sext1 n)) (String (b64_char (sext2 n))
        (String (b64_char (sext3 n)) (String (b64_char (sext4 n)) (base64_encode rest))))
  | [a; b] =>
      let n := bval a * 65536 + bval b * 256 in
      String (b64_char (sext1 n)) (String (b64_char (sext2 n))
        (String (b64_char (sext3 n)) (String "=" EmptyString)))
  | [a] =>
      let n := bval a * 65536 in
      String (b64_char (sext1 n)) (String (b64_char (sext2 n))
        (String "=" (String "=" EmptyString)))
  | [] => EmptyString
  end.

(** ** Decoding: [Buffer.from(s, 'base64')] *)

(** The sextets of the legal characters before the first [=]. *)
Fixpoint b64_sextets (s : string) : list Z :=
  match s with
  | EmptyString => []
  | String c rest =>
      if Ascii.eqb c "=" then []
      else match unbase64 c with
           | Some v => v :: b64_sextets rest
           | None => b64_sextets rest
           end
  end.

(** Every two, three or four sextets give one, two or three bytes; a
    lone trailing sextet gives none. *)
Fixpoint sextets_to_bytes (l : list Z) : list byte :=
  match l with
  | s1 :: s2 :: s3 :: s4 :: rest =>
      let n := s1 * 262144 + s2 * 4096 + s3 * 64 + s4 in
      byte_of_Z (n / 65536) :: byte_of_Z ((n / 256) mod 256) :: byte_of_Z (n mod 256)
        :: sextets_to_bytes rest
  | [s1; s2; s3] =>
      let n := s1 * 262144 + s2 * 4096 + s3 * 64 in
      [byte_of_Z (n / 65536); byte_of_Z ((n / 256) mod 256)]
  | [s1; s2] =>
      let n := s1 * 262144 + s2 * 4096 in
      [byte_of_Z (n / 65536)]
  | _ => []
  end.

Definition base64_decode (s : string) : list byte := sextets_to_bytes (b64_sextets s).

(** ** Round trip *)

Lemma unbase64_b64_char (v : Z) : 0 <= v < 64 -> unbase64 (b64_char v) = Some v.
Proof.
  intros Hv.
  assert (Htab : forallb (fun k => match unbase64 (b64_char (Z.of_nat k)) with
                                   | Some w => w =? Z.of_nat k | None => false end)
                         (seq 0 64) = true) by reflexivity.
  rewrite forallb_forall in Htab.
  specialize (Htab (Z.to_nat v) ltac:(apply in_seq; lia)).
  rewrite Z2Nat.id in Htab by lia.
  destruct (unbase64 (b64_char v)) as [w|]; [|discriminate].
  apply Z.eqb_eq in Htab. subst. reflexivity.
Qed.

Lemma b64_sextets_char (v : Z) (rest : string) :
  0 <= v < 64 -> b64_sextets (String (b64_char v) rest) = v :: b64_sextets rest.
Proof.
  intros Hv. cbn [b64_sextets]. rewrite unbase64_b64_char by exact Hv.
  destruct (Ascii.eqb_spec (b64_char v) "=") as [Heq|_]; [|reflexivity].
  pose proof (unbase64_b64_char v Hv) as Hu. rewrite Heq in Hu. discriminate.
Qed.

Lemma sext_ranges (n : Z) :
  0 <= n < 16777216 ->
  0 <= sext1 n < 64 /\ 0 <= sext2 n < 64 /\ 0 <= sext3 n < 64 /\ 0 <= sext4 n < 64.
Proof.
  intros Hn. unfold sext1, sext2, sext3, sext4.
  repeat split; try apply Z.mod_pos_bound; try lia.
  - apply Z.div_pos; lia.
  - apply Z.div_lt_upper_bound; lia.
Qed.

(** The four sextets put back together give the 24-bit group. *)
Lemma sext_recombine (n : Z) :
  0 <= n -> sext1 n * 262144 + sext2 n * 4096 + sext3 n * 64 + sext4 n = n.
Proof.
  intros Hn. unfold sext1, sext2, sext3, sext4.
  pose proof (Z.div_mod n 64 ltac:(lia)) as H1.
  pose proof (Z.div_mod (n / 64) 64 ltac:(lia)) as H2.
  pose proof (Z.div_mod (n / 4096) 64 ltac:(lia)) as H3.
  assert (E1 : n / 64 / 64 = n / 4096) by (rewrite Z.div_div; [reflexivity|lia|lia]).
  assert (E2 : n / 4096 / 64 = n / 262144) by (rewrite Z.div_div; [reflexivity|lia|lia]).
  rewrite E1 in H2. rewrite E2 in H3. lia.
Qed.

(** The three bytes of a 24-bit group. *)
Lemma group_bytes (a b c : Z) :
  0 <= a < 256 -> 0 <= b < 256 -> 0 <= c < 256 ->
  (a * 65536 + b * 256 + c) / 65536 = a /\
  ((a * 65536 + b * 256 + c) / 256) mod 256 = b /\
  (a * 65536 + b * 256 + c) mod 256 = c.
Proof.
  intros Ha Hb Hc. split; [|split].
  - symmetry. apply Z.div_unique_pos with (r := b * 256 + c); lia.
  - rewrite <- (Z.div_unique_pos (a * 65536 + b * 256 + c) 256 (a * 256 + b) c) by lia.
    symmetry. apply Z.mod_unique_pos with (q := a); lia.
  - symmetry. apply Z.mod_unique_pos with (q := a * 256 + b); lia.
Qed.

(** Decoding inverts encoding, group of three bytes by group. *)
Lemma decode_encode (bs : list byte) : base64_decode (base64_encode bs) = bs.
Proof.
  unfold base64_decode.
  remember (List.length bs) as len eqn:Hlen. revert bs Hlen.
  induction len as [len IH] using lt_wf_ind. intros bs Hlen.
  destruct bs as [|a [|b [|c rest]]].
  - reflexivity.
  - pose proof (bval_range a).
    assert (Hn : 0 <= bval a * 65536 < 16777216) by lia.
    destruct (sext_ranges _ Hn) as (H1 & H2 & H3 & H4).
    cbn [base64_encode]. rewrite !b64_sextets_char by assumption. cbn.
    assert (sext3 (bval a * 65536) = 0 /\ sext4 (bval a * 65536) = 0) as [E3 E4]
      by (unfold sext3, sext4; replace (bval a * 65536) with (bval a * 1024 * 64) by ring;
          rewrite Z.div_mul, Z.mod_mul by lia;
          replace (bval a * 1024) with (bval a * 16 * 64) by ring; rewrite Z.mod_mul by lia; auto).
    pose proof (sext_recombine (bval a * 65536) ltac:(lia)) as R.
    rewrite E3, E4, Z.mul_0_l, !Z.add_0_r in R. rewrite R, Z.div_mul by lia.
    rewrite byte_of_Z_bval. reflexivity.
  - pose proof (bval_range a). pose proof (bval_range b).
    assert (Hn : 0 <= bval a * 65536 + bval b * 256 < 16777216) by lia.
    destruct (sext_ranges _ Hn) as (H1 & H2 & H3 & H4).
    cbn [base64_encode]. rewrite !b64_sextets_char by assumption. cbn.
    assert (E4 : sext4 (bval a * 65536 + bval b * 256) = 0)
      by (unfold sext4; replace (bval a * 65536 + bval b * 256) with ((bval a * 1024 + bval b * 4) * 64)
            by ring; apply Z.mod_mul; lia).
    pose proof (sext_recombine (bval a * 65536 + bval b * 256) ltac:(lia)) as R.
    rewrite E4, Z.add_0_r in R. rewrite R.
    destruct (group_bytes (bval a) (bval b) 0) as (G1 & G2 & _); [lia..|].
    rewrite Z.add_0_r in G1, G2. rewrite G1, G2, !byte_of_Z_bval. reflexivity.
  - pose proof (bval_range a). pose proof (bval_range b). pose proof (bval_range c).
    cbn [base64_encode]. set (n := bval a * 65536 + bval b * 256 + bval c).
    assert (Hn : 0 <= n < 16777216) by (unfold n; lia).
    destruct (sext_ranges _ Hn) as (S1 & S2 & S3 & S4).
    rewrite !b64_sextets_char by assumption.
    cbn [sextets_to_bytes]. rewrite (sext_recombine n) by lia.
    destruct (group_bytes (bval a) (bval b) (bval c)) as (G1 & G2 & G3); [lia..|].
    unfold n. rewrite G1, G2, G3, !byte_of_Z_bval.
    f_equal; f_equal; f_equal. apply (IH (List.length rest)); [cbn in Hlen; lia|reflexivity].
Qed.

(** ** The data URL prefix *)

Fixpoint strip_prefix (p s : string) : option string :=
  match p, s with
  | EmptyString, _ => Some s
  | String c p', String d s' => if Ascii.eqb c d then strip_prefix p' s' else None
  | String _ _, EmptyString => None
  end.

Definition is_lower (c : ascii) : bool :=
  let n := nat_of_ascii c in (97 <=? n)%nat && (n <=? 122)%nat.

(** The longest prefix of [a-z] characters and the rest. *)
Fixpoint span_lower (s : string) : string * string :=
  match s with
  | String c r => if is_lower c then let (l, r') := span_lower r in (String c l, r')
                  else (EmptyString, s)
  | EmptyString => (EmptyString, EmptyString)
  end.

(** [image.replace(/^data:image\/[a-z]+;base64,/, '')] (line 167). The
    letter run is followed by [;], which is not a letter, so the greedy
    maximal run is the only one that can match. *)
Definition strip_data_url (s : string) : string :=
  match strip_prefix "data:image/" s with
  | Some rest =>
      let (letters, rest') := span_lower rest in
      match letters, strip_prefix ";base64," rest' with
      | String _ _, Some b64 => b64
      | _, _ => s
      end
  | None => s
  end.

(** ** The client: [imageToBase64] of [src/test-client.js] *)

Definition to_lower_ascii (c : ascii) : ascii :=
  let n := nat_of_ascii c in
  if (65 <=? n)%nat && (n <=? 90)%nat then ascii_of_nat (n + 32) else c.

(** [String.prototype.toLowerCase] on ASCII strings. *)
Fixpoint to_lower (s : string) : string :=
  match s with
  | EmptyString => EmptyString
  | String c r => String (to_lower_ascii c) (to_lower r)
  end.

(** The state of Node's [path.posix.extname] scan (right to left). *)
Record ExtScan := {
  startDot : option nat;
  startPart : nat;
  end_ : option nat;
  matchedSlash : bool;
  preDotState : Z
}.

Definition ext_step (i : nat) (c : ascii) (st : ExtScan) : ExtScan + ExtScan :=
  if Ascii.eqb c "/" then
    if negb (matchedSlash st) then inr {| startDot := startDot st; startPart := S i;
           end_ := end_ st; matchedSlash := matchedSlash st; preDotState := preDotState st |}
    else inl st
  else
    let st := match end_ st with
              | None => {| startDot := startDot st; startPart := startPart st; end_ := Some (S i);
                           matchedSlash := false; preDotState := preDotState st |}
              | Some _ => st
              end in
    if Ascii.eqb c "." then
      match startDot st with
      | None => inl {| startDot := Some i; startPart := startPart st; end_ := end_ st;
                       matchedSlash := matchedSlash st; preDotState := preDotState st |}
      | Some _ => if Z.eqb (preDotState st) 1 then inl st
                  else inl {| startDot := startDot st; startPart := startPart st; end_ := end_ st;
                              matchedSlash := matchedSlash st; preDotState := 1 |}
      end
    else match startDot st with
         | Some _ => inl {| startDot := startDot st; startPart := startPart st; end_ := end_ st;
                            matchedSlash := matchedSlash st; preDotState := -1 |}
         | None => inl st
         end.

(** [for (let i = path.length - 1; i >= 0; --i)], with [break]. *)
Fixpoint ext_loop (i : nat) (path : string) (st : ExtScan) : ExtScan :=
  match i with
  | O => st
  | S i' =>
      match String.get i' path with
      | Some c => match ext_step i' c st with
                  | inl st' => ext_loop i' path st'
                  | inr st' => st'
                  end
      | None => st
      end
  end.

Definition extname (path : string) : string :=
  let st := ext_loop (String.length path) path
              {| startDot := None; startPart := 0; end_ := None; matchedSlash := true;
                 preDotState := 0 |} in
  match startDot st, end_ st with
  | Some sd, Some e =>
      if Z.eqb (preDotState st) 0 ||
         (Z.eqb (preDotState st) 1 && Nat.eqb sd (e - 1) && Nat.eqb sd (S (startPart st)))
      then EmptyString
      else substring sd (e - sd) path
  | _, _ => EmptyString
  end.

(** Lines 6-16; [file] is what [fs.readFileSync] returns ([None] when it
    throws, in which case the function returns [null]). *)
Definition imageToBase64 (imagePath : string) (file : option (list byte)) : option string :=
  match file with
  | None => None
  | Some imageBuffer =>
      let base64String := base64_encode imageBuffer in
      let mimeType := if String.eqb (to_lower (extname imagePath)) ".png"
                      then "image/png" else "image/jpeg" in
      Some ("data:" ++ mimeType ++ ";base64," ++ base64String)%string
  end.

(** ** Properties of the prefix removal *)

Fixpoint all_lower (s : string) : bool :=
  match s with EmptyString => true | String c r => is_lower c && all_lower r end.

Lemma strip_prefix_app (p s : string) : strip_prefix p (p ++ s) = Some s.
Proof.
  induction p as [|c p IH]; [reflexivity|].
  change (String c p ++ s)%string with (String c (p ++ s)%string).
  cbn [strip_prefix]. rewrite Ascii.eqb_refl. exact IH.
Qed.

Lemma strip_prefix_Some (p s r : string) : strip_prefix p s = Some r -> s = (p ++ r)%string.
Proof.
  revert s. induction p as [|c p IH]; intros s H; cbn in H.
  - injection H as <-. reflexivity.
  - destruct s as [|d s]; [discriminate|].
    destruct (Ascii.eqb_spec c d); [subst|discriminate].
    change (String d p ++ r)%string with (String d (p ++ r)%string). f_equal. auto.
Qed.

Lemma span_lower_app (l t : string) :
  all_lower l = true -> match t with String c _ => is_lower c = false | EmptyString => True end ->
  span_lower (l ++ t) = (l, t).
Proof.
  intros Hl Ht. induction l as [|c l IH].
  - change ("" ++ t)%string with t.
    destruct t as [|c t]; [reflexivity|]. cbn [span_lower]. rewrite Ht. reflexivity.
  - change (String c l ++ t)%string with (String c (l ++ t)%string).
    cbn [span_lower all_lower] in *.
    apply andb_prop in Hl as [Hc Hl]. rewrite Hc, IH by exact Hl. reflexivity.
Qed.

(** The prefix removal on a data URL with a lower-case subtype. *)
Lemma strip_data_url_app (mime s : string) :
  mime <> EmptyString -> all_lower mime = true ->
  strip_data_url ("data:image/" ++ mime ++ ";base64," ++ s) = s.
Proof.
  intros Hne Hl. unfold strip_data_url.
  change ("data:image/" ++ mime ++ ";base64," ++ s)%string
    with ("data:image/" ++ (mime ++ ";base64," ++ s))%string.
  rewrite strip_prefix_app, span_lower_app by (exact Hl || reflexivity).
  destruct mime as [|c m]; [contradiction|]. rewrite strip_prefix_app. reflexivity.
Qed.

(** The server removes exactly the prefix [data:image/<type>;base64,]
    for any non-empty lower-case media subtype. *)
Theorem strip_data_url_prefix (mime s : string) :
  mime <> EmptyString -> all_lower mime = true ->
  strip_data_url ("data:image/" ++ mime ++ ";base64," ++ s) = s.
Proof. intros; apply strip_data_url_app; assumption. Qed.

Lemma strip_data_url_prefix_witness :
  "png" <> EmptyString /\ all_lower "png" = true /\
  strip_data_url ("data:image/" ++ "png" ++ ";base64," ++ "QUJD") = "QUJD".
Proof.
  split; [discriminate|split; [reflexivity|]].
  apply strip_data_url_prefix; [discriminate|reflexivity].
Defined.

(** Characters the encoder can emit. *)
Definition b64_ok (c : ascii) : bool :=
  match unbase64 c with Some _ => true | None => Ascii.eqb c "=" end.

Fixpoint string_forallb (f : ascii -> bool) (s : string) : bool :=
  match s with EmptyString => true | String c r => f c && string_forallb f r end.

Lemma b64_ok_char (v : Z) : 0 <= v < 64 -> b64_ok (b64_char v) = true.
Proof. intros Hv. unfold b64_ok. rewrite unbase64_b64_char by exact Hv. reflexivity. Qed.

Lemma sext_ranges_bytes (a b c : byte) :
  0 <= bval a * 65536 + bval b * 256 + bval c < 16777216.
Proof. pose proof (bval_range a). pose proof (bval_range b). pose proof (bval_range c). lia. Qed.

Lemma base64_encode_ok (bs : list byte) : string_forallb b64_ok (base64_encode bs) = true.
Proof.
  remember (List.length bs) as len eqn:Hlen. revert bs Hlen.
  induction len as [len IH] using lt_wf_ind. intros bs Hlen.
  destruct bs as [|a [|b [|c rest]]]; [reflexivity|..]; cbn [base64_encode string_forallb].
  - pose proof (bval_range a).
    destruct (sext_ranges (bval a * 65536)) as (H1 & H2 & _); [lia|].
    rewrite !b64_ok_char by assumption. reflexivity.
  - pose proof (bval_range a). pose proof (bval_range b).
    destruct (sext_ranges (bval a * 65536 + bval b * 256)) as (H1 & H2 & H3 & _); [lia|].
    rewrite !b64_ok_char by assumption. reflexivity.
  - destruct (sext_ranges _ (sext_ranges_bytes a b c)) as (H1 & H2 & H3 & H4).
    rewrite !b64_ok_char by assumption. cbn [andb].
    apply (IH (List.length rest)); [cbn in Hlen; lia|reflexivity].
Qed.

(** A bare base64 string (no data URL) is left untouched: the
    prefix contains [:], which the encoder never emits, so the server
    decodes a bare encoding to the original bytes too. *)
Theorem strip_data_url_bare (bs : list byte) :
  strip_data_url (base64_encode bs) = base64_encode bs /\
  base64_decode (strip_data_url (base64_encode bs)) = bs.
Proof.
  assert (Hs : strip_data_url (base64_encode bs) = base64_encode bs).
  { unfold strip_data_url.
    destruct (strip_prefix "data:image/" (base64_encode bs)) as [r|] eqn:E; [|reflexivity].
    apply strip_prefix_Some in E. pose proof (base64_encode_ok bs) as Hok.
    rewrite E in Hok. discriminate. }
  split; [exact Hs|]. rewrite Hs. apply decode_encode.
Qed.

(** What [imageToBase64] produces, the server decodes back to the file. *)
Lemma imageToBase64_decodes (path str : string) (bytes : list byte) :
  imageToBase64 path (Some bytes) = Some str ->
  base64_decode (strip_data_url str) = bytes.
Proof.
  intros H. cbn [imageToBase64] in H. injection H as <-.
  destruct (String.eqb (to_lower (extname path)) ".png").
  - change ("data:" ++ "image/png" ++ ";base64," ++ base64_encode bytes)%string
      with ("data:image/" ++ "png" ++ ";base64," ++ base64_encode bytes)%string.
    rewrite strip_data_url_app by (discriminate || reflexivity). apply decode_encode.
  - change ("data:" ++ "image/jpeg" ++ ";base64," ++ base64_encode bytes)%string
      with ("data:image/" ++ "jpeg" ++ ";base64," ++ base64_encode bytes)%string.
    rewrite strip_data_url_app by (discriminate || reflexivity). apply decode_encode.
Qed.

(** C7: End to end over the two programs: whatever file the client
    reads, [imageToBase64] produces a string from which the server's
    prefix removal and base64 decoding recover the file's bytes. *)
Theorem client_server_roundtrip (path str : string) (bytes : list byte) :
  imageToBase64 path (Some bytes) = Some str ->
  base64_decode (strip_data_url str) = bytes.
Proof. apply imageToBase64_decodes. Qed.

Lemma client_server_roundtrip_witness :
  imageToBase64 "scan.PNG" (Some [x89; x50; x4e; x47]) = Some "data:image/png;base64,iVBORw=="%string /\
  base64_decode (strip_data_url "data:image/png;base64,iVBORw==") = [x89; x50; x4e; x47].
Proof.
  assert (H : imageToBase64 "scan.PNG" (Some [x89; x50; x4e; x47]) =
              Some "data:image/png;base64,iVBORw=="%string) by reflexivity.
  split; [exact H|]. exact (client_server_roundtrip _ _ _ H).
Defined.
