(* ===== verification/Server.v ===== *)
(** The server of [src/server.js]: its global state ([model],
    [isModelLoaded] and the TensorFlow engine), [loadModel],
    [makePrediction], the four routes, the 404 and error handlers, and
    the process lifecycle ([startServer], [SIGINT]/[SIGTERM]).

    A handler is a computation of the state and exception monad [PM] on
    [ServerState]; the handlers run one at a time (see the header of
    [Prelude] for what this leaves out). [keeps] states that the
    registry keeps given entries, and [dispatch_keeps_all] proves that
    every request keeps all the entries live before it: a request only
    disposes the tensors it created itself. *)
From S2P Require Import Prelude Numbers Interpret Tensors Preprocess Base64.
From Stdlib Require Import String.
Local Open Scope nat_scope.
Local Open Scope string_scope.

(** ** JSON values *)

(** A JSON value as [express.json()] parses it and [res.json] sends it;
    a number may be NaN ([JSON.stringify] writes it as [null]). *)
#[warnings="-register-all"]
Inductive json (N : Type) :=
| JNull
| JBool (b : bool)
| JNum (n : jsnum N)
| JStr (s : string)
| JArr (l : list (json N))
| JObj (fields : list (string * json N)).
Arguments JNull {N}.
Arguments JBool {N}.
Arguments JNum {N}.
Arguments JStr {N}.
Arguments JArr {N}.
Arguments JObj {N}.

(** [obj.key]: the last binding wins, as in [JSON.parse]; [None] is
    [undefined] (also for a non-object). *)
Definition json_prop {N} (v : json N) (key : string) : option (json N) :=
  match v with
  | JObj fields =>
      fold_left (fun acc '(k, x) => if String.eqb k key then Some x else acc) fields None
  | _ => None
  end.

(** JavaScript truthiness; [None] is [undefined]. *)
Definition truthy {N} `{JsNumber N} (v : option (json N)) : bool :=
  match v with
  | None | Some JNull => false
  | Some (JBool b) => b
  | Some (JNum None) => false
  | Some (JNum (Some x)) => negb (js_eqb x (js_of_Z 0))
  | Some (JStr s) => negb (String.eqb s "")
  | Some (JArr _) | Some (JObj _) => true
  end.

Record Response (N : Type) := mkResponse {
  status : nat;
  body : json N
}.
Arguments mkResponse {N}.
Arguments status {N}.
Arguments body {N}.

Definition error_body {N} (error message : string) : json N :=
  JObj [("error", JStr error); ("message", JStr message)].

(** ** The loaded graph model *)

(** What the code uses of a [tf.GraphModel]: its declared input shape
    ([None] for a free dimension, [-1] in [model.json]), the shape of
    its output, and the forward computation on the input values. *)
Record GraphModel (N : Type) := mkGraphModel {
  gm_input : list (option nat);
  gm_output : list nat;
  gm_forward : list (jsnum N) -> list (jsnum N)
}.
Arguments mkGraphModel {N}.
Arguments gm_input {N}.
Arguments gm_output {N}.
Arguments gm_forward {N}.

Fixpoint shape_compatible (decl : list (option nat)) (shape : list nat) : bool :=
  match decl, shape with
  | [], [] => true
  | None :: d, _ :: s => shape_compatible d s
  | Some n :: d, m :: s => Nat.eqb n m && shape_compatible d s
  | _, _ => false
  end.

Section Engine_ops.
Context {N : Type}.

(** [model.predict(imageTensor)]: the input must be live and match the
    declared shape; the result is a new tensor. *)
Definition predict_m (gm : GraphModel N) (i : nat) : PM (Engine N) JsError nat :=
  fun e => match tf_read e i with
           | None => (inl (Error "Tensor is disposed."), e)
           | Some t =>
               if shape_compatible (gm_input gm) (t_shape t)
               then tf_alloc (mkTensor (gm_output gm) (gm_forward gm (t_values t))) e
               else (inl (Error "The shape of the input does not match the model's input shape"), e)
           end.

(** [await tensor.data()] *)
Definition data_m (i : nat) : PM (Engine N) JsError (list (jsnum N)) :=
  fun e => match tf_read e i with
           | None => (inl (Error "Tensor is disposed."), e)
           | Some t => (inr (t_values t), e)
           end.
End Engine_ops.

(** ** Global state of [src/server.js] (lines 24-25 and the engine) *)

Record ServerState (N : Type) := mkServerState {
  model : option (GraphModel N);
  isModelLoaded : bool;
  engine : Engine N
}.
Arguments mkServerState {N}.
Arguments model {N}.
Arguments isModelLoaded {N}.
Arguments engine {N}.

(** Run an engine computation on the server state. *)
Definition on_engine {N E A} (m : PM (Engine N) E A) : PM (ServerState N) E A :=
  fun st => let (r, e') := m (engine st) in
            (r, mkServerState (model st) (isModelLoaded st) e').

Section Handlers.
Context {N : Type} `{JsNumber N} `{ImageLib}.
Local Open Scope prog_scope.
Implicit Types (st : ServerState N).

(** [loadModel] (lines 29-55): [outcome] is what
    [tf.loadGraphModel] resolves to, [None] when it rejects. The
    function catches every error, so it never throws. *)
Definition loadModel (outcome : option (GraphModel N)) st : ServerState N :=
  match outcome with
  | Some gm => mkServerState (Some gm) true (engine st)
  | None => mkServerState (model st) false (engine st)
  end.

(** [makePrediction] (lines 94-124). *)
Definition makePrediction (imageTensor : nat) : PM (ServerState N) JsError (PredictionResult N) :=
  pm_catch
    (st <- pm_get ;;
     if negb (isModelLoaded st) then pm_throw (Error "El modelo no está cargado")
     else match model st with
          | None => pm_throw (Error "Cannot read properties of undefined (reading 'predict')")
          | Some gm =>
              prediction <- on_engine (predict_m gm imageTensor) ;;
              predictionData <- on_engine (data_m prediction) ;;
              on_engine (tf_dispose imageTensor) ;;
              on_engine (tf_dispose prediction) ;;
              pm_ret (interpret_prediction (default None (predictionData !! 0)))
          end)
    (fun _ => pm_throw (Error "Error al realizar la predicción")).

Definition json_of_result (result : PredictionResult N) (timestamp : string) : json N :=
  JObj [("success", JBool true); ("diagnosis", JStr (diagnosis result));
        ("confidence", JNum (confidence result)); ("timestamp", JStr timestamp)].

Definition unavailable : Response N :=
  mkResponse 503 (error_body "Modelo no disponible"
                    "El modelo aún se está cargando o falló al cargar").

(** The 400 answers of lines 157-160, 170-173 and 210-213. *)
Definition image_required : Response N :=
  mkResponse 400 (error_body "Imagen requerida" "Debe proporcionar una imagen en formato base64").

Definition image_invalid : Response N :=
  mkResponse 400 (error_body "Formato de imagen inválido"
                    "La imagen debe estar en formato base64 válido").

Definition file_required : Response N :=
  mkResponse 400 (error_body "Archivo requerido" "Debe proporcionar un archivo de imagen").

Definition internal_error (err : JsError) : Response N :=
  mkResponse 500 (error_body "Error interno del servidor" (message err)).

(** Both prediction routes end the same way: preprocess, predict,
    answer 200 (lines 176-188 and 216-228). *)
Definition predict_and_respond (imageBuffer : list byte) (now : string)
  : PM (ServerState N) JsError (Response N) :=
  imageTensor <- on_engine (preprocessImage imageBuffer) ;;
  result <- makePrediction imageTensor ;;
  pm_ret (mkResponse 200 (json_of_result result now)).

(** [POST /predict] (lines 145-197). [req_body] is [req.body]; a
    non-string [image] makes [image.replace] throw a [TypeError], which
    the inner [try] answers with 400. [Buffer.from] never throws. *)
Definition predict_handler (req_body : json N) (now : string)
  : PM (ServerState N) JsError (Response N) :=
  pm_catch
    (st <- pm_get ;;
     if negb (isModelLoaded st) then pm_ret unavailable
     else
       let image := json_prop req_body "image" in
       if negb (truthy image) then pm_ret image_required
       else match image with
            | Some (JStr s) =>
                let base64Data := strip_data_url s in
                let imageBuffer := base64_decode base64Data in
                predict_and_respond imageBuffer now
            | _ => pm_ret image_invalid
            end)
    (fun err => pm_ret (internal_error err)).

(** [POST /predict/upload] (lines 200-237), after multer; [file] is
    [req.file.buffer], [None] when no file field was sent. *)
Definition upload_handler (file : option (list byte)) (now : string)
  : PM (ServerState N) JsError (Response N) :=
  pm_catch
    (st <- pm_get ;;
     if negb (isModelLoaded st) then pm_ret unavailable
     else match file with
          | None => pm_ret file_required
          | Some buf => predict_and_respond buf now
          end)
    (fun err => pm_ret (internal_error err)).

(** [GET /health] (lines 127-133); [isModelLoaded] is the global's value. *)
Definition health_handler (isModelLoaded : bool) (now : string) : Response N :=
  mkResponse 200 (JObj [("status", JStr "ok"); ("modelLoaded", JBool isModelLoaded);
                        ("timestamp", JStr now)]).

(** [GET /model/status] (lines 136-142). *)
Definition model_status_handler (isModelLoaded : bool) (now : string) : Response N :=
  mkResponse 200 (JObj [("loaded", JBool isModelLoaded);
                        ("classNames", JArr (map JStr classNames)); ("timestamp", JStr now)]).

(** The 404 handler (lines 240-245) and the error middleware
    (lines 248-254). *)
Definition not_found : Response N :=
  mkResponse 404 (error_body "Endpoint no encontrado" "La ruta solicitada no existe").

Definition unexpected_error : Response N :=
  mkResponse 500 (error_body "Error interno del servidor" "Ha ocurrido un error inesperado").
End Handlers.

(** ** Requests and routing *)

(** What [express.json()] made of the body: a parsed value ([{}] when
    the request is not JSON), or a rejection (malformed JSON, or more
    than 50mb), which goes to the error middleware. *)
Inductive BodyOutcome (N : Type) := BodyParsed (j : json N) | BodyRejected.
Arguments BodyParsed {N}.
Arguments BodyRejected {N}.

(** What [upload.single('image')] made of a multipart body: no file, a
    file buffer, or a rejection (a file over 10MB), which goes to the
    error middleware. *)
Inductive UploadOutcome := NoFile | UploadedFile (buf : list byte) | UploadRejected.

Record Request (N : Type) := mkRequest {
  req_method : string;
  req_path : string;
  req_body : BodyOutcome N;
  req_upload : UploadOutcome
}.
Arguments mkRequest {N}.
Arguments req_method {N}.
Arguments req_path {N}.
Arguments req_body {N}.
Arguments req_upload {N}.

(** Express matches routes case-insensitively and ignores one trailing
    slash; [app.get] also answers [HEAD]. *)
Definition path_is (pat p : string) : bool :=
  String.eqb (to_lower p) pat || String.eqb (to_lower p) (pat ++ "/").

Definition is_get (m : string) : bool := String.eqb m "GET" || String.eqb m "HEAD".

Section Dispatch.
Context {N : Type} `{JsNumber N} `{ImageLib}.
Local Open Scope prog_scope.

(** The middleware and routes in registration order (lines 12-254). *)
Definition dispatch (req : Request N) (now : string) : PM (ServerState N) JsError (Response N) :=
  match req_body req with
  | BodyRejected => pm_ret unexpected_error
  | BodyParsed b =>
      st <- pm_get ;;
      if is_get (req_method req) && path_is "/health" (req_path req)
      then pm_ret (health_handler (isModelLoaded st) now)
      else if is_get (req_method req) && path_is "/model/status" (req_path req)
      then pm_ret (model_status_handler (isModelLoaded st) now)
      else if String.eqb (req_method req) "POST" && path_is "/predict" (req_path req)
      then predict_handler b now
      else if String.eqb (req_method req) "POST" && path_is "/predict/upload" (req_path req)
      then match req_upload req with
           | UploadRejected => pm_ret unexpected_error
           | NoFile => upload_handler None now
           | UploadedFile f => upload_handler (Some f) now
           end
      else pm_ret not_found
  end.
End Dispatch.

(** ** The process *)

(** [startServer] awaits [loadModel] before [app.listen], so no request
    is served while the model loads; a signal ends the process. *)
Inductive Phase := Loading | Listening | Exited.

Record Process (N : Type) := mkProcess {
  phase : Phase;
  srv : ServerState N
}.
Arguments mkProcess {N}.
Arguments phase {N}.
Arguments srv {N}.

Inductive Event (N : Type) :=
| LoadSettled (outcome : option (GraphModel N))
| Incoming (req : Request N) (now : string)
| Signal.
Arguments LoadSettled {N}.
Arguments Incoming {N}.
Arguments Signal {N}.

Definition initial_process {N} : Process N :=
  mkProcess Loading (mkServerState None false (mkEngine 0 ∅)).

Section Lifecycle.
Context {N : Type} `{JsNumber N} `{ImageLib}.

(** One event of the process, and the response it sends, if any.
    [SIGINT]/[SIGTERM] (lines 279-293) dispose the model and exit; an
    exited process handles nothing. Events that cannot happen in a
    phase (a request before [app.listen]) change nothing. *)
Definition proc_step (p : Process N) (ev : Event N) : Process N * option (Response N) :=
  match phase p, ev with
  | Exited, _ => (p, None)
  | _, Signal => (mkProcess Exited (srv p), None)
  | Loading, LoadSettled o => (mkProcess Listening (loadModel o (srv p)), None)
  | Listening, Incoming req now =>
      let (r, st') := dispatch req now (srv p) in
      (mkProcess Listening st', match r with inr resp => Some resp | inl _ => None end)
  | _, _ => (p, None)
  end.

Inductive reachable : Process N -> Prop :=
| reachable_init : reachable initial_process
| reachable_step p ev : reachable p -> reachable (fst (proc_step p ev)).
End Lifecycle.

(** ** What the handlers change *)

(** The handlers never touch [model] or [isModelLoaded] and keep the
    engine's registry well formed. *)
Definition frame {N} (m0 : option (GraphModel N)) (b0 : bool) (st : ServerState N) : Prop :=
  model st = m0 /\ isModelLoaded st = b0 /\ engine_wf (engine st).

Section Frame.
Context {N : Type} `{JsNumber N} `{ImageLib}.

Lemma on_engine_frame {E A} (m : PM (Engine N) E A) m0 b0 :
  pm_preserves (@engine_wf N) m -> pm_preserves (frame m0 b0) (on_engine m).
Proof.
  intros Hm st (H1 & H2 & H3). unfold on_engine.
  specialize (Hm (engine st) H3). destruct (m (engine st)) as [r e'].
  repeat split; assumption.
Qed.

Lemma predict_m_wf gm i : pm_preserves (@engine_wf N) (predict_m gm i).
Proof.
  intros e He. unfold predict_m. destruct (tf_read e i); [|exact He].
  destruct (shape_compatible _ _); [apply tf_alloc_wf, He|exact He].
Qed.

Lemma data_m_wf i : pm_preserves (@engine_wf N) (data_m i).
Proof. intros e He. unfold data_m. destruct (tf_read e i); exact He. Qed.

Lemma jimp_read_m_wf buf : pm_preserves (@engine_wf N) (jimp_read_m buf).
Proof. unfold jimp_read_m. solve_preserves. Qed.

Lemma preprocessImage_wf buf : pm_preserves (@engine_wf N) (preprocessImage buf).
Proof. unfold preprocessImage. solve_preserves; eauto using jimp_read_m_wf with prog. Qed.
End Frame.

#[export] Hint Resolve on_engine_frame predict_m_wf data_m_wf preprocessImage_wf : prog.

Section FrameHandlers.
Context {N : Type} `{JsNumber N} `{ImageLib}.

Lemma makePrediction_frame i m0 b0 : pm_preserves (frame (N:=N) m0 b0) (makePrediction i).
Proof. unfold makePrediction. solve_preserves. Qed.

Lemma predict_and_respond_frame buf now m0 b0 :
  pm_preserves (frame (N:=N) m0 b0) (predict_and_respond buf now).
Proof. unfold predict_and_respond. solve_preserves. apply makePrediction_frame. Qed.

Lemma dispatch_frame req now m0 b0 : pm_preserves (frame (N:=N) m0 b0) (dispatch req now).
Proof.
  unfold dispatch, predict_handler, upload_handler.
  solve_preserves; apply predict_and_respond_frame.
Qed.
End FrameHandlers.

(** ** Runs of [makePrediction] *)

Section PredictionRuns.
Context {N : Type} `{JsNumber N} `{ImageLib}.

(** The output tensor of [model.predict]. *)
Definition output_tensor (gm : GraphModel N) (t : Tensor N) : Tensor N :=
  mkTensor (gm_output gm) (gm_forward gm (t_values t)).

Lemma makePrediction_run gm (e : Engine N) i t :
  eng_live e !! i = Some t -> shape_compatible (gm_input gm) (t_shape t) = true ->
  makePrediction i (mkServerState (Some gm) true e) =
    (inr (interpret_prediction (default None (gm_forward gm (t_values t) !! 0%nat))),
     mkServerState (Some gm) true
       (mkEngine (S (eng_next e))
          (delete (eng_next e) (delete i (<[eng_next e := output_tensor gm t]> (eng_live e)))))).
Proof.
  intros Ht Hc.
  unfold makePrediction, pm_catch, pm_bind, pm_get, on_engine, predict_m, tf_read.
  cbn [engine model isModelLoaded negb]. rewrite Ht, Hc.
  unfold tf_alloc, data_m, tf_read. cbn [engine eng_live eng_next model isModelLoaded].
  rewrite lookup_insert_eq. reflexivity.
Qed.

(** A tensor the model does not accept: [model.predict] throws and the
    error is replaced; nothing is registered or disposed. *)
Lemma makePrediction_shape_error gm (e : Engine N) i t :
  eng_live e !! i = Some t -> shape_compatible (gm_input gm) (t_shape t) = false ->
  makePrediction i (mkServerState (Some gm) true e) =
    (inl (Error "Error al realizar la predicción"), mkServerState (Some gm) true e).
Proof.
  intros Ht Hc.
  unfold makePrediction, pm_catch, pm_bind, pm_get, on_engine, predict_m, tf_read.
  cbn [engine model isModelLoaded negb]. rewrite Ht, Hc. reflexivity.
Qed.
End PredictionRuns.

Section PipelineRuns.
Context {N : Type} `{JsNumber N} `{ImageLib} `{!ImageLibLaws}.

(** The registry after a successful request: the [tensor3d] created
    by [preprocessImage] is the only tensor left behind. *)
Lemma registry_after_success (live : gmap nat (Tensor N)) k t3 t4 out :
  live !! S k = None -> live !! S (S k) = None ->
  delete (S (S k)) (delete (S k) (<[S (S k) := out]> (<[S k := t4]> (<[k := t3]> live)))) =
  <[k := t3]> live.
Proof.
  intros Hk1 Hk2.
  rewrite (delete_insert_ne _ (S k) (S (S k))) by lia.
  rewrite !delete_insert_eq.
  rewrite (delete_id (<[k := t3]> live) (S k)) by (rewrite lookup_insert_ne by lia; exact Hk1).
  apply delete_id. rewrite lookup_insert_ne by lia. exact Hk2.
Qed.

Lemma engine_wf_fresh_ge (e : Engine N) j : engine_wf e -> eng_next e <= j -> eng_live e !! j = None.
Proof. intros Hwf Hj. apply not_elem_of_dom. intros Hin. apply Hwf in Hin. lia. Qed.

Local Open Scope prog_scope.

(** The whole of a successful prediction: 200 with the interpretation of
    the model's first output on the normalized image; the registry
    keeps the [tensor3d]. *)
Lemma predict_and_respond_run (buf : list byte) (bm : Bitmap) gm (e : Engine N) now :
  engine_wf e -> jimp_read buf = Some bm ->
  shape_compatible (gm_input gm) [1; 224; 224; 3] = true ->
  predict_and_respond buf now (mkServerState (Some gm) true e) =
    (inr (mkResponse 200 (json_of_result
            (interpret_prediction (default None (gm_forward gm (normalized bm) !! 0%nat))) now)),
     mkServerState (Some gm) true
       (mkEngine (S (S (S (eng_next e))))
          (<[eng_next e := mkTensor [224; 224; 3] (normalized bm)]> (eng_live e)))).
Proof.
  intros Hwf Hread Hc.
  unfold predict_and_respond, pm_bind at 1, on_engine at 1. cbn [engine].
  rewrite (preprocessImage_run buf bm e Hread). cbn [model isModelLoaded].
  unfold pm_bind. rewrite (makePrediction_run gm _ _ (mkTensor [1; 224; 224; 3] (normalized bm)));
    [| apply lookup_insert_eq | exact Hc].
  cbn [eng_next eng_live t_values]. unfold pm_ret.
  rewrite registry_after_success; [reflexivity| |]; apply engine_wf_fresh_ge; auto.
Qed.
End PipelineRuns.

(** ** The contract of [POST /predict]

    A stateless reference function of the model, the ready flag, the
    request body and the clock: the response does not depend on the
    engine or on earlier requests. *)
Section PredictSpec.
Context {N : Type} `{JsNumber N} `{ImageLib}.

(** The outcome of preprocessing and prediction on decoded bytes. *)
Definition pipeline_spec (m : option (GraphModel N)) (buf : list byte) (now : string)
  : JsError + Response N :=
  match jimp_read buf with
  | None => inl (Error "Error al procesar la imagen")
  | Some bm =>
      match m with
      | Some gm =>
          if shape_compatible (gm_input gm) [1; 224; 224; 3]
          then inr (mkResponse 200 (json_of_result
                      (interpret_prediction (default None (gm_forward gm (normalized bm) !! 0%nat))) now))
          else inl (Error "Error al realizar la predicción")
      | None => inl (Error "Error al realizar la predicción")
      end
  end.

Definition predict_spec (m : option (GraphModel N)) (loaded : bool) (req_body : json N)
           (now : string) : Response N :=
  if negb loaded then unavailable
  else let image := json_prop req_body "image" in
       if negb (truthy image) then image_required
       else match image with
            | Some (JStr s) =>
                match pipeline_spec m (base64_decode (strip_data_url s)) now with
                | inl err => internal_error err
                | inr resp => resp
                end
            | _ => image_invalid
            end.
(** The contract of [POST /predict/upload], after multer. *)
Definition upload_spec (m : option (GraphModel N)) (loaded : bool) (file : option (list byte))
           (now : string) : Response N :=
  if negb loaded then unavailable
  else match file with
       | None => file_required
       | Some buf =>
           match pipeline_spec m buf now with
           | inl err => internal_error err
           | inr resp => resp
           end
       end.

(** The whole application as a function of the model, the ready flag,
    the request and the clock. *)
Definition app_spec (m : option (GraphModel N)) (loaded : bool) (req : Request N) (now : string)
  : Response N :=
  match req_body req with
  | BodyRejected => unexpected_error
  | BodyParsed b =>
      if is_get (req_method req) && path_is "/health" (req_path req)
      then health_handler loaded now
      else if is_get (req_method req) && path_is "/model/status" (req_path req)
      then model_status_handler loaded now
      else if String.eqb (req_method req) "POST" && path_is "/predict" (req_path req)
      then predict_spec m loaded b now
      else if String.eqb (req_method req) "POST" && path_is "/predict/upload" (req_path req)
      then match req_upload req with
           | UploadRejected => unexpected_error
           | NoFile => upload_spec m loaded None now
           | UploadedFile f => upload_spec m loaded (Some f) now
           end
      else not_found
  end.
End PredictSpec.

Section PredictRefinement.
Context {N : Type} `{JsNumber N} `{ImageLib} `{!ImageLibLaws}.
Local Open Scope prog_scope.

Lemma predict_and_respond_fst (buf : list byte) m (e : Engine N) now :
  engine_wf e ->
  fst (predict_and_respond buf now (mkServerState m true e)) = pipeline_spec m buf now.
Proof.
  intros Hwf. unfold pipeline_spec. destruct (jimp_read buf) as [bm|] eqn:Hr.
  - destruct m as [gm|].
    + destruct (shape_compatible (gm_input gm) [1; 224; 224; 3]) eqn:Hc.
      * rewrite (predict_and_respond_run buf bm gm e now) by assumption. reflexivity.
      * unfold predict_and_respond, pm_bind at 1, on_engine at 1. cbn [engine].
        rewrite (preprocessImage_run buf bm e Hr). cbn [model isModelLoaded].
        unfold pm_bind. rewrite (makePrediction_shape_error gm _ _ (mkTensor [1; 224; 224; 3] (normalized bm)));
          [reflexivity | apply lookup_insert_eq | exact Hc].
    + unfold predict_and_respond, pm_bind at 1, on_engine at 1. cbn [engine].
      rewrite (preprocessImage_run buf bm e Hr). reflexivity.
  - unfold predict_and_respond, pm_bind, on_engine, preprocessImage, pm_catch, jimp_read_m.
    rewrite Hr. reflexivity.
Qed.

(** The answer of [POST /predict] on a well-formed registry. *)
Lemma predict_handler_fst (req_body : json N) now (st : ServerState N) :
  engine_wf (engine st) ->
  fst (predict_handler req_body now st) =
    inr (predict_spec (model st) (isModelLoaded st) req_body now).
Proof.
  intros Hwf. destruct st as [m [|] e]; [|reflexivity].
  unfold predict_handler, predict_spec, pm_catch, pm_bind, pm_get. cbn [negb isModelLoaded model].
  destruct (truthy (json_prop req_body "image")); [|reflexivity].
  destruct (json_prop req_body "image") as [[| | | s | |]|]; try reflexivity.
  cbn [negb]. pose proof (predict_and_respond_fst (base64_decode (strip_data_url s)) m e now Hwf) as Hp.
  destruct (predict_and_respond _ now _) as [[err|resp] st']; cbn in Hp; rewrite <- Hp; reflexivity.
Qed.

(** C3: Refinement of the [POST /predict] contract: on a state whose
    registry is well formed, the handler answers what the stateless
    [predict_spec] answers for the same model, ready flag, body and
    clock; it never rejects. *)
Theorem predict_handler_refines (req_body : json N) now (st : ServerState N) :
  engine_wf (engine st) ->
  fst (predict_handler req_body now st) =
    inr (predict_spec (model st) (isModelLoaded st) req_body now).
Proof. intros; apply predict_handler_fst; assumption. Qed.

Lemma upload_handler_refines (file : option (list byte)) now (st : ServerState N) :
  engine_wf (engine st) ->
  fst (upload_handler file now st) = inr (upload_spec (model st) (isModelLoaded st) file now).
Proof.
  intros Hwf. destruct st as [m [|] e]; [|reflexivity].
  unfold upload_handler, upload_spec, pm_catch, pm_bind, pm_get. cbn [negb isModelLoaded model].
  destruct file as [buf|]; [|reflexivity].
  pose proof (predict_and_respond_fst buf m e now Hwf) as Hp.
  destruct (predict_and_respond buf now _) as [[err|resp] st']; cbn in Hp; rewrite <- Hp; reflexivity.
Qed.

(** The answer of the application on a well-formed registry. *)
Lemma dispatch_fst (req : Request N) now (st : ServerState N) :
  engine_wf (engine st) ->
  fst (dispatch req now st) = inr (app_spec (model st) (isModelLoaded st) req now).
Proof.
  intros Hwf. unfold dispatch, app_spec, pm_bind, pm_get.
  destruct (req_body req) as [b|]; [|reflexivity].
  repeat match goal with |- context [if ?c then _ else _] => destruct c end;
    try reflexivity.
  - apply predict_handler_fst, Hwf.
  - destruct (req_upload req); try reflexivity; apply upload_handler_refines, Hwf.
Qed.

(** C16: Refinement of the whole application: on a state whose registry
    is well formed, [dispatch] (middleware, routing, the four routes, 404
    and error middleware) answers what the stateless [app_spec] answers
    for the same model, ready flag, request and clock. *)
Theorem dispatch_refines (req : Request N) now (st : ServerState N) :
  engine_wf (engine st) ->
  fst (dispatch req now st) = inr (app_spec (model st) (isModelLoaded st) req now).
Proof. intros; apply dispatch_fst; assumption. Qed.
End PredictRefinement.

Section ServerTheorems.
Context {N : Type} `{JsNumber N} `{ImageLib} `{!ImageLibLaws}.

(** C10: Fail fast: when the model is not loaded, both prediction
    routes answer 503 without doing anything else (the state, the
    engine's registry included, is unchanged). *)
Theorem predict_unavailable (req_body : json N) (file : option (list byte)) now
        (st : ServerState N) :
  isModelLoaded st = false ->
  predict_handler req_body now st = (inr unavailable, st) /\
  upload_handler file now st = (inr unavailable, st).
Proof.
  intros Hl. unfold predict_handler, upload_handler, pm_catch, pm_bind, pm_get.
  rewrite Hl. split; reflexivity.
Qed.

(** C11: Bytes Jimp cannot decode are answered 500 ['Error interno del
    servidor'] with the message ['Error al procesar la imagen'] (a
    server error, where spec section 7 calls this a client-input
    fault), and no tensor is created. *)
Theorem predict_decode_error (req_body : json N) (s : string) now (st : ServerState N) :
  isModelLoaded st = true -> json_prop req_body "image" = Some (JStr s) -> s <> "" ->
  jimp_read (base64_decode (strip_data_url s)) = None ->
  predict_handler req_body now st =
    (inr (mkResponse 500 (error_body "Error interno del servidor" "Error al procesar la imagen")), st).
Proof.
  intros Hl Himg Hs Hr.
  unfold predict_handler, pm_catch, pm_bind, pm_get. rewrite Hl, Himg. cbn [truthy negb].
  destruct (String.eqb_spec s ""); [contradiction|]. cbn [negb].
  unfold predict_and_respond, pm_bind, on_engine, preprocessImage, pm_catch, jimp_read_m.
  rewrite Hr. destruct st. reflexivity.
Qed.

(** The run of a successful [POST /predict] (claim C4). *)
Lemma predict_success_run (req_body : json N) (s : string) now gm (e : Engine N) bm :
  engine_wf e -> json_prop req_body "image" = Some (JStr s) -> s <> "" ->
  jimp_read (base64_decode (strip_data_url s)) = Some bm ->
  shape_compatible (gm_input gm) [1; 224; 224; 3] = true ->
  exists e',
    predict_handler req_body now (mkServerState (Some gm) true e) =
      (inr (mkResponse 200 (json_of_result
              (interpret_prediction (default None (gm_forward gm (normalized bm) !! 0%nat))) now)),
       mkServerState (Some gm) true e') /\
    eng_live e' = <[eng_next e := mkTensor [224; 224; 3] (normalized bm)]> (eng_live e) /\
    numTensors e' = S (numTensors e).
Proof.
  intros Hwf Himg Hs Hr Hc.
  eexists. split; [|split].
  - unfold predict_handler, pm_catch, pm_bind at 1, pm_get. cbn [isModelLoaded negb].
    rewrite Himg. cbn [truthy negb].
    destruct (String.eqb_spec s ""); [contradiction|]. cbn [negb].
    rewrite (predict_and_respond_run _ bm) by assumption. reflexivity.
  - reflexivity.
  - unfold numTensors. cbn [eng_live]. apply map_size_insert_None, engine_wf_fresh, Hwf.
Qed.

(** C4: A successful [POST /predict] answers 200 with the
    interpretation of the model's first output on the normalized image,
    and leaves one tensor more in the registry than before: the
    [tf.tensor3d] of line 83, which is never disposed. The spec
    (section 4.2) requires that nothing leaks across calls. *)
Theorem predict_success_leaks (req_body : json N) (s : string) now gm (e : Engine N) bm :
  engine_wf e -> json_prop req_body "image" = Some (JStr s) -> s <> "" ->
  jimp_read (base64_decode (strip_data_url s)) = Some bm ->
  shape_compatible (gm_input gm) [1; 224; 224; 3] = true ->
  exists e',
    predict_handler req_body now (mkServerState (Some gm) true e) =
      (inr (mkResponse 200 (json_of_result
              (interpret_prediction (default None (gm_forward gm (normalized bm) !! 0%nat))) now)),
       mkServerState (Some gm) true e') /\
    eng_live e' = <[eng_next e := mkTensor [224; 224; 3] (normalized bm)]> (eng_live e) /\
    numTensors e' = S (numTensors e).
Proof. apply predict_success_run. Qed.

(** C27: When the model rejects the tensor's shape, [model.predict]
    throws before the [dispose] calls of lines 105-106: the request is
    answered 500 ['Error al realizar la predicción'] and both tensors of
    [preprocessImage] stay in the registry. *)
Theorem predict_shape_error_leaks (req_body : json N) (s : string) now gm (e : Engine N) bm :
  engine_wf e -> json_prop req_body "image" = Some (JStr s) -> s <> "" ->
  jimp_read (base64_decode (strip_data_url s)) = Some bm ->
  shape_compatible (gm_input gm) [1; 224; 224; 3] = false ->
  exists e',
    predict_handler req_body now (mkServerState (Some gm) true e) =
      (inr (internal_error (Error "Error al realizar la predicción")),
       mkServerState (Some gm) true e') /\
    numTensors e' = S (S (numTensors e)).
Proof.
  intros Hwf Himg Hs Hr Hc. eexists. split.
  - unfold predict_handler, pm_catch, pm_bind at 1, pm_get. cbn [isModelLoaded negb].
    rewrite Himg. cbn [truthy negb].
    destruct (String.eqb_spec s ""); [contradiction|]. cbn [negb].
    unfold predict_and_respond, pm_bind at 1, on_engine at 1. cbn [engine].
    rewrite (preprocessImage_run _ bm e Hr). cbn [model isModelLoaded].
    unfold pm_bind. rewrite (makePrediction_shape_error gm _ _ (mkTensor [1; 224; 224; 3] (normalized bm)));
      [reflexivity | apply lookup_insert_eq | exact Hc].
  - unfold numTensors. cbn [eng_live].
    rewrite map_size_insert_None, map_size_insert_None; [reflexivity| |].
    + apply engine_wf_fresh, Hwf.
    + rewrite lookup_insert_ne by lia. apply engine_wf_fresh_ge; auto.
Qed.

(** Determinism: two states with the same model and ready flag
    (whatever their engines hold) give the same response to the same
    request; in particular repeating a request repeats its answer. *)
Theorem predict_deterministic (req_body : json N) now (st1 st2 : ServerState N) :
  engine_wf (engine st1) -> engine_wf (engine st2) ->
  model st1 = model st2 -> isModelLoaded st1 = isModelLoaded st2 ->
  fst (predict_handler req_body now st1) = fst (predict_handler req_body now st2).
Proof.
  intros Hw1 Hw2 Hm Hl. rewrite !predict_handler_fst by assumption.
  rewrite Hm, Hl. reflexivity.
Qed.
End ServerTheorems.

(** ** The process over sequences of events *)

Section Runs.
Context {N : Type} `{JsNumber N} `{ImageLib}.

(** The responses sent along a sequence of events. *)
Fixpoint run (p : Process N) (evs : list (Event N)) : Process N * list (option (Response N)) :=
  match evs with
  | [] => (p, [])
  | ev :: evs' =>
      let (p', r) := proc_step p ev in
      let (p'', rs) := run p' evs' in
      (p'', r :: rs)
  end.

(** The process invariant: a ready flag implies a model, the registry
    is well formed, and nothing is loaded before the load settles. *)
Definition proc_inv (p : Process N) : Prop :=
  (isModelLoaded (srv p) = true -> model (srv p) <> None) /\
  engine_wf (engine (srv p)) /\
  (phase p = Loading -> isModelLoaded (srv p) = false).

Lemma dispatch_keeps (req : Request N) now (st : ServerState N) :
  engine_wf (engine st) ->
  model (snd (dispatch req now st)) = model st /\
  isModelLoaded (snd (dispatch req now st)) = isModelLoaded st /\
  engine_wf (engine (snd (dispatch req now st))).
Proof. intros Hwf. apply (dispatch_frame req now (model st) (isModelLoaded st) st). split_and!; auto. Qed.

Lemma proc_step_inv (p : Process N) ev : proc_inv p -> proc_inv (fst (proc_step p ev)).
Proof.
  destruct p as [ph st]. intros (Hm & Hwf & Hload).
  destruct ph, ev as [o|req now|]; cbn -[dispatch] in *; try (split_and!; auto; discriminate).
  - destruct o; cbn; split_and!; auto; discriminate.
  - pose proof (dispatch_keeps req now st Hwf) as (E1 & E2 & E3).
    destruct (dispatch req now st) as [r st']. cbn in *.
    unfold proc_inv; cbn [srv phase]. rewrite E1, E2. split_and!; auto.
Qed.

(** Reachable states satisfy [proc_inv], by induction on [reachable]. *)
Lemma reachable_proc_inv (p : Process N) : reachable p -> proc_inv p.
Proof.
  induction 1 as [|p ev _ IH].
  - split_and!; cbn; [discriminate|apply engine_wf_empty|reflexivity].
  - apply proc_step_inv, IH.
Qed.

(** C12: Invariant of every reachable state of the process: when the
    ready flag is set a model is present, the tensor registry is well
    formed, and the flag is down until the load settles. *)
Theorem reachable_inv (p : Process N) : reachable p -> proc_inv p.
Proof. intros; apply reachable_proc_inv; assumption. Qed.

(** C13: The model is loaded once: after the load has settled, no event
    changes the model or the ready flag (a failed load is never retried). *)
Theorem load_once (p : Process N) ev :
  reachable p -> phase p <> Loading ->
  model (srv (fst (proc_step p ev))) = model (srv p) /\
  isModelLoaded (srv (fst (proc_step p ev))) = isModelLoaded (srv p).
Proof.
  intros Hr Hph. destruct (reachable_proc_inv p Hr) as (_ & Hwf & _).
  destruct p as [[] st]; [contradiction| |]; destruct ev as [o|req now|];
    cbn -[dispatch]; auto.
  pose proof (dispatch_keeps req now st Hwf) as (E1 & E2 & _).
  destruct (dispatch req now st) as [r st']. cbn in *. auto.
Qed.

(** After a signal the process has exited and sends no response
    to any later event. *)
Theorem signal_final (p : Process N) (evs : list (Event N)) :
  phase (fst (proc_step p Signal)) = Exited /\
  Forall (fun r => r = None) (snd (run (fst (proc_step p Signal)) evs)).
Proof.
  assert (Hex : phase (fst (proc_step p Signal)) = Exited) by (destruct p as [[] st]; reflexivity).
  split; [exact Hex|]. remember (fst (proc_step p Signal)) as q eqn:Eq. clear Eq p.
  revert q Hex. induction evs as [|ev evs IH]; intros q Hq; cbn; [constructor|].
  destruct q as [ph st]; cbn in Hq; subst ph. cbn.
  specialize (IH (mkProcess Exited st) eq_refl).
  destruct (run (mkProcess Exited st) evs). constructor; auto.
Qed.
End Runs.

(** ** Routing and availability *)

Section Routing.
Context {N : Type} `{JsNumber N} `{ImageLib} `{!ImageLibLaws}.

(** Every request gets a response: no handler lets an exception
    escape (each prediction route catches everything). *)
Theorem dispatch_total (req : Request N) now (st : ServerState N) :
  exists resp, fst (dispatch req now st) = inr resp.
Proof.
  unfold dispatch, pm_bind, pm_get.
  destruct (req_body req) as [b|]; [|eexists; reflexivity].
  repeat match goal with |- context [if ?c then _ else _] => destruct c end;
    try (eexists; reflexivity).
  - apply pm_catch_ret_total.
  - destruct (req_upload req); try (eexists; reflexivity); apply pm_catch_ret_total.
Qed.

(** A request on a path none of the four routes matches gets the
    404 answer and changes nothing; a body [express.json()] rejects gets
    the error middleware's 500 on every path. *)
Theorem dispatch_not_found (req : Request N) now (st : ServerState N) :
  (forall pat, pat ∈ ["/health"; "/model/status"; "/predict"; "/predict/upload"] ->
               path_is pat (req_path req) = false) ->
  (exists b, req_body req = BodyParsed b) ->
  dispatch req now st = (inr not_found, st).
Proof.
  intros Hp [b Hb]. unfold dispatch, pm_bind, pm_get. rewrite Hb.
  rewrite !(Hp _) by (repeat constructor). rewrite !andb_false_r. reflexivity.
Qed.

Lemma dispatch_body_rejected (req : Request N) now (st : ServerState N) :
  req_body req = BodyRejected -> dispatch req now st = (inr unexpected_error, st).
Proof. intros Hb. unfold dispatch. rewrite Hb. reflexivity. Qed.

(** Degraded mode: in the listening phase with the ready flag
    down (the state a failed load leaves, which [load_once] keeps for
    the rest of the process), every [POST /predict] is answered 503 and
    changes nothing. *)
Theorem degraded_forever (p : Process N) (req : Request N) (b : json N) now :
  phase p = Listening -> isModelLoaded (srv p) = false ->
  req_method req = "POST" -> path_is "/predict" (req_path req) = true ->
  req_body req = BodyParsed b ->
  proc_step p (Incoming req now) = (p, Some unavailable).
Proof.
  intros Hph Hl Hm Hpath Hb. destruct p as [ph st]. cbn in Hph, Hl. subst ph.
  cbn -[dispatch]. unfold dispatch, pm_bind, pm_get. rewrite Hb, Hm, Hpath. cbn -[predict_handler].
  unfold predict_handler, pm_catch, pm_bind, pm_get. rewrite Hl. reflexivity.
Qed.
End Routing.

(** ** Requests keep the registry's entries *)

Lemma pm_bind_ret_snd {S E A B} (m : PM S E A) (f : A -> B) s :
  snd (pm_bind m (fun x => pm_ret (f x)) s) = snd (m s).
Proof. unfold pm_bind. destruct (m s) as [[e|a] s']; reflexivity. Qed.

Section RegistryFrame.
Context {N : Type} `{JsNumber N} `{ImageLib} `{!ImageLibLaws}.

(** The registry keeps every entry of [live0]. *)
Definition keeps (live0 : gmap nat (Tensor N)) (st : ServerState N) : Prop :=
  engine_wf (engine st) /\ forall k v, live0 !! k = Some v -> eng_live (engine st) !! k = Some v.

(** [makePrediction] touches no live tensor other than its argument. *)
Lemma makePrediction_keeps i (st : ServerState N) k :
  engine_wf (engine st) -> is_Some (eng_live (engine st) !! k) -> k <> i ->
  eng_live (engine (snd (makePrediction i st))) !! k = eng_live (engine st) !! k.
Proof.
  destruct st as [m b e]. cbn [engine]. intros Hwf [v Hk] Hki.
  assert (Hn : k <> eng_next e) by (intros ->; rewrite engine_wf_fresh in Hk by exact Hwf; discriminate).
  unfold makePrediction, pm_catch, pm_bind, pm_get, on_engine, predict_m, tf_read, data_m,
    tf_dispose, pm_modify, tf_alloc.
  destruct b; cbn [negb isModelLoaded model engine]; [|reflexivity].
  destruct m as [gm|]; [|reflexivity]. cbn [engine model isModelLoaded].
  destruct (eng_live e !! i) as [t|]; [|reflexivity].
  destruct (shape_compatible (gm_input gm) (t_shape t)); [|reflexivity].
  cbn. unfold tf_read. cbn [eng_live]. rewrite lookup_insert_eq. cbn.
  rewrite !lookup_delete_ne, lookup_insert_ne by congruence. reflexivity.
Qed.

Lemma predict_and_respond_keeps buf now (st : ServerState N) k v :
  engine_wf (engine st) -> eng_live (engine st) !! k = Some v ->
  eng_live (engine (snd (predict_and_respond buf now st))) !! k = Some v.
Proof.
  destruct st as [m b e]. cbn [engine]. intros Hwf Hk.
  assert (Hlt : k < eng_next e) by (apply Hwf, elem_of_dom; eauto).
  unfold predict_and_respond. unfold pm_bind at 1, on_engine at 1. cbn [engine].
  destruct (jimp_read buf) as [bm|] eqn:Hr.
  - pose proof (preprocessImage_wf buf e Hwf) as Hw. rewrite (preprocessImage_run buf bm e Hr) in Hw.
    rewrite (preprocessImage_run buf bm e Hr). cbn [model isModelLoaded].
    rewrite pm_bind_ret_snd, makePrediction_keeps; cbn [engine eng_live eng_next].
    + rewrite !lookup_insert_ne by lia. exact Hk.
    + exact Hw.
    + rewrite !lookup_insert_ne by lia. eauto.
    + lia.
  - rewrite (preprocessImage_none buf e Hr). exact Hk.
Qed.

Lemma predict_and_respond_keeps_all live0 buf now :
  pm_preserves (keeps live0) (predict_and_respond (N:=N) buf now).
Proof.
  intros st [Hwf Hk]. split.
  - destruct (predict_and_respond_frame buf now (model st) (isModelLoaded st) st) as (_ & _ & Hw); [split_and!; auto|exact Hw].
  - intros k v Hkv. apply predict_and_respond_keeps; auto.
Qed.

Lemma dispatch_keeps_all live0 req now : pm_preserves (keeps live0) (dispatch (N:=N) req now).
Proof.
  unfold dispatch, predict_handler, upload_handler.
  solve_preserves; apply predict_and_respond_keeps_all.
Qed.

(** C15: A request, whatever its route and outcome, keeps every tensor
    that was live before it: the handlers dispose only the tensors they
    created, so the model's weights stay registered. *)
Theorem dispatch_keeps_tensors (req : Request N) now (st : ServerState N) k v :
  engine_wf (engine st) -> eng_live (engine st) !! k = Some v ->
  eng_live (engine (snd (dispatch req now st))) !! k = Some v.
Proof.
  intros Hwf Hk. apply (dispatch_keeps_all (eng_live (engine st)) req now st (conj Hwf (fun _ _ h => h))), Hk.
Qed.
End RegistryFrame.

(** ** Witnesses on concrete inputs

    A model that accepts [[-1, 224, 224, 3]] and always outputs 0.9, the
    raw image library of [Preprocess], and the 1x1 image [raw_1x1] sent
    as a data URL. *)

Definition gm_const : GraphModel Q :=
  mkGraphModel [None; Some 224; Some 224; Some 3] [1; 1] (fun _ => [Some (9#10)]).

Definition image_url : string := "data:image/png;base64," ++ base64_encode raw_1x1.
Definition body_ok : json Q := JObj [("image", JStr image_url)].
Definition body_bad_image : json Q := JObj [("image", JStr "AAAA")].
Definition ready_state : ServerState Q := mkServerState (Some gm_const) true empty_engine.
Definition down_state : ServerState Q := mkServerState None false empty_engine.
Definition now0 : string := "2025-11-08T10:30:00.000Z".

(** A state whose registry already holds a leaked tensor. *)
Definition ready_state_used : ServerState Q :=
  mkServerState (Some gm_const) true (mkEngine 1 {[0 := mkTensor [224; 224; 3] []]}).

Lemma ready_state_used_wf : engine_wf (engine ready_state_used).
Proof.
  intros i Hi. cbn in Hi. rewrite dom_singleton_L, elem_of_singleton in Hi. cbn. lia.
Qed.

Definition after_load (o : option (GraphModel Q)) : Process Q :=
  fst (proc_step initial_process (LoadSettled o)).

Lemma after_load_reachable o : reachable (after_load o).
Proof. apply reachable_step, reachable_init. Qed.

Definition predict_request (b : json Q) : Request Q := mkRequest "POST" "/predict" (BodyParsed b) NoFile.

Lemma predict_handler_refines_witness :
  engine_wf (engine ready_state) /\
  fst (predict_handler body_ok now0 ready_state) =
    inr (predict_spec (model ready_state) (isModelLoaded ready_state) body_ok now0).
Proof.
  split; [exact empty_engine_wf|]. apply predict_handler_refines. exact empty_engine_wf.
Defined.

Lemma predict_unavailable_witness :
  isModelLoaded down_state = false /\
  predict_handler body_ok now0 down_state = (inr unavailable, down_state) /\
  upload_handler (Some raw_1x1) now0 down_state = (inr unavailable, down_state).
Proof. split; [reflexivity|]. apply predict_unavailable. reflexivity. Defined.

Lemma predict_decode_error_witness :
  isModelLoaded ready_state = true /\ json_prop body_bad_image "image" = Some (JStr "AAAA") /\
  "AAAA" <> "" /\ jimp_read (base64_decode (strip_data_url "AAAA")) = None /\
  predict_handler body_bad_image now0 ready_state =
    (inr (mkResponse 500 (error_body "Error interno del servidor" "Error al procesar la imagen")),
     ready_state).
Proof.
  split_and!; [reflexivity|reflexivity|discriminate|reflexivity|].
  apply (predict_decode_error _ "AAAA"); [reflexivity|reflexivity|discriminate|reflexivity].
Defined.

Lemma predict_success_leaks_witness :
  engine_wf empty_engine /\ json_prop body_ok "image" = Some (JStr image_url) /\
  image_url <> "" /\
  jimp_read (base64_decode (strip_data_url image_url)) = Some (mkBitmap 1 1 pixel_rgba) /\
  shape_compatible (gm_input gm_const) [1; 224; 224; 3] = true /\
  exists e',
    predict_handler body_ok now0 (mkServerState (Some gm_const) true empty_engine) =
      (inr (mkResponse 200 (json_of_result
              (interpret_prediction (default None
                 (gm_forward gm_const (normalized (mkBitmap 1 1 pixel_rgba)) !! 0%nat))) now0)),
       mkServerState (Some gm_const) true e') /\
    eng_live e' = <[eng_next empty_engine := mkTensor [224; 224; 3] (normalized (mkBitmap 1 1 pixel_rgba))]>
                    (eng_live empty_engine) /\
    numTensors e' = S (numTensors empty_engine).
Proof.
  split_and!; [exact empty_engine_wf|reflexivity|discriminate|reflexivity|reflexivity|].
  apply (predict_success_leaks _ image_url); [exact empty_engine_wf|reflexivity|discriminate|reflexivity|reflexivity].
Defined.

Lemma predict_deterministic_witness :
  engine_wf (engine ready_state) /\ engine_wf (engine ready_state_used) /\
  fst (predict_handler body_ok now0 ready_state) = fst (predict_handler body_ok now0 ready_state_used).
Proof.
  split_and!; [exact empty_engine_wf|exact ready_state_used_wf|].
  apply predict_deterministic; [exact empty_engine_wf|exact ready_state_used_wf|reflexivity|reflexivity].
Defined.

Lemma reachable_inv_witness :
  reachable (after_load (Some gm_const)) /\ proc_inv (after_load (Some gm_const)).
Proof. split; [apply after_load_reachable|]. apply reachable_inv, after_load_reachable. Defined.

Lemma load_once_witness :
  reachable (after_load None) /\ phase (after_load None) <> Loading /\
  model (srv (fst (proc_step (after_load None) (Incoming (predict_request body_ok) now0)))) =
    model (srv (after_load None)) /\
  isModelLoaded (srv (fst (proc_step (after_load None) (Incoming (predict_request body_ok) now0)))) =
    isModelLoaded (srv (after_load None)).
Proof.
  split_and!; [apply after_load_reachable|discriminate| |];
    apply load_once; [apply after_load_reachable|discriminate|apply after_load_reachable|discriminate].
Defined.

Lemma dispatch_not_found_witness :
  (forall pat, pat ∈ ["/health"; "/model/status"; "/predict"; "/predict/upload"] ->
               path_is pat "/predictions" = false) /\
  (exists b, req_body (mkRequest (N:=Q) "GET" "/predictions" (BodyParsed (JObj [])) NoFile) = BodyParsed b) /\
  dispatch (mkRequest "GET" "/predictions" (BodyParsed (JObj [])) NoFile) now0 ready_state =
    (inr not_found, ready_state).
Proof.
  assert (Hp : forall pat, pat ∈ ["/health"; "/model/status"; "/predict"; "/predict/upload"] ->
                           path_is pat "/predictions" = false).
  { intros pat Hin. repeat (apply elem_of_cons in Hin as [->|Hin]; [reflexivity|]).
    apply elem_of_nil in Hin. contradiction. }
  split_and!; [exact Hp|eexists; reflexivity|].
  apply dispatch_not_found; [exact Hp|eexists; reflexivity].
Defined.

Lemma degraded_forever_witness :
  phase (after_load None) = Listening /\ isModelLoaded (srv (after_load None)) = false /\
  proc_step (after_load None) (Incoming (predict_request body_ok) now0) =
    (after_load None, Some unavailable).
Proof.
  split_and!; [reflexivity|reflexivity|].
  apply (degraded_forever _ _ body_ok); reflexivity.
Defined.

Definition gm_wrong_shape : GraphModel Q :=
  mkGraphModel [None; Some 128; Some 128; Some 3] [1; 1] (fun _ => [Some (9#10)]).

Lemma predict_shape_error_leaks_witness :
  engine_wf empty_engine /\ json_prop body_ok "image" = Some (JStr image_url) /\
  image_url <> "" /\
  jimp_read (base64_decode (strip_data_url image_url)) = Some (mkBitmap 1 1 pixel_rgba) /\
  shape_compatible (gm_input gm_wrong_shape) [1; 224; 224; 3] = false /\
  exists e',
    predict_handler body_ok now0 (mkServerState (Some gm_wrong_shape) true empty_engine) =
      (inr (internal_error (Error "Error al realizar la predicción")),
       mkServerState (Some gm_wrong_shape) true e') /\
    numTensors e' = S (S (numTensors empty_engine)).
Proof.
  split_and!; [exact empty_engine_wf|reflexivity|discriminate|reflexivity|reflexivity|].
  apply (predict_shape_error_leaks _ image_url now0 gm_wrong_shape empty_engine (mkBitmap 1 1 pixel_rgba));
    [exact empty_engine_wf|reflexivity|discriminate|reflexivity|reflexivity].
Defined.

Definition upload_request (f : list byte) : Request Q :=
  mkRequest "POST" "/Predict/Upload/" (BodyParsed (JObj [])) (UploadedFile f).

Lemma dispatch_refines_witness :
  engine_wf (engine ready_state) /\
  fst (dispatch (upload_request raw_1x1) now0 ready_state) =
    inr (app_spec (model ready_state) (isModelLoaded ready_state) (upload_request raw_1x1) now0).
Proof.
  split; [exact empty_engine_wf|]. apply dispatch_refines. exact empty_engine_wf.
Defined.

(** A request to a state whose registry already holds a tensor. *)
Lemma dispatch_keeps_tensors_witness :
  engine_wf (engine ready_state_used) /\
  eng_live (engine ready_state_used) !! 0 = Some (mkTensor [224; 224; 3] []) /\
  eng_live (engine (snd (dispatch (predict_request body_ok) now0 ready_state_used))) !! 0 =
    Some (mkTensor [224; 224; 3] []).
Proof.
  split_and!; [exact ready_state_used_wf|reflexivity|].
  apply dispatch_keeps_tensors; [exact ready_state_used_wf|reflexivity].
Defined.
