(* ===== verification/Floats.v ===== *)
(** JavaScript numbers as IEEE binary64: a second instance of
    [JsNumber], on Rocq's primitive floats.

    Addition, subtraction, multiplication, division and comparison are
    the primitive, correctly rounded operations. [Math.round] rounds the
    exact value half up (to -0 between -0.5 and 0, as ECMAScript
    specifies). The Float32Array store is [Math.fround]: rounding to
    nearest-even at 24 bits with the single-precision exponent range.
    Both go through the exact [spec_float] view of a float.

    The theorems here are evaluated on concrete doubles. The spec's
    examples are checked in binary64, and every byte is shown to be
    normalized to a float in [0, 1]. *)
From S2P Require Import Prelude Numbers Interpret Tensors Preprocess.
From Stdlib Require Import Floats.

(** An integer as the nearest double (exact below 2^53). *)
Definition float_of_Z (z : Z) : float :=
  SF2Prim (SpecFloat.binary_normalize 53 1024 z 0 false).

(** [Math.round]: the integer [floor(v + 1/2)] of the exact value
    [v = (-1)^s * m * 2^e]; integers, zeros, infinities and NaN are
    returned unchanged, and a zero result keeps the sign of [v]. *)
Definition float_round (x : float) : float :=
  match Prim2SF x with
  | S754_finite s m e =>
      if (0 <=? e)%Z then x
      else let v := if s then Z.neg m else Z.pos m in
           let r := ((2 * v + 2 ^ (- e)) / 2 ^ (1 - e))%Z in
           SF2Prim (SpecFloat.binary_normalize 53 1024 r 0 s)
  | _ => x
  end.

(** [Math.fround]: the nearest single-precision value. *)
Definition float_fround (x : float) : float :=
  match Prim2SF x with
  | S754_finite s m e =>
      SF2Prim (SpecFloat.binary_normalize 24 128 (if s then Z.neg m else Z.pos m) e s)
  | _ => x
  end.

#[export] Instance JsNumber_float : JsNumber float := {
  js_of_Z := float_of_Z;
  js_add := PrimFloat.add;
  js_sub := PrimFloat.sub;
  js_mul := PrimFloat.mul;
  js_div := PrimFloat.div;
  js_gtb := fun a b => PrimFloat.ltb b a;
  js_eqb := PrimFloat.eqb;
  js_round := float_round;
  js_fround := float_fround
}.

(** The double nearest to [n / d], as the source literal [n/d] denotes. *)
Definition float_lit (n d : Z) : float := PrimFloat.div (float_of_Z n) (float_of_Z d).

(** [Math.round] on the cases ECMAScript singles out: ties go up, a
    negative tie goes to -0 or up, and the largest double below 0.5
    rounds to 0. *)
Example float_round_cases :
  float_round (float_lit 5 2) = 3%float /\ float_round (float_lit (-5) 2) = (-2)%float /\
  float_round (float_lit (-1) 2) = (-0)%float /\
  float_round (PrimFloat.next_down (float_lit 1 2)) = 0%float /\
  float_round (float_lit 9000000000000002 1000000000000) = 9000%float.
Proof. vm_compute. repeat split. Qed.

(** The score [x] as the model's output tensor holds it. *)
Definition float_score (x : float) : jsnum float := Some x.

(** A byte read through [channel] and stored in the Float32Array lies
    in [0, 1]. *)
Definition px_in_unit_float (b : byte) : bool :=
  match px (N:=float) b with
  | Some f => PrimFloat.leb 0%float f && PrimFloat.leb f 1%float
  | None => false
  end.

(** ** Theorems evaluated in binary64 *)

(** The examples of the spec's section 8 hold in doubles: the
    literals 0.5, 0.9 and 0.1 give Benigno 50, Maligno 90 and Benigno 90,
    although [0.9 * 100 * 100] is not exactly 9000 in binary64. *)
Example interpret_float_spec_examples :
  interpret_prediction (float_score (float_lit 1 2)) =
    {| diagnosis := "Benigno"; confidence := Some 50%float;
       rawPrediction := Some (float_lit 1 2) |} /\
  interpret_prediction (float_score (float_lit 9 10)) =
    {| diagnosis := "Maligno"; confidence := Some 90%float;
       rawPrediction := Some (float_lit 9 10) |} /\
  interpret_prediction (float_score (float_lit 1 10)) =
    {| diagnosis := "Benigno"; confidence := Some 90%float;
       rawPrediction := Some (float_lit 1 10) |}.
Proof. vm_compute. repeat split. Qed.

(** C28: In doubles, with the Float32Array store rounding to single
    precision, every one of the 256 byte values is normalized by
    [preprocessImage]'s loop to a number in [0, 1]; 0 gives 0 and 255
    gives 1. *)
Theorem px_float_in_unit (b : byte) :
  px_in_unit_float b = true /\
  px (N:=float) x00 = Some 0%float /\ px (N:=float) xff = Some 1%float.
Proof. split; [destruct b; vm_compute; reflexivity | vm_compute; split; reflexivity]. Qed.
