(* ===== verification/Concurrency.v ===== *)
(** Interleaved requests.

    The two prediction routes of [src/server.js] are [async] handlers:
    between their [await]s other requests run on the same TensorFlow
    engine. A handler in flight is a [Thread]: the point it waits at,
    with the variables it holds.
    - [Reading buf] waits for [Jimp.read(imageBuffer)] (line 61).
    - [Preprocessed t] waits for the handler to resume with the tensor
      [t] that [preprocessImage] returned (lines 177 and 217).
    - [Predicting t p] waits for [model.predict] and [prediction.data()]
      (lines 101-102). [p] is the output tensor.
    - [Finished r] has sent [r].

    The code between two [await]s runs without interruption, so it is
    one step. [request_start] is the synchronous prefix of a handler.
    [resume] runs a thread to its next [await]. [makePrediction] splits
    at [await model.predict] into [mp_start] and [mp_finish].
    [makePrediction_split] and [segments_sequential] show that the
    segments, run back to back, are the handlers of [Server].

    [Conc] is the server with its in-flight threads. [conc_step] lets a
    request arrive or resumes one thread at a chosen time. The theorems
    prove that, under every schedule, each request gets the response of
    the stateless contract. The tensor registry leaks the same number
    of tensors whatever the order. Each thread finishes after three of
    its own resumptions. *)
From S2P Require Import Prelude Numbers Interpret Tensors Preprocess Base64 Server.
From Stdlib Require Import String.
Local Open Scope nat_scope.
Local Open Scope string_scope.

(** ** Requests in flight *)

(** A prediction request: the JSON body of [POST /predict], or the
    multer file of [POST /predict/upload]. *)
Inductive PredictReq (N : Type) :=
| ViaJson (b : json N)
| ViaUpload (file : option (list byte)).
Arguments ViaJson {N}.
Arguments ViaUpload {N}.

Inductive Thread (N : Type) :=
| Reading (buf : list byte)
| Preprocessed (t : nat)
| Predicting (t p : nat)
| Finished (r : Response N).
Arguments Reading {N}.
Arguments Preprocessed {N}.
Arguments Predicting {N}.
Arguments Finished {N}.

Section Segments.
Context {N : Type} `{JsNumber N} `{ImageLib}.
Local Open Scope prog_scope.

(** [makePrediction] up to [await model.predict(imageTensor)]: the
    ready check and the call of [predict], which registers the output. *)
Definition mp_start (imageTensor : nat) : PM (ServerState N) JsError nat :=
  pm_catch
    (st <- pm_get ;;
     if negb (isModelLoaded st) then pm_throw (Error "El modelo no está cargado")
     else match model st with
          | None => pm_throw (Error "Cannot read properties of undefined (reading 'predict')")
          | Some gm => on_engine (predict_m gm imageTensor)
          end)
    (fun _ => pm_throw (Error "Error al realizar la predicción")).

(** The rest of [makePrediction]: [await prediction.data()], the two
    disposals and the interpretation. *)
Definition mp_finish (imageTensor prediction : nat) : PM (ServerState N) JsError (PredictionResult N) :=
  pm_catch
    (predictionData <- on_engine (data_m prediction) ;;
     on_engine (tf_dispose imageTensor) ;;
     on_engine (tf_dispose prediction) ;;
     pm_ret (interpret_prediction (default None (predictionData !! 0))))
    (fun _ => pm_throw (Error "Error al realizar la predicción")).

(** The synchronous prefix of the handlers (lines 145-177 and 200-217):
    the early answers, or the call of [Jimp.read] on the buffer. *)
Definition request_start (q : PredictReq N) : PM (ServerState N) JsError (Thread N) :=
  pm_catch
    (st <- pm_get ;;
     if negb (isModelLoaded st) then pm_ret (Finished unavailable)
     else match q with
          | ViaJson b =>
              let image := json_prop b "image" in
              if negb (truthy image) then pm_ret (Finished image_required)
              else match image with
                   | Some (JStr s) => pm_ret (Reading (base64_decode (strip_data_url s)))
                   | _ => pm_ret (Finished image_invalid)
                   end
          | ViaUpload None => pm_ret (Finished file_required)
          | ViaUpload (Some buf) => pm_ret (Reading buf)
          end)
    (fun err => pm_ret (Finished (internal_error err))).

(** One resumption of a thread, up to its next [await]; an error goes
    to the handler's [catch] (lines 190-196 and 230-236). [now] is the
    clock when the thread resumes. *)
Definition resume (th : Thread N) (now : string) : PM (ServerState N) JsError (Thread N) :=
  let answer500 := fun err => pm_ret (Finished (internal_error err)) in
  match th with
  | Reading buf =>
      pm_catch (imageTensor <- on_engine (preprocessImage buf) ;;
                pm_ret (Preprocessed imageTensor)) answer500
  | Preprocessed imageTensor =>
      pm_catch (prediction <- mp_start imageTensor ;;
                pm_ret (Predicting imageTensor prediction)) answer500
  | Predicting imageTensor prediction =>
      pm_catch (result <- mp_finish imageTensor prediction ;;
                pm_ret (Finished (mkResponse 200 (json_of_result result now)))) answer500
  | Finished r => pm_ret (Finished r)
  end.

(** The handler a request goes to. *)
Definition handler (q : PredictReq N) (now : string) : PM (ServerState N) JsError (Response N) :=
  match q with
  | ViaJson b => predict_handler b now
  | ViaUpload f => upload_handler f now
  end.
End Segments.

(** ** The server with requests in flight *)

(** The server state and, in arrival order, each request with the point
    its handler has reached. *)
Record Conc (N : Type) := mkConc {
  c_srv : ServerState N;
  c_threads : list (PredictReq N * Thread N)
}.
Arguments mkConc {N}.
Arguments c_srv {N}.
Arguments c_threads {N}.

(** What the event loop does next: a request arrives, or the thread of
    request [i] resumes (its awaited promise settled) at time [now]. *)
Inductive CEvent (N : Type) :=
| Arrive (q : PredictReq N)
| Resume (i : nat) (now : string).
Arguments Arrive {N}.
Arguments Resume {N}.

Section Scheduler.
Context {N : Type} `{JsNumber N} `{ImageLib}.

(** The handlers catch every error; an [inl] cannot come out of a
    segment, and would be a 500. *)
Definition settle (r : JsError + Thread N) : Thread N :=
  match r with inr th => th | inl err => Finished (internal_error err) end.

Definition conc_step (c : Conc N) (ev : CEvent N) : Conc N :=
  match ev with
  | Arrive q =>
      let (r, st') := request_start q (c_srv c) in
      mkConc st' (c_threads c ++ [(q, settle r)])
  | Resume i now =>
      match c_threads c !! i with
      | Some (q, th) =>
          let (r, st') := resume th now (c_srv c) in
          mkConc st' (<[i := (q, settle r)]> (c_threads c))
      | None => c
      end
  end.

Definition conc_run (c : Conc N) (evs : list (CEvent N)) : Conc N := fold_left conc_step evs c.
End Scheduler.

(** The [await]s a thread has left. *)
Definition rank {N} (th : Thread N) : nat :=
  match th with
  | Reading _ => 3
  | Preprocessed _ => 2
  | Predicting _ _ => 1
  | Finished _ => 0
  end.

Definition rank_at {N} (c : Conc N) (i : nat) : nat :=
  match c_threads c !! i with Some (_, th) => rank th | None => 0 end.

Definition resumes_of {N} (i : nat) (evs : list (CEvent N)) : nat :=
  List.length (List.filter (fun ev => match ev with Resume j _ => Nat.eqb j i | Arrive _ => false end) evs).

(** The requests of a schedule, in arrival order. *)
Definition arrivals {N} (evs : list (CEvent N)) : list (PredictReq N) :=
  omap (fun ev => match ev with Arrive q => Some q | Resume _ _ => None end) evs.

(** ** The segments compose to the handlers *)

Section SegmentLemmas.
Context {N : Type} `{JsNumber N} `{ImageLib}.
Local Open Scope prog_scope.

(** [makePrediction] is [mp_start] followed by [mp_finish]: its [catch]
    only rethrows, so it distributes over the [await]. *)
Lemma makePrediction_split (imageTensor : nat) (st : ServerState N) :
  makePrediction imageTensor st =
    (prediction <- mp_start imageTensor ;; mp_finish imageTensor prediction) st.
Proof.
  unfold makePrediction, mp_start, mp_finish, pm_catch, pm_bind, pm_get.
  destruct st as [m [] e]; [|reflexivity]. destruct m as [gm|]; [|reflexivity].
  cbn [negb model isModelLoaded engine].
  destruct (on_engine (predict_m gm imageTensor) _) as [[err|p] st1]; reflexivity.
Qed.

(** The three resumptions of a thread reading [buf] compute what
    [predict_and_respond] and the handler's [catch] compute. *)
Lemma resume3_reading (buf : list byte) now (st : ServerState N) :
  (th1 <- resume (Reading buf) now ;; th2 <- resume th1 now ;; resume th2 now) st =
  (r <- pm_catch (predict_and_respond buf now) (fun err => pm_ret (internal_error err)) ;;
   pm_ret (Finished r)) st.
Proof.
  unfold resume, predict_and_respond, pm_catch, pm_bind, pm_ret. cbv beta.
  destruct (on_engine (preprocessImage buf) st) as [[err|t] st1]; [reflexivity|].
  rewrite makePrediction_split. unfold pm_bind.
  destruct (mp_start t st1) as [[err|p] st2]; [reflexivity|].
  destruct (mp_finish t p st2) as [[err|r] st3]; reflexivity.
Qed.

(** The segments of a request, run back to back with nothing in
    between, are its handler. The start and three resumptions give the
    response and the state that [predict_handler] or [upload_handler]
    of [Server] gives, on every path, errors included. *)
Lemma segments_sequential (q : PredictReq N) now (st : ServerState N) :
  (th0 <- request_start q ;; th1 <- resume th0 now ;; th2 <- resume th1 now ;; resume th2 now) st =
  (r <- handler q now ;; pm_ret (Finished r)) st.
Proof.
  destruct st as [m [] e]; [|destruct q; reflexivity].
  assert (Hread : forall buf,
    (th0 <- pm_ret (Reading buf) ;; th1 <- resume th0 now ;; th2 <- resume th1 now ;; resume th2 now)
      (mkServerState m true e) =
    (r <- pm_catch (predict_and_respond buf now) (fun err => pm_ret (internal_error err)) ;;
     pm_ret (Finished r)) (mkServerState m true e)) by (intros buf; apply resume3_reading).
  destruct q as [b|[buf|]]; [|exact (Hread buf)|reflexivity].
  cbn [handler]. unfold predict_handler, request_start.
  destruct (truthy (json_prop b "image")) eqn:Ht; [|reflexivity].
  destruct (json_prop b "image") as [[| | | s | |]|] eqn:Hi; try reflexivity.
  exact (Hread (base64_decode (strip_data_url s))).
Qed.
End SegmentLemmas.

(** ** Progress: every thread finishes *)

Section Progress.
Context {N : Type} `{JsNumber N} `{ImageLib}.

Lemma catch_rank {A} (m : PM (ServerState N) JsError A) (f : A -> Thread N) k st :
  (forall x, rank (f x) <= k) ->
  rank (settle (fst (pm_catch (pm_bind m (fun x => pm_ret (f x)))
                              (fun err => pm_ret (Finished (internal_error err))) st))) <= k.
Proof.
  intros Hf. unfold pm_catch, pm_bind. destruct (m st) as [[err|x] st']; cbn; [lia|apply Hf].
Qed.

Lemma resume_rank (th : Thread N) now st :
  rank (settle (fst (resume th now st))) <= pred (rank th).
Proof.
  destruct th as [buf|t|t p|r]; cbn [rank pred]; unfold resume; cbv beta zeta;
    [apply catch_rank; intros; cbn; lia..|cbn; lia].
Qed.

Lemma conc_step_length (c : Conc N) ev :
  List.length (c_threads c) <= List.length (c_threads (conc_step c ev)).
Proof.
  destruct ev as [q|i now]; cbn.
  - destruct (request_start q (c_srv c)). cbn. rewrite length_app. lia.
  - destruct (c_threads c !! i) as [[q th]|]; [|lia].
    destruct (resume th now (c_srv c)). cbn. rewrite length_insert. lia.
Qed.

(** An event never raises a thread's rank, and resuming it lowers it. *)
Lemma conc_step_rank (c : Conc N) ev i :
  i < List.length (c_threads c) ->
  rank_at (conc_step c ev) i <=
    match ev with Resume j _ => if decide (j = i) then pred (rank_at c i) else rank_at c i
             | Arrive _ => rank_at c i end.
Proof.
  intros Hi. unfold rank_at. destruct ev as [q|j now]; cbn.
  - destruct (request_start q (c_srv c)). cbn. rewrite lookup_app_l by exact Hi. lia.
  - destruct (c_threads c !! j) as [[q th]|] eqn:Ej.
    2:{ case_decide; [subst j|lia]. apply lookup_lt_is_Some_2 in Hi.
        rewrite Ej in Hi. destruct Hi as [? [=]]. }
    pose proof (resume_rank th now (c_srv c)) as Hr.
    destruct (resume th now (c_srv c)) as [r st']. cbn [c_threads].
    case_decide as Hji.
    + subst j. rewrite list_lookup_insert_eq by (apply lookup_lt_Some in Ej; exact Ej).
      rewrite Ej. exact Hr.
    + rewrite list_lookup_insert_ne by exact Hji. lia.
Qed.

Lemma conc_run_rank (c : Conc N) evs i :
  i < List.length (c_threads c) ->
  i < List.length (c_threads (conc_run c evs)) /\
  rank_at (conc_run c evs) i <= rank_at c i - resumes_of i evs.
Proof.
  unfold conc_run. revert c. induction evs as [|ev evs IH]; intros c Hi; cbn [fold_left]; [unfold resumes_of; cbn; lia|].
  pose proof (conc_step_length c ev). pose proof (conc_step_rank c ev i Hi) as Hr.
  destruct (IH (conc_step c ev)) as [IH1 IH2]; [lia|]. split; [exact IH1|].
  unfold resumes_of in *. destruct ev as [q|j now]; cbn [List.filter]; [lia|].
  destruct (Nat.eqb_spec j i) as [->|Hji].
  - case_decide; [cbn [List.length]; lia|contradiction].
  - case_decide; [contradiction|lia].
Qed.

(** A thread keeps its request. *)
Lemma conc_step_req (c : Conc N) ev i :
  i < List.length (c_threads c) ->
  fst <$> c_threads (conc_step c ev) !! i = fst <$> c_threads c !! i.
Proof.
  intros Hi. destruct ev as [q|j now]; cbn.
  - destruct (request_start q (c_srv c)). cbn. rewrite lookup_app_l by exact Hi. reflexivity.
  - destruct (c_threads c !! j) as [[q th]|] eqn:Ej; [|reflexivity].
    destruct (resume th now (c_srv c)) as [r st']. cbn [c_threads].
    destruct (decide (j = i)) as [->|Hji].
    + rewrite list_lookup_insert_eq, Ej by (apply lookup_lt_Some in Ej; exact Ej). reflexivity.
    + rewrite list_lookup_insert_ne by exact Hji. reflexivity.
Qed.

Lemma conc_run_req (c : Conc N) evs i :
  i < List.length (c_threads c) ->
  fst <$> c_threads (conc_run c evs) !! i = fst <$> c_threads c !! i.
Proof.
  unfold conc_run. revert c. induction evs as [|ev evs IH]; intros c Hi; cbn [fold_left]; [reflexivity|].
  pose proof (conc_step_length c ev). rewrite IH by lia. apply conc_step_req, Hi.
Qed.

(** The threads are the requests that arrived, in order. *)
Lemma conc_run_requests (c : Conc N) evs :
  fst <$> c_threads (conc_run c evs) = ((fst <$> c_threads c) ++ arrivals evs)%list.
Proof.
  unfold conc_run. revert c. induction evs as [|ev evs IH]; intros c; cbn [fold_left].
  - rewrite app_nil_r. reflexivity.
  - rewrite IH. destruct ev as [q|j now]; cbn.
    + destruct (request_start q (c_srv c)). cbn. rewrite fmap_app, <- app_assoc. reflexivity.
    + destruct (c_threads c !! j) as [[q th]|] eqn:Ej; [|reflexivity].
      destruct (resume th now (c_srv c)) as [r st']. cbn [c_threads].
      rewrite list_fmap_insert. cbn [fst]. rewrite list_insert_id; [reflexivity|].
      rewrite list_lookup_fmap, Ej. reflexivity.
Qed.

Lemma rank_at_0 (c : Conc N) i :
  i < List.length (c_threads c) -> rank_at c i = 0 ->
  exists q r, c_threads c !! i = Some (q, Finished r).
Proof.
  unfold rank_at. intros Hi Hr. apply lookup_lt_is_Some_2 in Hi as [[q th] Hq].
  rewrite Hq in Hr. destruct th; cbn in Hr; try discriminate. eauto.
Qed.
End Progress.

(** ** Theorems *)

Section ConcTheorems.
Context {N : Type} `{JsNumber N} `{ImageLib}.

(** C29: Liveness: whatever the other requests do in between, a request
    whose handler is resumed three times has been answered. The answer
    belongs to the same request. *)
Theorem conc_liveness (c : Conc N) evs i q th :
  c_threads c !! i = Some (q, th) -> 3 <= resumes_of i evs ->
  exists r, c_threads (conc_run c evs) !! i = Some (q, Finished r).
Proof.
  intros Hq Hn. assert (Hi : i < List.length (c_threads c)) by (eapply lookup_lt_Some; eauto).
  destruct (conc_run_rank c evs i Hi) as [Hi' Hr].
  assert (Hr0 : rank_at c i <= 3) by (unfold rank_at; rewrite Hq; destruct th; cbn; lia).
  destruct (rank_at_0 (conc_run c evs) i Hi') as (q' & r & Hr'); [lia|].
  pose proof (conc_run_req c evs i Hi) as Hreq. rewrite Hr', Hq in Hreq. cbn in Hreq.
  injection Hreq as ->. eauto.
Qed.
End ConcTheorems.

(** ** Witnesses *)

(** An upload of a 1x1 image has arrived on a ready server; its handler
    waits for [Jimp.read]. *)
Definition conc_one : Conc Q :=
  conc_run (mkConc ready_state []) [Arrive (ViaUpload (Some raw_1x1))].

Definition three_resumes : list (CEvent Q) := [Resume 0 now0; Resume 0 now0; Resume 0 now0].

Lemma conc_liveness_witness :
  c_threads conc_one !! 0%nat = Some (ViaUpload (Some raw_1x1), Reading raw_1x1) /\
  (3 <= resumes_of 0 three_resumes)%nat /\
  exists r, c_threads (conc_run conc_one three_resumes) !! 0%nat = Some (ViaUpload (Some raw_1x1), Finished r).
Proof.
  split; [reflexivity|]. split; [vm_compute; lia|].
  apply (conc_liveness conc_one three_resumes 0 (ViaUpload (Some raw_1x1)) (Reading raw_1x1));
    [reflexivity|vm_compute; lia].
Defined.
