(* ===== verification/Interleaving.v ===== *)
(** The invariant of the server with requests in flight ([Concurrency]).

    A thread owns the tensors it holds ([thread_ids]): the image tensor
    after [preprocessImage], then also the output of [model.predict].
    [thread_ok] says what a thread has done so far. Its buffer is the
    one its request decodes, and the tensors it owns hold the values
    the sequential run computes. A finished thread sent the response
    of the stateless contract [req_spec]. [conc_inv] adds three things.
    Distinct threads own distinct tensors. The registry stays well
    formed. The registry's size is the starting size plus each
    thread's [footprint]: the tensors it holds and the ones it leaked.

    Every step preserves [conc_inv] ([conc_inv_step]). One step changes
    only the resumed thread's own tensors and fresh ids
    ([seg_ok], [resume_ok]). So the other threads' views are unchanged
    ([thread_ok_agree]). *)
From S2P Require Import Prelude Numbers Interpret Tensors Preprocess Base64 Server Concurrency.
From Stdlib Require Import String.
Local Open Scope nat_scope.
Local Open Scope string_scope.

Section Contract.
Context {N : Type} `{JsNumber N} `{ImageLib}.

(** The response of the contract for a request, by route. *)
Definition req_spec (m : option (GraphModel N)) (b : bool) (q : PredictReq N) (now : string)
  : Response N :=
  match q with
  | ViaJson bd => predict_spec m b bd now
  | ViaUpload f => upload_spec m b f now
  end.

(** The buffer a request hands to [preprocessImage], if it gets there. *)
Definition req_input (b : bool) (q : PredictReq N) : option (list byte) :=
  if negb b then None
  else match q with
       | ViaJson bd =>
           let image := json_prop bd "image" in
           if negb (truthy image) then None
           else match image with
                | Some (JStr s) => Some (base64_decode (strip_data_url s))
                | _ => None
                end
       | ViaUpload f => f
       end.

(** The tensors a request run alone leaves in the registry: none if the
    image does not decode, the [tensor3d] after a prediction, both
    tensors when [model.predict] throws. *)
Definition pipeline_leak (m : option (GraphModel N)) (buf : list byte) : nat :=
  match jimp_read buf with
  | None => 0
  | Some _ =>
      match m with
      | Some gm => if shape_compatible (gm_input gm) [1; 224; 224; 3] then 1 else 2
      | None => 2
      end
  end.

Definition req_leak (m : option (GraphModel N)) (b : bool) (q : PredictReq N) : nat :=
  match req_input b q with Some buf => pipeline_leak m buf | None => 0 end.

Definition resp_of (o : JsError + Response N) : Response N :=
  match o with inl err => internal_error err | inr r => r end.

(** The batch tensor [preprocessImage] makes of a bitmap. *)
Definition img_tensor (bm : Bitmap) : Tensor N := mkTensor [1; 224; 224; 3] (normalized bm).

Definition thread_ids (th : Thread N) : list nat :=
  match th with
  | Reading _ | Finished _ => []
  | Preprocessed t => [t]
  | Predicting t p => [t; p]
  end.

Definition thread_ok (m : option (GraphModel N)) (b : bool) (live : gmap nat (Tensor N))
           (qt : PredictReq N * Thread N) : Prop :=
  let (q, th) := qt in
  match th with
  | Reading buf => req_input b q = Some buf
  | Preprocessed t =>
      exists buf bm, req_input b q = Some buf /\ jimp_read buf = Some bm /\
                     live !! t = Some (img_tensor bm)
  | Predicting t p =>
      exists gm buf bm, m = Some gm /\ req_input b q = Some buf /\ jimp_read buf = Some bm /\
        shape_compatible (gm_input gm) [1; 224; 224; 3] = true /\ t <> p /\
        live !! t = Some (img_tensor bm) /\ live !! p = Some (output_tensor gm (img_tensor bm))
  | Finished r => exists now, r = req_spec m b q now
  end.

(** The tensors a thread accounts for: those it holds, and for a
    finished thread those its request leaks. *)
Definition footprint (m : option (GraphModel N)) (b : bool) (qt : PredictReq N * Thread N) : nat :=
  match snd qt with
  | Reading _ => 0
  | Preprocessed _ => 2
  | Predicting _ _ => 3
  | Finished _ => req_leak m b (fst qt)
  end.

Definition owns_disjoint (ths : list (PredictReq N * Thread N)) : Prop :=
  forall i j qi qj k, i <> j -> ths !! i = Some qi -> ths !! j = Some qj ->
    k ∈ thread_ids (snd qi) -> k ∉ thread_ids (snd qj).

Definition conc_inv (m : option (GraphModel N)) (b : bool) (base : nat) (c : Conc N) : Prop :=
  model (c_srv c) = m /\ isModelLoaded (c_srv c) = b /\ engine_wf (engine (c_srv c)) /\
  Forall (thread_ok m b (eng_live (engine (c_srv c)))) (c_threads c) /\
  owns_disjoint (c_threads c) /\
  numTensors (engine (c_srv c)) = base + sum_list_with (footprint m b) (c_threads c).

(** What one step does to the registry, for the thread [qt] it moves
    to [qt']: the registry stays well formed, the new thread is right,
    the count follows the footprint, tensors the thread does not own
    are untouched, and what it owns afterwards it owned before or is
    fresh. *)
Definition seg_ok (m : option (GraphModel N)) (b : bool) (e e' : Engine N)
           (qt qt' : PredictReq N * Thread N) : Prop :=
  engine_wf e' /\ thread_ok m b (eng_live e') qt' /\
  numTensors e' + footprint m b qt = numTensors e + footprint m b qt' /\
  (forall k, k ∉ thread_ids (snd qt) -> is_Some (eng_live e !! k) ->
             eng_live e' !! k = eng_live e !! k) /\
  (forall k, k ∈ thread_ids (snd qt') -> k ∈ thread_ids (snd qt) \/ eng_live e !! k = None).
End Contract.

(** ** Lemmas on the contract *)

Section ContractLemmas.
Context {N : Type} `{JsNumber N} `{ImageLib}.

Lemma req_input_loaded b (q : PredictReq N) buf : req_input b q = Some buf -> b = true.
Proof. destruct b; [reflexivity|discriminate]. Qed.

(** A request that reaches [preprocessImage] is answered as its buffer is. *)
Lemma req_spec_input m b (q : PredictReq N) buf now :
  req_input b q = Some buf -> req_spec m b q now = resp_of (pipeline_spec m buf now).
Proof.
  intros Hq. pose proof (req_input_loaded b q buf Hq) as ->.
  destruct q as [bd|f]; cbn in Hq |- *; unfold predict_spec, upload_spec; cbn [negb].
  - destruct (truthy (json_prop bd "image")); [|discriminate].
    destruct (json_prop bd "image") as [[| | | s | |]|]; try discriminate.
    injection Hq as <-. destruct (pipeline_spec m _ now); reflexivity.
  - subst f. destruct (pipeline_spec m buf now); reflexivity.
Qed.

Lemma req_leak_input m b (q : PredictReq N) buf :
  req_input b q = Some buf -> req_leak m b q = pipeline_leak m buf.
Proof. intros Hq. unfold req_leak. rewrite Hq. reflexivity. Qed.

(** [thread_ok] reads the registry only at the thread's own tensors. *)
Lemma thread_ok_agree m b (l1 l2 : gmap nat (Tensor N)) qt :
  (forall k, k ∈ thread_ids (snd qt) -> l1 !! k = l2 !! k) ->
  thread_ok m b l1 qt -> thread_ok m b l2 qt.
Proof.
  destruct qt as [q [buf|t|t p|r]]; cbn [thread_ok thread_ids snd]; intros Hk Hok; [exact Hok| | |exact Hok].
  - destruct Hok as (buf & bm & ? & ? & Ht). rewrite Hk in Ht by set_solver. eauto.
  - destruct Hok as (gm & buf & bm & ? & ? & ? & ? & ? & Ht & Hp).
    rewrite Hk in Ht, Hp by set_solver. eauto 10.
Qed.

Lemma thread_ok_live m b (l : gmap nat (Tensor N)) qt k :
  thread_ok m b l qt -> k ∈ thread_ids (snd qt) -> is_Some (l !! k).
Proof.
  destruct qt as [q [buf|t|t p|r]]; cbn [thread_ok thread_ids snd]; intros Hok Hk;
    try (apply elem_of_nil in Hk; contradiction).
  - destruct Hok as (buf & bm & _ & _ & Ht). apply list_elem_of_singleton in Hk as ->. eauto.
  - destruct Hok as (gm & buf & bm & _ & _ & _ & _ & _ & Ht & Hp).
    apply elem_of_cons in Hk as [->|Hk]; [eauto|apply list_elem_of_singleton in Hk as ->; eauto].
Qed.

(** Arrival: the synchronous prefix reads the state and changes nothing. *)
Lemma request_start_ok m b (e : Engine N) (q : PredictReq N) :
  exists th, request_start q (mkServerState m b e) = (inr th, mkServerState m b e) /\
    thread_ok m b (eng_live e) (q, th) /\ thread_ids th = [] /\ footprint m b (q, th) = 0.
Proof.
  unfold request_start, footprint, req_leak. destruct b.
  - destruct q as [bd|[buf|]]; cbn.
    + unfold predict_spec. cbn [negb].
      destruct (truthy (json_prop bd "image")) eqn:Ht; cbn.
      * destruct (json_prop bd "image") as [[| | | s | |]|] eqn:Hi; cbn;
          eexists; (split; [reflexivity|]); cbn; rewrite ?Hi, ?Ht; cbn;
          (split; [try (exists ""; reflexivity); try reflexivity|split; reflexivity]).
      * eexists; (split; [reflexivity|]); cbn; rewrite ?Ht; split; [exists ""; reflexivity|split; reflexivity].
    + eexists; (split; [reflexivity|]); cbn. repeat split.
    + eexists; (split; [reflexivity|]); cbn. split; [exists ""; reflexivity|split; reflexivity].
  - eexists; (split; [destruct q; reflexivity|]). cbn. split; [|split; reflexivity].
    exists ""; destruct q; reflexivity.
Qed.
End ContractLemmas.

Lemma size_delete_live {A} (m : gmap nat A) i x :
  m !! i = Some x -> size m = S (size (delete i m)).
Proof.
  intros Hi. rewrite <- (insert_delete_id m i x) at 1 by exact Hi.
  apply map_size_insert_None, lookup_delete_eq.
Qed.

Lemma sum_list_with_insert {A} (f : A -> nat) (l : list A) i x y :
  l !! i = Some y -> sum_list_with f (<[i := x]> l) + f y = sum_list_with f l + f x.
Proof.
  revert i. induction l as [|z l IH]; intros [|i] Hi; try discriminate.
  - injection Hi as ->. simpl. lia.
  - simpl in Hi |- *. specialize (IH i Hi). lia.
Qed.

(** ** One resumption *)

Section ResumeLemmas.
Context {N : Type} `{JsNumber N} `{ImageLib} `{!ImageLibLaws}.

(** After [Jimp.read]: the two tensors of [preprocessImage] are
    registered under fresh ids, or the image does not decode. *)
Lemma resume_reading_ok m b (e : Engine N) q buf now :
  engine_wf e -> req_input b q = Some buf ->
  let (r, st') := resume (Reading buf) now (mkServerState m b e) in
  st' = mkServerState m b (engine st') /\ seg_ok m b e (engine st') (q, Reading buf) (q, settle r).
Proof.
  intros Hwf Hq. destruct (jimp_read buf) as [bm|] eqn:Hr.
  - pose proof (preprocessImage_wf buf e Hwf) as Hw.
    rewrite (preprocessImage_run buf bm e Hr) in Hw.
    unfold resume, pm_catch, pm_bind, on_engine. cbn [engine].
    rewrite (preprocessImage_run buf bm e Hr). cbn. split; [reflexivity|].
    assert (Hn0 : eng_live e !! eng_next e = None) by (apply engine_wf_fresh, Hwf).
    assert (Hn1 : eng_live e !! S (eng_next e) = None) by (apply engine_wf_fresh_ge; [exact Hwf|lia]).
    split_and!; cbn [thread_ok thread_ids snd footprint].
    + exact Hw.
    + exists buf, bm. split_and!; [exact Hq|exact Hr|apply lookup_insert_eq].
    + unfold numTensors. cbn [eng_live].
      rewrite map_size_insert_None, map_size_insert_None; [lia|exact Hn0|].
      rewrite lookup_insert_ne by lia. exact Hn1.
    + intros k _ [x Hx]. cbn [eng_live]. rewrite !lookup_insert_ne; [reflexivity| |];
        intros Heq; subst k; congruence.
    + intros k Hk. apply list_elem_of_singleton in Hk as ->. right. exact Hn1.
  - unfold resume, pm_catch, pm_bind, on_engine. cbn [engine].
    rewrite (preprocessImage_none buf e Hr). cbn. split; [reflexivity|].
    split_and!; cbn [thread_ok thread_ids snd footprint fst].
    + exact Hwf.
    + exists now. rewrite (req_spec_input m b q buf now Hq). unfold pipeline_spec. rewrite Hr. reflexivity.
    + rewrite (req_leak_input m b q buf Hq). unfold pipeline_leak. rewrite Hr. lia.
    + reflexivity.
    + intros k Hk. apply elem_of_nil in Hk. contradiction.
Qed.

(** The contract's answer when [model.predict] cannot run. *)
Lemma predict_fails_spec m b (q : PredictReq N) buf bm now :
  req_input b q = Some buf -> jimp_read buf = Some bm ->
  (forall gm, m = Some gm -> shape_compatible (gm_input gm) [1; 224; 224; 3] = false) ->
  req_spec m b q now = internal_error (Error "Error al realizar la predicción") /\
  req_leak m b q = 2.
Proof.
  intros Hq Hr Hm. rewrite (req_spec_input m b q buf now Hq), (req_leak_input m b q buf Hq).
  unfold pipeline_spec, pipeline_leak. rewrite Hr.
  destruct m as [gm|]; [rewrite (Hm gm eq_refl)|]; split; reflexivity.
Qed.

(** After [preprocessImage]: [model.predict] registers the output under
    a fresh id, or throws and leaves both tensors behind. *)
Lemma resume_preprocessed_ok m b (e : Engine N) q t now :
  engine_wf e -> thread_ok m b (eng_live e) (q, Preprocessed t) ->
  let (r, st') := resume (Preprocessed t) now (mkServerState m b e) in
  st' = mkServerState m b (engine st') /\ seg_ok m b e (engine st') (q, Preprocessed t) (q, settle r).
Proof.
  intros Hwf (buf & bm & Hq & Hr & Ht). pose proof (req_input_loaded b q buf Hq) as ->.
  assert (Hfail : (forall gm, m = Some gm -> shape_compatible (gm_input gm) [1; 224; 224; 3] = false) ->
                  seg_ok m true e e (q, Preprocessed t)
                    (q, Finished (internal_error (Error "Error al realizar la predicción")))).
  { intros Hm. destruct (predict_fails_spec m true q buf bm "" Hq Hr Hm) as [Hs Hl].
    split_and!; cbn [thread_ok thread_ids snd footprint fst].
    - exact Hwf.
    - exists "". symmetry. exact Hs.
    - rewrite Hl. reflexivity.
    - reflexivity.
    - intros k Hk. apply elem_of_nil in Hk. contradiction. }
  unfold resume, mp_start, pm_catch, pm_bind, pm_get, on_engine, predict_m, tf_read.
  cbn [engine model isModelLoaded negb].
  destruct m as [gm|]; [|split; [reflexivity|apply Hfail; discriminate]].
  cbn [engine model isModelLoaded]. rewrite Ht. cbn [img_tensor t_shape t_values].
  destruct (shape_compatible (gm_input gm) [1; 224; 224; 3]) eqn:Hc;
    [|split; [reflexivity|apply Hfail; congruence]].
  cbn. split; [reflexivity|].
  assert (Hn : eng_live e !! eng_next e = None) by (apply engine_wf_fresh, Hwf).
  assert (Htn : t <> eng_next e) by (intros ->; congruence).
  split_and!; cbn [thread_ok thread_ids snd footprint].
  - apply (tf_alloc_wf (E:=JsError) (output_tensor gm (img_tensor bm)) e Hwf).
  - exists gm, buf, bm. split_and!; try reflexivity; try assumption; cbn [eng_live].
    + rewrite lookup_insert_ne by congruence. exact Ht.
    + apply lookup_insert_eq.
  - unfold numTensors. cbn [eng_live]. rewrite map_size_insert_None by exact Hn. lia.
  - intros k _ [x Hx]. cbn [eng_live]. rewrite lookup_insert_ne; [reflexivity|].
    intros Heq; subst k; congruence.
  - intros k Hk. apply elem_of_cons in Hk as [->|Hk]; [left; apply elem_of_cons; left; reflexivity|].
    apply list_elem_of_singleton in Hk as ->. right. exact Hn.
Qed.

(** After [model.predict]: the data is read and both of the thread's
    tensors are disposed; the answer is the contract's 200. *)
Lemma resume_predicting_ok m b (e : Engine N) q t p now :
  engine_wf e -> thread_ok m b (eng_live e) (q, Predicting t p) ->
  let (r, st') := resume (Predicting t p) now (mkServerState m b e) in
  st' = mkServerState m b (engine st') /\ seg_ok m b e (engine st') (q, Predicting t p) (q, settle r).
Proof.
  intros Hwf (gm & buf & bm & -> & Hq & Hr & Hc & Htp & Ht & Hp).
  pose proof (req_input_loaded b q buf Hq) as ->.
  unfold resume, mp_finish, pm_catch, pm_bind, on_engine, data_m, tf_read, tf_dispose, pm_modify.
  cbn [engine]. rewrite Hp. cbn. split; [reflexivity|].
  split_and!; cbn [thread_ok thread_ids snd footprint fst].
  - apply (tf_dispose_wf (E:=JsError) p _ (tf_dispose_wf (E:=JsError) t e Hwf)).
  - exists now. rewrite (req_spec_input _ true q buf now Hq). unfold pipeline_spec.
    rewrite Hr, Hc. reflexivity.
  - rewrite (req_leak_input _ true q buf Hq). unfold pipeline_leak, numTensors. rewrite Hr, Hc.
    cbn [eng_live]. rewrite (size_delete_live (eng_live e) t _ Ht).
    rewrite (size_delete_live (delete t (eng_live e)) p _) by (rewrite lookup_delete_ne by congruence; exact Hp).
    lia.
  - intros k Hk _. cbn [eng_live]. rewrite !lookup_delete_ne; [reflexivity| |];
      intros Heq; subst k; apply Hk; set_solver.
  - intros k Hk. apply elem_of_nil in Hk. contradiction.
Qed.

Lemma resume_ok m b (e : Engine N) q th now :
  engine_wf e -> thread_ok m b (eng_live e) (q, th) ->
  let (r, st') := resume th now (mkServerState m b e) in
  st' = mkServerState m b (engine st') /\ seg_ok m b e (engine st') (q, th) (q, settle r).
Proof.
  intros Hwf Hok. destruct th as [buf|t|t p|r].
  - apply resume_reading_ok; assumption.
  - apply resume_preprocessed_ok; assumption.
  - apply resume_predicting_ok; assumption.
  - cbn. split; [reflexivity|]. split_and!; [exact Hwf|exact Hok|reflexivity|reflexivity|].
    intros k Hk. apply elem_of_nil in Hk. contradiction.
Qed.
End ResumeLemmas.

(** ** The invariant is preserved *)

Section InvLemmas.
Context {N : Type} `{JsNumber N} `{ImageLib} `{!ImageLibLaws}.

(** A new thread that owns nothing keeps the ownership disjoint. *)
Lemma owns_disjoint_snoc (ths : list (PredictReq N * Thread N)) qt :
  owns_disjoint ths -> thread_ids (snd qt) = [] -> owns_disjoint (ths ++ [qt]).
Proof.
  intros Hd Hnil i j qi qj k Hij Hi Hj Hk.
  apply lookup_app_Some in Hi as [Hi|[Hli Hi]], Hj as [Hj|[Hlj Hj]].
  - exact (Hd i j qi qj k Hij Hi Hj Hk).
  - apply list_lookup_singleton_Some in Hj as [_ <-]. rewrite Hnil. apply not_elem_of_nil.
  - apply list_lookup_singleton_Some in Hi as [_ <-]. rewrite Hnil in Hk.
    apply elem_of_nil in Hk. contradiction.
  - apply list_lookup_singleton_Some in Hi as [? _], Hj as [? _]. lia.
Qed.

Lemma conc_inv_arrive m b base (c : Conc N) q :
  conc_inv m b base c -> conc_inv m b base (conc_step c (Arrive q)).
Proof.
  destruct c as [[m' b' e] ths]. intros (Hm & Hb & Hwf & Hall & Hd & Hn).
  cbn [c_srv c_threads model isModelLoaded engine] in *. subst m' b'.
  unfold conc_step; cbn [c_srv]. destruct (request_start_ok m b e q) as (th & Hs & Hok & Hids & Hfp).
  rewrite Hs. unfold conc_inv. cbn [c_srv c_threads settle model isModelLoaded engine].
  split_and!; try reflexivity; try assumption.
  - apply Forall_app_2; [exact Hall|]. apply Forall_singleton, Hok.
  - apply owns_disjoint_snoc; assumption.
  - rewrite sum_list_with_app. cbn. lia.
Qed.

(** The other threads still see their tensors after a step of thread [i]. *)
Lemma forall_after_resume m b (e e' : Engine N) ths i q th qt' :
  ths !! i = Some (q, th) -> Forall (thread_ok m b (eng_live e)) ths -> owns_disjoint ths ->
  seg_ok m b e e' (q, th) qt' -> Forall (thread_ok m b (eng_live e')) (<[i := qt']> ths).
Proof.
  intros Hi Hall Hd (_ & Hok' & _ & Hframe & _). rewrite Forall_lookup in Hall |- *.
  intros j qj Hj. destruct (decide (i = j)) as [<-|Hij].
  - rewrite list_lookup_insert_eq in Hj by (eapply lookup_lt_Some; eauto).
    injection Hj as <-. exact Hok'.
  - rewrite list_lookup_insert_ne in Hj by exact Hij.
    apply (thread_ok_agree m b (eng_live e)); [|eauto].
    intros k Hk. symmetry. apply Hframe.
    + exact (Hd j i qj (q, th) k (not_eq_sym Hij) Hj Hi Hk).
    + eapply thread_ok_live; eauto.
Qed.

(** What the resumed thread owns afterwards no other thread owns. *)
Lemma disjoint_after_resume m b (e : Engine N) ths i q th qt' :
  ths !! i = Some (q, th) -> Forall (thread_ok m b (eng_live e)) ths -> owns_disjoint ths ->
  (forall k, k ∈ thread_ids (snd qt') -> k ∈ thread_ids th \/ eng_live e !! k = None) ->
  owns_disjoint (<[i := qt']> ths).
Proof.
  intros Hi Hall Hd Hnew j1 j2 q1 q2 k Hj Hj1 Hj2 Hk. rewrite Forall_lookup in Hall.
  assert (Hfresh : forall j qj k, j <> i -> ths !! j = Some qj ->
                   k ∈ thread_ids (snd qt') -> k ∉ thread_ids (snd qj)).
  { intros j qj k' Hji Hqj Hk' Hkj. destruct (Hnew k' Hk') as [Hold|Hnone].
    - exact (Hd i j (q, th) qj k' (not_eq_sym Hji) Hi Hqj Hold Hkj).
    - destruct (thread_ok_live m b _ qj k' (Hall j qj Hqj) Hkj) as [x Hx]. congruence. }
  assert (Hlen : i < List.length ths) by (eapply lookup_lt_Some; eauto).
  destruct (decide (j1 = i)) as [->|Hn1], (decide (j2 = i)) as [->|Hn2].
  - contradiction.
  - rewrite list_lookup_insert_eq in Hj1 by exact Hlen. injection Hj1 as <-.
    rewrite list_lookup_insert_ne in Hj2 by congruence. exact (Hfresh j2 q2 k Hn2 Hj2 Hk).
  - rewrite list_lookup_insert_eq in Hj2 by exact Hlen. injection Hj2 as <-.
    rewrite list_lookup_insert_ne in Hj1 by congruence. intros Hk2. exact (Hfresh j1 q1 k Hn1 Hj1 Hk2 Hk).
  - rewrite list_lookup_insert_ne in Hj1, Hj2 by congruence. exact (Hd j1 j2 q1 q2 k Hj Hj1 Hj2 Hk).
Qed.

Lemma conc_inv_resume m b base (c : Conc N) i now :
  conc_inv m b base c -> conc_inv m b base (conc_step c (Resume i now)).
Proof.
  destruct c as [[m' b' e] ths]. intros (Hm & Hb & Hwf & Hall & Hd & Hn).
  cbn [c_srv c_threads model isModelLoaded engine] in *. subst m' b'.
  unfold conc_step; cbn [c_srv c_threads].
  destruct (ths !! i) as [[q th]|] eqn:Hi;
    [|unfold conc_inv; cbn [c_srv c_threads model isModelLoaded engine]; split_and!; auto].
  pose proof (proj1 (Forall_lookup _ _) Hall i _ Hi) as Hok.
  pose proof (resume_ok m b e q th now Hwf Hok) as Hr.
  destruct (resume th now (mkServerState m b e)) as [r st']. destruct Hr as [-> Hseg].
  pose proof Hseg as (Hwf' & _ & Hcount & _ & Hnew).
  unfold conc_inv. cbn [c_srv c_threads model isModelLoaded engine].
  split_and!; try reflexivity.
  - exact Hwf'.
  - eapply forall_after_resume; eauto.
  - eapply disjoint_after_resume; eauto.
  - cbn [engine] in Hcount. pose proof (sum_list_with_insert (footprint m b) ths i (q, settle r) (q, th) Hi). lia.
Qed.

Lemma conc_inv_step m b base (c : Conc N) ev :
  conc_inv m b base c -> conc_inv m b base (conc_step c ev).
Proof. destruct ev; [apply conc_inv_arrive|apply conc_inv_resume]. Qed.

(** The server with no request in flight satisfies the invariant. *)
Lemma conc_inv_init m b (e : Engine N) :
  engine_wf e -> conc_inv m b (numTensors e) (mkConc (mkServerState m b e) []).
Proof.
  intros Hwf. split_and!; cbn; try reflexivity; try assumption; [constructor| |lia].
  intros i j qi qj k _ Hi. discriminate.
Qed.

Lemma conc_inv_run m b base (c : Conc N) evs :
  conc_inv m b base c -> conc_inv m b base (conc_run c evs).
Proof.
  unfold conc_run. revert c. induction evs as [|ev evs IH]; intros c Hc; [exact Hc|].
  apply IH, conc_inv_step, Hc.
Qed.

(** When every request is answered, each accounts for what it leaked. *)
Lemma footprint_finished m b (ths : list (PredictReq N * Thread N)) :
  Forall (fun qt => rank (snd qt) = 0) ths ->
  sum_list_with (footprint m b) ths = sum_list_with (req_leak m b) (fst <$> ths).
Proof.
  induction 1 as [|[q th] ths Hth _ IH]; [reflexivity|].
  destruct th; cbn in Hth |- *; try discriminate. rewrite IH. reflexivity.
Qed.
End InvLemmas.

(** ** Theorems *)

Section InterleavingTheorems.
Context {N : Type} `{JsNumber N} `{ImageLib} `{!ImageLibLaws}.

(** C30: The invariant of the server with requests in flight. Under any
    schedule of arrivals and resumptions:
    - the model and the ready flag are unchanged;
    - the registry stays well formed;
    - every in-flight handler holds the tensors its sequential run would;
    - no two handlers share a tensor;
    - the registry's size is accounted for thread by thread. *)
Theorem conc_run_inv m b (e : Engine N) evs :
  engine_wf e -> conc_inv m b (numTensors e) (conc_run (mkConc (mkServerState m b e) []) evs).
Proof. intros Hwf. apply conc_inv_run, conc_inv_init, Hwf. Qed.

(** C31: Interleaving does not change the answers. Whatever the order in
    which requests arrive and their handlers resume, every answered
    request got the response of the stateless contract. That response
    depends only on its body, the model, the ready flag and the time
    it was answered. *)
Theorem conc_answers m b (e : Engine N) evs i q r :
  engine_wf e ->
  c_threads (conc_run (mkConc (mkServerState m b e) []) evs) !! i = Some (q, Finished r) ->
  exists now, r = req_spec m b q now.
Proof.
  intros Hwf Hi. pose proof (conc_inv_run m b _ _ evs (conc_inv_init m b e Hwf)) as (_ & _ & _ & Hall & _).
  exact (proj1 (Forall_lookup _ _) Hall i _ Hi).
Qed.

(** C32: The tensor leak does not depend on the interleaving. Once every
    request is answered, [tf.memory().numTensors] has grown by what the
    arrived requests leak when each runs alone, summed: one [tensor3d]
    per prediction, two when [model.predict] throws. *)
Theorem conc_leak_count m b (e : Engine N) evs :
  engine_wf e ->
  Forall (fun qt => rank (snd qt) = 0) (c_threads (conc_run (mkConc (mkServerState m b e) []) evs)) ->
  numTensors (engine (c_srv (conc_run (mkConc (mkServerState m b e) []) evs))) =
    numTensors e + sum_list_with (req_leak m b) (arrivals evs).
Proof.
  intros Hwf Hfin. pose proof (conc_inv_run m b _ _ evs (conc_inv_init m b e Hwf)) as (_ & _ & _ & _ & _ & Hn).
  rewrite Hn, footprint_finished by exact Hfin.
  rewrite conc_run_requests. reflexivity.
Qed.
End InterleavingTheorems.

(** ** Witnesses on concrete schedules *)

(** Two requests that are answered at once: an upload without a file
    and a JSON body without an image. *)
Definition sched_two : list (CEvent Q) :=
  [Arrive (ViaUpload None); Arrive (ViaJson (JObj [])); Resume 0 now0].

Lemma conc_run_inv_witness :
  engine_wf empty_engine /\
  conc_inv (Some gm_const) true (numTensors empty_engine)
    (conc_run (mkConc (mkServerState (Some gm_const) true empty_engine) []) sched_two).
Proof. split; [exact empty_engine_wf|]. apply conc_run_inv. exact empty_engine_wf. Defined.

Lemma conc_answers_witness :
  engine_wf empty_engine /\
  c_threads (conc_run (mkConc (mkServerState (Some gm_const) true empty_engine) []) sched_two) !! 0%nat =
    Some (ViaUpload None, Finished file_required) /\
  exists now, file_required = req_spec (Some gm_const) true (ViaUpload None) now.
Proof.
  split; [exact empty_engine_wf|]. split; [reflexivity|].
  apply (conc_answers (Some gm_const) true empty_engine sched_two 0 (ViaUpload None) file_required).
  - exact empty_engine_wf.
  - reflexivity.
Defined.

Lemma conc_leak_count_witness :
  engine_wf empty_engine /\
  Forall (fun qt => rank (snd qt) = 0%nat)
    (c_threads (conc_run (mkConc (mkServerState (Some gm_const) true empty_engine) []) sched_two)) /\
  numTensors (engine (c_srv (conc_run (mkConc (mkServerState (Some gm_const) true empty_engine) []) sched_two))) =
    (numTensors empty_engine + sum_list_with (req_leak (Some gm_const) true) (arrivals sched_two))%nat.
Proof.
  assert (Hfin : Forall (fun qt => rank (snd qt) = 0%nat)
    (c_threads (conc_run (mkConc (mkServerState (Some gm_const) true empty_engine) []) sched_two)))
    by (vm_compute; repeat constructor).
  split; [exact empty_engine_wf|]. split; [exact Hfin|].
  apply conc_leak_count; [exact empty_engine_wf|exact Hfin].
Defined.
