(* ===== verification/Express.v ===== *)
(** The Express application in front of the routes of [src/server.js].

    [dispatch] of [Server] starts after the middleware that turns the
    bytes of a request into [req.body] and [req.file]. This file models
    that middleware, in the order of lines 12-14 and 222:
    - [cors()] (line 12) answers every [OPTIONS] preflight itself, with
      204 and no body ([preflightContinue] is false by default);
    - [express.json({ limit: '50mb' })] (line 13) reads a JSON body of at
      most 50 MiB, answers [{}] for an empty one, and in its default
      strict mode accepts only a text whose first non-blank character is
      [{] or [[] ([json_body]);
    - [express.urlencoded({ extended: true, limit: '50mb' })] (line 14)
      does the same for form bodies ([form_body]);
    - [upload.single('image')] (lines 17-21, 222) runs on
      [POST /predict/upload] only, and accepts at most one file, in the
      field [image], of at most 10 MiB ([multer_single]).
    A parser error goes to the error middleware, which answers 500.
    [JSON.parse] and the [qs] parser are the interface [JsonLib].
    [JSON.stringify] of the client's body is written out
    ([json_quote], [stringify_obj]), and [JsonLibLaws] states that
    [JSON.parse] reads back what it prints. [express_app] composes the
    middleware with [dispatch]. *)
From S2P Require Import Prelude Numbers Interpret Tensors Preprocess Base64 Server.
From Stdlib Require Import String Ascii.
Local Open Scope nat_scope.
Local Open Scope string_scope.

(** ** Raw requests *)

(** A part of a [multipart/form-data] body. *)
Inductive MPart :=
| MField (name value : string)
| MFile (fieldname : string) (data : list byte).

(** The body with the type its [Content-Type] header gives it. *)
Inductive Payload :=
| PNone                          (** no body *)
| PJson (raw : string)           (** application/json *)
| PForm (raw : string)           (** application/x-www-form-urlencoded *)
| PMultipart (parts : list MPart)
| POther (raw : string).         (** any other type *)

Record RawRequest := mkRaw {
  raw_method : string;
  raw_path : string;
  raw_payload : Payload
}.

(** What the application sends: a JSON response, or the empty answer of
    the [cors()] preflight. *)
Inductive Reply (N : Type) :=
| NoContent (code : nat)
| JsonReply (r : Response N).
Arguments NoContent {N}.
Arguments JsonReply {N}.

(** ** The limits of lines 13, 14 and 19, in bytes *)

Definition json_limit : N := 50 * 1024 * 1024.
Definition form_limit : N := 50 * 1024 * 1024.
Definition file_limit : N := 10 * 1024 * 1024.

(** The defaults of [multer] (through [busboy]) for text fields. *)
Definition field_name_limit : N := 100.
Definition field_value_limit : N := 1024 * 1024.

(** ** [JSON.stringify] of strings and flat objects *)

Definition ch (n : nat) : ascii := ascii_of_nat n.
Definition str1 (c : ascii) : string := String c EmptyString.
Definition dq_char : ascii := ch 34.
Definition bs_char : ascii := ch 92.

Definition hex_digit (n : nat) : ascii :=
  if Nat.ltb n 10 then ch (48 + n) else ch (87 + n).

(** QuoteJSONString on one code unit: the two-character escapes, [\u00xx]
    for the other control characters, the unit itself otherwise. *)
Definition quote_char (c : ascii) : string :=
  let n := nat_of_ascii c in
  if Nat.eqb n 8 then String bs_char "b"
  else if Nat.eqb n 9 then String bs_char "t"
  else if Nat.eqb n 10 then String bs_char "n"
  else if Nat.eqb n 12 then String bs_char "f"
  else if Nat.eqb n 13 then String bs_char "r"
  else if Nat.eqb n 34 then String bs_char (str1 dq_char)
  else if Nat.eqb n 92 then String bs_char (str1 bs_char)
  else if Nat.ltb n 32 then
    String bs_char (String "u" (String "0" (String "0"
      (String (hex_digit (n / 16)) (str1 (hex_digit (n mod 16)))))))
  else str1 c.

Fixpoint json_quote_body (s : string) : string :=
  match s with
  | EmptyString => EmptyString
  | String c s' => quote_char c ++ json_quote_body s'
  end.

Definition json_quote (s : string) : string := String dq_char (json_quote_body s ++ str1 dq_char).

Fixpoint stringify_members (fields : list (string * string)) : string :=
  match fields with
  | [] => EmptyString
  | [(k, v)] => json_quote k ++ ":" ++ json_quote v
  | (k, v) :: fs => json_quote k ++ ":" ++ json_quote v ++ "," ++ stringify_members fs
  end.

(** [JSON.stringify] of an object whose values are strings. *)
Definition stringify_obj (fields : list (string * string)) : string :=
  "{" ++ stringify_members fields ++ "}".

(** ** The parsers *)

(** [JSON.parse] and [qs.parse]; [None] is a thrown error (a syntax
    error, or more parameters or nesting than [qs] allows). *)
Class JsonLib (N : Type) := {
  json_parse : string -> option (json N);
  qs_parse : string -> option (json N)
}.

(** What the code relies on: [JSON.parse] reads back the object of one
    string member that [JSON.stringify] prints for the client. *)
Class JsonLibLaws (N : Type) `{JsonLib N} := {
  json_parse_stringify k v : json_parse (stringify_obj [(k, v)]) = Some (JObj [(k, JStr v)])
}.

(** The blanks [body-parser] skips before the first character. *)
Definition is_json_ws (c : ascii) : bool :=
  let n := nat_of_ascii c in Nat.eqb n 32 || Nat.eqb n 9 || Nat.eqb n 10 || Nat.eqb n 13.

Fixpoint firstchar (s : string) : option ascii :=
  match s with
  | EmptyString => None
  | String c s' => if is_json_ws c then firstchar s' else Some c
  end.

Definition over (limit : N) (len : nat) : bool := (limit <? N.of_nat len)%N.

Section Parsers.
Context {N : Type} `{JsonLib N}.

(** [express.json]: the read limit (413), the empty body, the strict
    first character (400) and [JSON.parse] (400). *)
Definition json_body (raw : string) : BodyOutcome N :=
  if over json_limit (String.length raw) then BodyRejected
  else if String.eqb raw "" then BodyParsed (JObj [])
  else match firstchar raw with
       | Some c =>
           if Ascii.eqb c "{" || Ascii.eqb c "[" then
             match json_parse raw with Some v => BodyParsed v | None => BodyRejected end
           else BodyRejected
       | None => BodyRejected
       end.

(** [express.urlencoded] with [extended: true]. *)
Definition form_body (raw : string) : BodyOutcome N :=
  if over form_limit (String.length raw) then BodyRejected
  else if String.eqb raw "" then BodyParsed (JObj [])
  else match qs_parse raw with Some v => BodyParsed v | None => BodyRejected end.

(** [req.body] after both parsers: a body neither of them reads is [{}]. *)
Definition body_of (p : Payload) : BodyOutcome N :=
  match p with
  | PJson raw => json_body raw
  | PForm raw => form_body raw
  | _ => BodyParsed (JObj [])
  end.
End Parsers.

(** [upload.single('image')]: the parts in order; a file in another
    field or a second [image] file is [LIMIT_UNEXPECTED_FILE], a file over
    10 MiB is [LIMIT_FILE_SIZE], a long field name or value is
    [LIMIT_FIELD_KEY] or [LIMIT_FIELD_VALUE]. *)
Fixpoint multer_parts (parts : list MPart) (file : option (list byte)) : UploadOutcome :=
  match parts with
  | [] => match file with Some f => UploadedFile f | None => NoFile end
  | MField name value :: ps =>
      if over field_name_limit (String.length name) then UploadRejected
      else if over field_value_limit (String.length value) then UploadRejected
      else multer_parts ps file
  | MFile name data :: ps =>
      if negb (String.eqb name "image") then UploadRejected
      else match file with
           | Some _ => UploadRejected
           | None => if over file_limit (List.length data) then UploadRejected
                     else multer_parts ps (Some data)
           end
  end.

(** A body that is not multipart gives no [req.file]. *)
Definition multer_single (p : Payload) : UploadOutcome :=
  match p with
  | PMultipart parts => multer_parts parts None
  | _ => NoFile
  end.

Section App.
Context {N : Type} `{JsNumber N} `{ImageLib} `{JsonLib N}.
Local Open Scope prog_scope.

Definition parse_request (raw : RawRequest) : Request N :=
  mkRequest (raw_method raw) (raw_path raw) (body_of (raw_payload raw)) (multer_single (raw_payload raw)).

(** The application: [cors()] first, then the parsers and the routes. *)
Definition express_app (raw : RawRequest) (now : string) : PM (ServerState N) JsError (Reply N) :=
  if String.eqb (raw_method raw) "OPTIONS" then pm_ret (NoContent 204)
  else r <- dispatch (parse_request raw) now ;; pm_ret (JsonReply r).
End App.

(** The request object the routes see for the client's request of
    [src/test-client.js] lines 26-34: [POST /predict] with the body
    [{ image: base64Image }]. *)
Definition prediction_request {N} (base64Image : string) : Request N :=
  mkRequest "POST" "/predict" (BodyParsed (JObj [("image", JStr base64Image)])) NoFile.

(** The request of the client's [makePrediction] (lines 26-34), as it
    goes on the wire: [JSON.stringify({ image: base64Image })] with the
    type [application/json]. *)
Definition client_raw (base64Image : string) : RawRequest :=
  mkRaw "POST" "/predict" (PJson (stringify_obj [("image", base64Image)])).

(** ** Printing the client's body *)

(** A character [JSON.stringify] prints as itself. *)
Definition json_plain (c : ascii) : bool :=
  let n := nat_of_ascii c in Nat.leb 32 n && negb (Nat.eqb n 34) && negb (Nat.eqb n 92).

Fixpoint string_all (p : ascii -> bool) (s : string) : bool :=
  match s with
  | EmptyString => true
  | String c s' => p c && string_all p s'
  end.

Lemma string_all_app p s t : string_all p (s ++ t) = string_all p s && string_all p t.
Proof. induction s as [|c s IH]; [reflexivity|]. rewrite str_app_cons. cbn. rewrite IH. apply andb_assoc. Qed.

Lemma quote_char_plain c : json_plain c = true -> quote_char c = str1 c.
Proof.
  unfold json_plain, quote_char. set (n := nat_of_ascii c). intros Hp.
  apply andb_prop in Hp as [Hp H92]. apply andb_prop in Hp as [H32 H34].
  apply Nat.leb_le in H32. apply negb_true_iff, Nat.eqb_neq in H34, H92.
  repeat match goal with
  | |- context [Nat.eqb ?a ?b] => destruct (Nat.eqb_spec a b); [lia|]
  | |- context [Nat.ltb ?a ?b] => destruct (Nat.ltb_spec a b); [lia|]
  end.
  reflexivity.
Qed.

Lemma json_quote_body_plain s : string_all json_plain s = true -> json_quote_body s = s.
Proof.
  induction s as [|c s IH]; [reflexivity|]. cbn. intros [Hc Hs]%andb_prop.
  rewrite quote_char_plain, IH by assumption. reflexivity.
Qed.

Lemma string_all_get p s n c : string_all p s = true -> String.get n s = Some c -> p c = true.
Proof.
  revert n. induction s as [|d s IH]; intros n; [discriminate|].
  simpl. intros [Hd Hs]%andb_prop. destruct n as [|n]; simpl; [congruence|]. apply IH, Hs.
Qed.

Lemma b64_char_plain v : json_plain (b64_char v) = true.
Proof.
  unfold b64_char. destruct (String.get _ b64_alphabet) as [c|] eqn:Hg; [|reflexivity].
  exact (string_all_get json_plain b64_alphabet _ c eq_refl Hg).
Qed.

Lemma base64_encode_plain bs : string_all json_plain (base64_encode bs) = true.
Proof.
  induction bs as [bs IH] using (induction_ltof1 _ (@List.length _)). unfold ltof in IH.
  destruct bs as [|a [|b [|c rest]]]; simpl; rewrite ?b64_char_plain; try reflexivity.
  apply IH. simpl. lia.
Qed.

(** The data URL of [imageToBase64] needs no escape. *)
Lemma imageToBase64_plain path bs s :
  imageToBase64 path (Some bs) = Some s -> string_all json_plain s = true.
Proof.
  simpl. intros [= <-]. rewrite !string_all_app, base64_encode_plain.
  destruct (String.eqb _ ".png"); reflexivity.
Qed.

Lemma stringify_obj1_length k v :
  String.length (stringify_obj [(k, v)]) =
    String.length (json_quote_body k) + String.length (json_quote_body v) + 7.
Proof.
  unfold stringify_obj, json_quote. cbn. autorewrite with str_rw. cbn. rewrite !str_length_app. cbn. lia.
Qed.

(** ** A [JSON.parse] for the witnesses

    [raw_json_parse] reads an object of one string member, as the
    client sends it; every other text is a syntax error. [json_unquote]
    reads a string literal up to its closing quote and returns the rest
    of the text. A [\u] escape above [\u00ff] has no byte and
    is refused. *)

Definition hex_val (c : ascii) : option nat :=
  let n := nat_of_ascii c in
  if Nat.leb 48 n && Nat.leb n 57 then Some (n - 48)
  else if Nat.leb 97 n && Nat.leb n 102 then Some (n - 87)
  else if Nat.leb 65 n && Nat.leb n 70 then Some (n - 55)
  else None.

Definition hex4 (a b c d : ascii) : option nat :=
  match hex_val a, hex_val b, hex_val c, hex_val d with
  | Some x, Some y, Some z, Some w => Some (((x * 16 + y) * 16 + z) * 16 + w)
  | _, _, _, _ => None
  end.

Definition cons_fst (c : ascii) (r : option (string * string)) : option (string * string) :=
  option_map (fun '(v, rest) => (String c v, rest)) r.

(** The character a one-letter escape [\e] stands for. *)
Definition escape_char (e : ascii) : option ascii :=
  let n := nat_of_ascii e in
  if Nat.eqb n 98 then Some (ch 8)
  else if Nat.eqb n 116 then Some (ch 9)
  else if Nat.eqb n 110 then Some (ch 10)
  else if Nat.eqb n 102 then Some (ch 12)
  else if Nat.eqb n 114 then Some (ch 13)
  else if Nat.eqb n 34 || Nat.eqb n 92 || Nat.eqb n 47 then Some e
  else None.

Fixpoint json_unquote (s : string) : option (string * string) :=
  match s with
  | EmptyString => None
  | String c s' =>
      if Ascii.eqb c dq_char then Some (EmptyString, s')
      else if Ascii.eqb c bs_char then
        match s' with
        | String e s'' =>
            if Ascii.eqb e "u"%char then
              match s'' with
              | String a (String b (String c' (String d r))) =>
                  match hex4 a b c' d with
                  | Some n => if Nat.ltb n 256 then cons_fst (ch n) (json_unquote r) else None
                  | None => None
                  end
              | _ => None
              end
            else match escape_char e with
                 | Some x => cons_fst x (json_unquote s'')
                 | None => None
                 end
        | EmptyString => None
        end
      else if Nat.ltb (nat_of_ascii c) 32 then None
      else cons_fst c (json_unquote s')
  end.

Definition raw_json_parse {N} (s : string) : option (json N) :=
  match s with
  | String o (String q r) =>
      if Ascii.eqb o "{"%char && Ascii.eqb q dq_char then
        match json_unquote r with
        | Some (k, String colon (String q' r')) =>
            if Ascii.eqb colon ":"%char && Ascii.eqb q' dq_char then
              match json_unquote r' with
              | Some (v, String close EmptyString) =>
                  if Ascii.eqb close "}"%char then Some (JObj [(k, JStr v)]) else None
              | _ => None
              end
            else None
        | _ => None
        end
      else None
  | _ => None
  end.

(** One quoted character is read back, whatever follows it. *)
Lemma unquote_quote_char c t : json_unquote (quote_char c ++ t) = cons_fst c (json_unquote t).
Proof. destruct c as [[] [] [] [] [] [] [] []]; reflexivity. Qed.

Lemma json_unquote_quote s rest :
  json_unquote (json_quote_body s ++ String dq_char rest) = Some (s, rest).
Proof.
  induction s as [|c s IH]; [reflexivity|]. cbn [json_quote_body].
  rewrite str_app_assoc, unquote_quote_char, IH. reflexivity.
Qed.

Lemma stringify_obj1_eq k v :
  stringify_obj [(k, v)] =
    String "{" (String dq_char (json_quote_body k ++ String dq_char (String ":"
      (String dq_char (json_quote_body v ++ String dq_char (String "}" EmptyString)))))).
Proof. unfold stringify_obj, stringify_members, json_quote, str1. autorewrite with str_rw. reflexivity. Qed.

#[export] Instance RawJsonLib {N} : JsonLib N := {
  json_parse := raw_json_parse;
  qs_parse := fun _ => Some (JObj [])
}.

#[export] Instance RawJsonLibLaws {N} : JsonLibLaws N (H:=RawJsonLib).
Proof.
  constructor. intros k v. cbn. rewrite stringify_obj1_eq. unfold raw_json_parse.
  rewrite json_unquote_quote. cbn. rewrite json_unquote_quote. reflexivity.
Qed.

(** ** The application *)

Section AppTheorems.
Context {N : Type} `{JsNumber N} `{ImageLib} `{JsonLib N}.
Local Open Scope prog_scope.

Lemma express_app_routes (raw : RawRequest) now :
  raw_method raw <> "OPTIONS" ->
  express_app (N:=N) raw now = (r <- dispatch (parse_request raw) now ;; pm_ret (JsonReply r)).
Proof. intros Hm. unfold express_app. destruct (String.eqb_spec (raw_method raw) "OPTIONS"); congruence. Qed.

(** A request the parsers reject never reaches a route. *)
Lemma dispatch_rejected (req : Request N) now st :
  req_body req = BodyRejected -> dispatch req now st = (inr unexpected_error, st).
Proof. intros Hb. unfold dispatch. rewrite Hb. reflexivity. Qed.

(** The body the client prints is read back by [express.json]. *)
Lemma json_body_client `{!JsonLibLaws N} s :
  json_body (N:=N) (stringify_obj [("image", s)]) =
    if over json_limit (String.length (json_quote_body s) + 12) then BodyRejected
    else BodyParsed (JObj [("image", JStr s)]).
Proof.
  unfold json_body. rewrite stringify_obj1_length.
  replace (String.length (json_quote_body "image") + String.length (json_quote_body s) + 7)
    with (String.length (json_quote_body s) + 12)
    by (change (String.length (json_quote_body "image")) with 5; lia).
  destruct (over _ _); [reflexivity|].
  assert (Hne : String.eqb (stringify_obj [("image", s)]) "" = false)
    by (rewrite stringify_obj1_eq; reflexivity).
  assert (Hf : firstchar (stringify_obj [("image", s)]) = Some "{"%char)
    by (rewrite stringify_obj1_eq; reflexivity).
  rewrite Hne, Hf, json_parse_stringify. reflexivity.
Qed.

(** C17: The request the client's [makePrediction] sends reaches the
    [POST /predict] route as exactly the request [{ image: s }] of the
    client model, when its JSON text fits the 50 MiB limit of
    [express.json]; the text is the data URL and 12 more bytes.
    A longer body is answered 500 by the error middleware before any
    route runs, and changes nothing. *)
Theorem client_request_parsed `{!JsonLibLaws N} path bs s now (st : ServerState N) :
  imageToBase64 path (Some bs) = Some s ->
  express_app (client_raw s) now st =
    if over json_limit (String.length s + 12) then (inr (JsonReply unexpected_error), st)
    else (r <- dispatch (prediction_request s) now ;; pm_ret (JsonReply r)) st.
Proof.
  intros Himg. rewrite express_app_routes by discriminate.
  pose proof (json_body_client s) as Hb. rewrite json_quote_body_plain in Hb by exact (imageToBase64_plain _ _ _ Himg).
  unfold parse_request, client_raw. cbn [raw_payload raw_method raw_path body_of multer_single]. rewrite Hb.
  destruct (over _ _); [|reflexivity].
  unfold pm_bind. rewrite dispatch_rejected by reflexivity. reflexivity.
Qed.

(** C19: [upload.single('image')] runs before the handler. A file of
    more than 10 MiB in the field [image] of [POST /predict/upload] is
    answered 500 by the error middleware, whatever the state (even with
    the model not loaded, where the handler would answer 503), and
    changes nothing; a file of at most 10 MiB reaches the handler. *)
Theorem upload_size_limit (data : list byte) now (st : ServerState N) :
  express_app (mkRaw "POST" "/predict/upload" (PMultipart [MFile "image" data])) now st =
    if over file_limit (List.length data) then (inr (JsonReply unexpected_error), st)
    else (r <- upload_handler (Some data) now ;; pm_ret (JsonReply r)) st.
Proof.
  rewrite express_app_routes by discriminate.
  unfold parse_request. cbn [raw_payload raw_method raw_path body_of multer_single multer_parts].
  cbn [String.eqb negb Ascii.eqb Bool.eqb]. destruct (over _ _); reflexivity.
Qed.

(** C22: What the middleware answers before the routes. An [OPTIONS]
    request gets the 204 of [cors()] on every path, and a body the
    parsers reject (over 50 MiB, not strict JSON, a syntax error) gets
    the 500 of the error middleware on every route, [GET /health]
    included; neither changes the state. *)
Theorem middleware_answers (raw : RawRequest) now (st : ServerState N) :
  (raw_method raw = "OPTIONS" -> express_app raw now st = (inr (NoContent 204), st)) /\
  (raw_method raw <> "OPTIONS" -> body_of (raw_payload raw) = BodyRejected ->
     express_app raw now st = (inr (JsonReply unexpected_error), st)).
Proof.
  split.
  - intros Hm. unfold express_app. rewrite Hm. reflexivity.
  - intros Hm Hb. rewrite express_app_routes by exact Hm. unfold pm_bind.
    rewrite dispatch_rejected by exact Hb. reflexivity.
Qed.
End AppTheorems.

Section AppSpec.
Context {N : Type} `{JsNumber N} `{ImageLib} `{!ImageLibLaws} `{JsonLib N}.

(** What the application answers to a request that is not a preflight,
    on a well-formed engine: the answer of [app_spec] to the request the
    parsers make of it. *)
Lemma express_app_fst (raw : RawRequest) now (st : ServerState N) :
  raw_method raw <> "OPTIONS" -> engine_wf (engine st) ->
  fst (express_app raw now st) = inr (JsonReply (app_spec (model st) (isModelLoaded st) (parse_request raw) now)).
Proof.
  intros Ho Hwf. unfold express_app.
  destruct (String.eqb_spec (raw_method raw) "OPTIONS"); [contradiction|]. unfold pm_bind.
  pose proof (dispatch_fst (parse_request raw) now st Hwf) as Hd.
  revert Hd. destruct (dispatch _ _ _) as [[e|r] st']; cbn [fst pm_ret]; congruence.
Qed.
End AppSpec.

(** ** Witnesses *)

Section Witnesses.
Local Open Scope prog_scope.

Lemma client_request_parsed_witness :
  imageToBase64 "img.png" (Some raw_1x1) = Some image_url /\
  express_app (N:=Q) (client_raw image_url) now0 ready_state =
    if over json_limit (String.length image_url + 12) then (inr (JsonReply unexpected_error), ready_state)
    else (r <- dispatch (prediction_request image_url) now0 ;; pm_ret (JsonReply r)) ready_state.
Proof. split; [reflexivity|]. apply (client_request_parsed "img.png" raw_1x1). reflexivity. Defined.

(** A preflight on [/predict], and [GET /health] with the JSON text [true]. *)
Lemma middleware_answers_witness :
  express_app (N:=Q) (mkRaw "OPTIONS" "/predict" PNone) now0 down_state = (inr (NoContent 204), down_state) /\
  express_app (N:=Q) (mkRaw "GET" "/health" (PJson "true")) now0 ready_state =
    (inr (JsonReply unexpected_error), ready_state).
Proof.
  split.
  - apply (proj1 (middleware_answers (mkRaw "OPTIONS" "/predict" PNone) now0 down_state)). reflexivity.
  - apply (proj2 (middleware_answers (mkRaw "GET" "/health" (PJson "true")) now0 ready_state));
      [discriminate|reflexivity].
Defined.
End Witnesses.
