(* ===== verification/Client.v ===== *)
(** The test client of [src/test-client.js] (lines 1-98), and the
    client composed with the server.

    The client's functions call [fetch] once each. [Fetch] is the
    interface they are written against: it takes the request as it goes
    on the wire ([RawRequest] of [Express]: method, path, and the body
    with its content type) and gives the server's reply, or [None] when
    the request fails at the network level ([fetch] rejects).
    [server_fetch] implements it with the server process of [Server]
    behind the whole Express application [express_app]: [cors()], the
    body parsers with their limits, then the routes. A process that is
    not listening refuses the connection.

    [response.json()] on the empty body of a 204 rejects; the client's
    [catch] reports it like a failed [fetch].

    Console output is a list of [LogLine]s. A template literal is kept
    as its parts: the text, and the values interpolated into it
    ([${result.diagnosis}] is [Val (json_prop result "diagnosis")]).
    The string conversion of numbers and objects is not modelled. *)
From S2P Require Import Prelude Numbers Interpret Tensors Preprocess Base64 Server Express.
From Stdlib Require Import String.
Local Open Scope nat_scope.
Local Open Scope string_scope.

(** ** Console output *)

Inductive Part (N : Type) :=
| Txt (s : string)
| Val (v : option (json N))
| Exn (err : JsError).
Arguments Txt {N}.
Arguments Val {N}.
Arguments Exn {N}.

(** [console.log(...)] and [console.error(...)]. *)
Inductive LogLine (N : Type) :=
| Log (parts : list (Part N))
| LogError (parts : list (Part N)).
Arguments Log {N}.
Arguments LogError {N}.

(** ** The client *)

(** The newline and the double quote of the source's string literals. *)
Definition nl : string := String (Ascii.ascii_of_nat 10) EmptyString.
Definition dq : string := String (Ascii.ascii_of_nat 34) EmptyString.

(** [fetch]: the reply to a request, or [None] when it rejects. *)
Definition Fetch (N : Type) : Type := RawRequest -> option (Reply N).

(** [response.ok]: a status in 200-299. *)
Definition response_ok {N} (r : Response N) : bool := Nat.leb 200 (status r) && Nat.ltb (status r) 300.

(** The error [fetch] rejects with when the connection fails. *)
Definition fetch_failed : JsError := Error "fetch failed".

(** The error [response.json()] rejects with on an empty body. *)
Definition json_end_error : JsError := Error "Unexpected end of JSON input".

(** The request of line 57: [fetch] with no options is a [GET] without a body. *)
Definition health_request : RawRequest := mkRaw "GET" "/health" PNone.

Section ClientFunctions.
Context {N : Type}.

(** [imageToBase64] (lines 6-16) with its [catch]: [file] is what
    [fs.readFileSync] returns, or the error it throws. *)
Definition imageToBase64_logged (imagePath : string) (file : JsError + list byte)
  : list (LogLine N) * option string :=
  match file with
  | inl err => ([LogError [Txt "Error al leer imagen:"; Exn err]], None)
  | inr imageBuffer => ([], imageToBase64 imagePath (Some imageBuffer))
  end.

(** [makePrediction] of the client (lines 19-52). *)
Definition client_makePrediction (imagePath : string) (file : JsError + list byte) (fetch : Fetch N)
  : list (LogLine N) * option (json N) :=
  let (log0, base64Image) := imageToBase64_logged imagePath file in
  match base64Image with
  | None =>
      ((log0 ++ [LogError [Txt "Error al hacer predicción:"; Exn (Error "No se pudo convertir la imagen")]])%list,
       None)
  | Some s =>
      match fetch (client_raw s) with
      | None => ((log0 ++ [LogError [Txt "Error al hacer predicción:"; Exn fetch_failed]])%list, None)
      | Some (NoContent _) => ((log0 ++ [LogError [Txt "Error al hacer predicción:"; Exn json_end_error]])%list, None)
      | Some (JsonReply response) =>
          let result := body response in
          if response_ok response
          then ((log0 ++ [Log [Txt "✅ Predicción exitosa:"];
                         Log [Txt "   Diagnóstico: "; Val (json_prop result "diagnosis")];
                         Log [Txt "   Confianza: "; Val (json_prop result "confidence"); Txt "%"];
                         Log [Txt "   Timestamp: "; Val (json_prop result "timestamp")]])%list,
                Some result)
          else ((log0 ++ [LogError [Txt "❌ Error en predicción:"; Val (Some result)]])%list, Some result)
      end
  end.

(** [checkServerStatus] (lines 55-70): it prints whatever JSON comes
    back, without looking at [response.ok]. *)
Definition checkServerStatus (fetch : Fetch N) : list (LogLine N) * option (json N) :=
  match fetch health_request with
  | None => ([LogError [Txt "Error al verificar estado:"; Exn fetch_failed]], None)
  | Some (NoContent _) => ([LogError [Txt "Error al verificar estado:"; Exn json_end_error]], None)
  | Some (JsonReply response) =>
      let status := body response in
      ([Log [Txt "🔍 Estado del servidor:"];
        Log [Txt "   Status: "; Val (json_prop status "status")];
        Log [Txt "   Modelo cargado: "; Val (json_prop status "modelLoaded")];
        Log [Txt "   Timestamp: "; Val (json_prop status "timestamp")]],
       Some status)
  end.

(** [ejemplo] (lines 73-87): the status check and the instructions; the
    call of [makePrediction] is commented out in the source. *)
Definition ejemplo (fetch : Fetch N) : list (LogLine N) :=
  ([Log [Txt ("🧪 Probando API de diagnóstico..." ++ nl)]] ++ fst (checkServerStatus fetch) ++
  [Log [];
   Log [Txt (nl ++ "📝 Para usar este cliente:")];
   Log [Txt "1. Asegúrate de que el servidor esté corriendo (npm start)"];
   Log [Txt "2. Coloca una imagen de prueba en el directorio"];
   Log [Txt ("3. Llama a makePrediction(" ++ dq ++ "./tu-imagen.jpg" ++ dq ++ ")")]])%list.
End ClientFunctions.

(** What the client prints for a successful prediction (lines 39-42). *)
Definition success_log {N} (r : PredictionResult N) (now : string) : list (LogLine N) :=
  [Log [Txt "✅ Predicción exitosa:"];
   Log [Txt "   Diagnóstico: "; Val (Some (JStr (diagnosis r)))];
   Log [Txt "   Confianza: "; Val (Some (JNum (confidence r))); Txt "%"];
   Log [Txt "   Timestamp: "; Val (Some (JStr now))]].

(** What [checkServerStatus] prints for the [/health] answer (lines 60-63). *)
Definition status_log {N} (loaded : bool) (now : string) : list (LogLine N) :=
  [Log [Txt "🔍 Estado del servidor:"];
   Log [Txt "   Status: "; Val (Some (JStr "ok"))];
   Log [Txt "   Modelo cargado: "; Val (Some (JBool loaded))];
   Log [Txt "   Timestamp: "; Val (Some (JStr now))]].

(** ** The client against the server *)

Section Composition.
Context {N : Type} `{JsNumber N} `{ImageLib} `{JsonLib N}.

(** The server of [src/server.js] at time [now], as the client's
    [fetch] reaches it. [startServer] (lines 257-271) calls
    [app.listen] once the model has settled: a listening process hands
    the request to the whole application [express_app] on its state and
    sends its reply, as the [Incoming] step of [proc_step] does with
    [dispatch]. A process that is loading or has exited refuses the
    connection. *)
Definition server_fetch (p : Process N) (now : string) : Fetch N :=
  fun raw =>
    match phase p with
    | Listening =>
        match fst (express_app raw now (srv p)) with
        | inr reply => Some reply
        | inl _ => None
        end
    | _ => None
    end.
End Composition.

(** ** Lemmas *)

Section CompositionLemmas.
Context {N : Type} `{JsNumber N} `{ImageLib} `{!ImageLibLaws} `{JsonLib N}.

(** A listening server answers a request that is not a preflight with
    what [app_spec] answers to the request the parsers make of it. *)
Lemma server_fetch_listening (p : Process N) now raw :
  phase p = Listening -> engine_wf (engine (srv p)) -> raw_method raw <> "OPTIONS" ->
  server_fetch p now raw =
    Some (JsonReply (app_spec (model (srv p)) (isModelLoaded (srv p)) (parse_request raw) now)).
Proof. intros Hph Hwf Ho. unfold server_fetch. rewrite Hph, express_app_fst by assumption. reflexivity. Qed.

(** A server that is loading or has exited refuses the connection. *)
Lemma server_fetch_down (p : Process N) now raw :
  phase p <> Listening -> server_fetch p now raw = None.
Proof. intros Hph. unfold server_fetch. destruct (phase p); [reflexivity|contradiction|reflexivity]. Qed.

(** The body [{ image: s }] of the client reaches [POST /predict] when
    its JSON text fits the limit of [express.json]; a longer one gets the
    500 of the error middleware. *)
Lemma server_fetch_client_raw `{!JsonLibLaws N} (p : Process N) s now :
  phase p = Listening -> engine_wf (engine (srv p)) ->
  server_fetch p now (client_raw s) =
    Some (JsonReply (if over json_limit (String.length (json_quote_body s) + 12) then unexpected_error
                     else predict_spec (model (srv p)) (isModelLoaded (srv p)) (JObj [("image", JStr s)]) now)).
Proof.
  intros Hph Hwf. rewrite server_fetch_listening by (assumption || discriminate).
  unfold parse_request, client_raw. cbn [raw_payload raw_method raw_path body_of multer_single].
  rewrite json_body_client. destruct (over _ _); reflexivity.
Qed.

(** The data URL the client sends is a non-empty string. *)
Lemma imageToBase64_nonempty path bytes s :
  imageToBase64 path (Some bytes) = Some s -> s <> EmptyString.
Proof. simpl. intros [= <-]. discriminate. Qed.
End CompositionLemmas.

(** ** Theorems *)

Section ClientTheorems.
Context {N : Type} `{JsNumber N} `{ImageLib} `{!ImageLibLaws} `{JsonLib N}.

(** C33: End to end, client and server, through the Express
    application: on a listening server whose model is loaded and
    accepts the batch shape, the client's [makePrediction] on an image
    file the server can decode sends the data URL [s] of the file. When
    the JSON text of the body ([s] and 12 bytes) fits the 50 MiB of
    [express.json], it prints the success lines and returns the
    server's body, whose diagnosis and confidence are the interpretation
    of the model's first output on the normalized pixels of the file.
    A longer body gets the 500 of the error middleware, which the client
    prints as an error and returns. *)
Theorem client_prediction_e2e `{!JsonLibLaws N} (p : Process N) path bytes s now gm bm :
  phase p = Listening -> model (srv p) = Some gm -> isModelLoaded (srv p) = true ->
  engine_wf (engine (srv p)) -> imageToBase64 path (Some bytes) = Some s ->
  jimp_read bytes = Some bm -> shape_compatible (gm_input gm) [1; 224; 224; 3] = true ->
  client_makePrediction path (inr bytes) (server_fetch p now) =
    if over json_limit (String.length s + 12)
    then ([LogError [Txt "❌ Error en predicción:"; Val (Some (body unexpected_error))]],
          Some (body unexpected_error))
    else (success_log (interpret_prediction (default None (gm_forward gm (normalized bm) !! 0%nat))) now,
          Some (json_of_result (interpret_prediction (default None (gm_forward gm (normalized bm) !! 0%nat))) now)).
Proof.
  intros Hph Hm Hl Hwf Hs Hr Hc. pose proof (imageToBase64_nonempty _ _ _ Hs) as Hne.
  unfold client_makePrediction, imageToBase64_logged. rewrite Hs. cbv iota beta.
  rewrite server_fetch_client_raw by assumption.
  rewrite json_quote_body_plain by exact (imageToBase64_plain _ _ _ Hs).
  destruct (over _ _); [reflexivity|].
  unfold predict_spec. rewrite Hm, Hl. cbn [negb].
  change (json_prop (JObj [("image", JStr s)]) "image") with (Some (@JStr N s)).
  cbn [truthy negb]. apply String.eqb_neq in Hne. rewrite Hne. cbn [negb].
  rewrite (imageToBase64_decodes path s bytes Hs). unfold pipeline_spec. rewrite Hr, Hc.
  reflexivity.
Qed.

(** C34: [checkServerStatus] against the server: a listening server's
    [/health] answer makes the client print ["ok"] and the server's
    ready flag, and return the answer; a server that is loading or has
    exited refuses the connection and the client returns [null]. *)
Theorem client_status_reports (p : Process N) now :
  engine_wf (engine (srv p)) ->
  checkServerStatus (server_fetch p now) =
    match phase p with
    | Listening =>
        (status_log (isModelLoaded (srv p)) now,
         Some (JObj [("status", JStr "ok"); ("modelLoaded", JBool (isModelLoaded (srv p)));
                     ("timestamp", JStr now)]))
    | _ => ([LogError [Txt "Error al verificar estado:"; Exn fetch_failed]], None)
    end.
Proof.
  intros Hwf. unfold checkServerStatus. destruct (phase p) eqn:Hph.
  1, 3: rewrite server_fetch_down by congruence; reflexivity.
  rewrite server_fetch_listening by (assumption || discriminate). reflexivity.
Qed.

(** C35: The client's error paths. Without a ready model, a listening
    server answers the client's request with 503 when its body fits the
    limit of [express.json], and with the 500 of the error middleware
    when it does not; the client prints the error and still returns the
    error body, not [null]. A server that is not listening makes [fetch]
    reject; the client prints the failure and returns [null]. A file
    that cannot be read is reported twice and returns [null], without
    any request being sent. *)
Theorem client_prediction_errors `{!JsonLibLaws N} (p : Process N) path bytes s err now :
  engine_wf (engine (srv p)) -> isModelLoaded (srv p) = false ->
  imageToBase64 path (Some bytes) = Some s ->
  client_makePrediction path (inr bytes) (server_fetch p now) =
    match phase p with
    | Listening =>
        ([LogError [Txt "❌ Error en predicción:";
                    Val (Some (body (if over json_limit (String.length s + 12) then unexpected_error else unavailable)))]],
         Some (body (if over json_limit (String.length s + 12) then unexpected_error else unavailable)))
    | _ => ([LogError [Txt "Error al hacer predicción:"; Exn fetch_failed]], None)
    end /\
  client_makePrediction path (inl err) (server_fetch p now) =
    ([LogError [Txt "Error al leer imagen:"; Exn err];
      LogError [Txt "Error al hacer predicción:"; Exn (Error "No se pudo convertir la imagen")]], None).
Proof.
  intros Hwf Hl Hs. split; [|reflexivity].
  unfold client_makePrediction, imageToBase64_logged. rewrite Hs. cbv iota beta.
  destruct (phase p) eqn:Hph.
  1, 3: rewrite server_fetch_down by congruence; reflexivity.
  rewrite server_fetch_client_raw by assumption.
  rewrite json_quote_body_plain by exact (imageToBase64_plain _ _ _ Hs).
  destruct (over _ _); [reflexivity|]. unfold predict_spec. rewrite Hl. reflexivity.
Qed.
End ClientTheorems.

(** ** Witnesses *)

Definition listening_ready : Process Q := mkProcess Listening ready_state.
Definition listening_down : Process Q := mkProcess Listening down_state.

(** The request of a small PNG fits the limit; the model answers. *)
Lemma client_prediction_e2e_witness :
  phase listening_ready = Listening /\ model (srv listening_ready) = Some gm_const /\
  isModelLoaded (srv listening_ready) = true /\ engine_wf (engine (srv listening_ready)) /\
  imageToBase64 "./lesion.png" (Some raw_1x1) = Some image_url /\
  jimp_read raw_1x1 = Some (mkBitmap 1 1 pixel_rgba) /\
  shape_compatible (gm_input gm_const) [1; 224; 224; 3] = true /\
  over json_limit (String.length image_url + 12) = false /\
  client_makePrediction "./lesion.png" (inr raw_1x1) (server_fetch listening_ready now0) =
    (success_log (interpret_prediction (default None (gm_forward gm_const (normalized (mkBitmap 1 1 pixel_rgba)) !! 0%nat))) now0,
     Some (json_of_result (interpret_prediction (default None (gm_forward gm_const (normalized (mkBitmap 1 1 pixel_rgba)) !! 0%nat))) now0)).
Proof.
  split; [reflexivity|]. split; [reflexivity|]. split; [reflexivity|].
  split; [exact empty_engine_wf|]. split; [reflexivity|]. split; [reflexivity|].
  split; [reflexivity|]. split; [reflexivity|].
  rewrite (client_prediction_e2e listening_ready "./lesion.png" raw_1x1 image_url now0 gm_const (mkBitmap 1 1 pixel_rgba));
    [reflexivity|reflexivity|reflexivity|reflexivity|exact empty_engine_wf|reflexivity|reflexivity|reflexivity].
Defined.

Lemma client_status_reports_witness :
  engine_wf (engine (srv listening_ready)) /\
  checkServerStatus (server_fetch listening_ready now0) =
    (status_log true now0,
     Some (JObj [("status", JStr "ok"); ("modelLoaded", JBool true); ("timestamp", JStr now0)])).
Proof.
  split; [exact empty_engine_wf|].
  apply (client_status_reports listening_ready now0 empty_engine_wf).
Defined.

(** Without a model, the small request gets the 503. *)
Lemma client_prediction_errors_witness :
  engine_wf (engine (srv listening_down)) /\ isModelLoaded (srv listening_down) = false /\
  imageToBase64 "./lesion.png" (Some raw_1x1) = Some image_url /\
  client_makePrediction "./lesion.png" (inr raw_1x1) (server_fetch listening_down now0) =
    ([LogError [Txt "❌ Error en predicción:"; Val (Some (body (N:=Q) unavailable))]],
     Some (body (N:=Q) unavailable)).
Proof.
  split; [exact empty_engine_wf|]. split; [reflexivity|]. split; [reflexivity|].
  rewrite (proj1 (client_prediction_errors listening_down "./lesion.png" raw_1x1 image_url (Error "ENOENT") now0
    empty_engine_wf eq_refl eq_refl)).
  reflexivity.
Defined.
