(* ===== verification/Lifecycle.v ===== *)
(** The model handle's weights and the shutdown of [src/server.js].

    [tf.loadGraphModel] (line 35) registers the model's weight tensors
    in the TensorFlow engine. [model.dispose()] in the [SIGINT] and
    [SIGTERM] handlers (lines 279-293) releases them before
    [process.exit(0)]. [WProcess] is the process of [Server] with the
    ids of the weights the model holds. [w_proc_step] is its step:
    the load registers the weights ([tf_alloc_all]), a signal disposes
    them when a model is set ([w_shutdown], [model_dispose]), and a
    request is [dispatch] as before.

    Every request keeps the entries live before it ([dispatch_keeps_all]
    of [Server]), so the weights stay registered while the server
    listens. [w_match] relates a
    [WProcess] to a [Process] with the same phase, model and ready flag,
    and [w_step_sim] shows that the weights change no response. [w_inv]
    is the invariant of the weights along a run, and a signal disposes
    exactly the weights ([model_dispose_lookup], [model_dispose_size]).
    Over a whole run the registry holds the weights and one leaked
    tensor per successful prediction ([registry_growth]). *)
From S2P Require Import Prelude Numbers Interpret Tensors Preprocess Base64 Server Concurrency Interleaving.
From Stdlib Require Import String.
Local Open Scope nat_scope.
Local Open Scope string_scope.

(** ** The model handle *)

(** A load outcome: the graph and its weight tensors, or a rejection. *)
Inductive WEvent (N : Type) :=
| WLoadSettled (outcome : option (GraphModel N * list (Tensor N)))
| WIncoming (req : Request N) (now : string)
| WSignal.
Arguments WLoadSettled {N}.
Arguments WIncoming {N}.
Arguments WSignal {N}.

Record WProcess (N : Type) := mkWProcess {
  w_proc : Process N;
  w_weights : list nat      (** the ids of the tensors [model] holds *)
}.
Arguments mkWProcess {N}.
Arguments w_proc {N}.
Arguments w_weights {N}.

Section Weights.
Context {N : Type} `{JsNumber N} `{ImageLib}.
Local Open Scope prog_scope.

(** The weights of [tf.loadGraphModel], registered one after another. *)
Fixpoint tf_alloc_all (ws : list (Tensor N)) : PM (Engine N) JsError (list nat) :=
  match ws with
  | [] => pm_ret []
  | w :: ws' => i <- tf_alloc w ;; ids <- tf_alloc_all ws' ;; pm_ret (i :: ids)
  end.

(** [model.dispose()]: each weight tensor is disposed. *)
Fixpoint model_dispose (ids : list nat) : PM (Engine N) JsError unit :=
  match ids with
  | [] => pm_ret tt
  | i :: ids' => _ <- tf_dispose i ;; model_dispose ids'
  end.

(** [loadModel] (lines 29-55) with the weights the model registers. *)
Definition w_loadModel (outcome : option (GraphModel N * list (Tensor N))) (st : ServerState N)
  : ServerState N * list nat :=
  match outcome with
  | Some (gm, ws) =>
      let (r, e') := tf_alloc_all ws (engine st) in
      (mkServerState (Some gm) true e', match r with inr ids => ids | inl _ => [] end)
  | None => (loadModel None st, [])
  end.

(** The signal handlers (lines 279-293): [if (model) model.dispose()]. *)
Definition w_shutdown (st : ServerState N) (ids : list nat) : ServerState N :=
  match model st with
  | Some _ => mkServerState (model st) (isModelLoaded st) (snd (model_dispose ids (engine st)))
  | None => st
  end.

Definition w_proc_step (wp : WProcess N) (ev : WEvent N) : WProcess N * option (Response N) :=
  let p := w_proc wp in
  match phase p, ev with
  | Exited, _ => (wp, None)
  | _, WSignal => (mkWProcess (mkProcess Exited (w_shutdown (srv p) (w_weights wp))) (w_weights wp), None)
  | Loading, WLoadSettled o =>
      let (st', ids) := w_loadModel o (srv p) in (mkWProcess (mkProcess Listening st') ids, None)
  | Listening, WIncoming req now =>
      let (r, st') := dispatch req now (srv p) in
      (mkWProcess (mkProcess Listening st') (w_weights wp),
       match r with inr resp => Some resp | inl _ => None end)
  | _, _ => (wp, None)
  end.

Fixpoint w_run (wp : WProcess N) (evs : list (WEvent N)) : WProcess N * list (option (Response N)) :=
  match evs with
  | [] => (wp, [])
  | ev :: evs' =>
      let (wp', r) := w_proc_step wp ev in
      let (wp'', rs) := w_run wp' evs' in
      (wp'', r :: rs)
  end.
End Weights.

Definition w_initial {N} : WProcess N := mkWProcess initial_process [].

(** The event of [Server] a refined event stands for. *)
Definition abs_event {N} (ev : WEvent N) : Event N :=
  match ev with
  | WLoadSettled o => LoadSettled (fst <$> o)
  | WIncoming req now => Incoming req now
  | WSignal => Signal
  end.

(** Same phase, model and ready flag; both registries well formed. *)
Definition w_match {N} (wp : WProcess N) (p : Process N) : Prop :=
  phase (w_proc wp) = phase p /\ model (srv (w_proc wp)) = model (srv p) /\
  isModelLoaded (srv (w_proc wp)) = isModelLoaded (srv p) /\
  engine_wf (engine (srv (w_proc wp))) /\ engine_wf (engine (srv p)).

(** The weights are distinct ids; none before the load or without a
    model; live while the server listens; released once it exited. *)
Definition w_inv {N} (wp : WProcess N) : Prop :=
  let st := srv (w_proc wp) in let ids := w_weights wp in
  engine_wf (engine st) /\ NoDup ids /\
  (phase (w_proc wp) = Loading -> model st = None) /\
  (model st = None -> ids = []) /\
  (phase (w_proc wp) = Listening -> forall k, k ∈ ids -> is_Some (eng_live (engine st) !! k)) /\
  (phase (w_proc wp) = Exited -> forall k, k ∈ ids -> eng_live (engine st) !! k = None).

(** [POST /predict] with a parsed body, as a refined event. *)
Definition predict_event {N} (now : string) (b : json N) : WEvent N :=
  WIncoming (mkRequest "POST" "/predict" (BodyParsed b) NoFile) now.

(** A body whose image decodes to a bitmap the model accepts. *)
Definition image_ok {N} `{JsNumber N} `{ImageLib} (gm : GraphModel N) (b : json N) : Prop :=
  exists s bm, json_prop b "image" = Some (JStr s) /\ s <> "" /\
    jimp_read (base64_decode (strip_data_url s)) = Some bm /\
    shape_compatible (gm_input gm) [1; 224; 224; 3] = true.


(** ** Loading and disposing the weights *)

Section WeightLemmas.
Context {N : Type} `{JsNumber N} `{ImageLib} `{!ImageLibLaws}.

(** The weights get fresh, distinct ids; nothing live is touched. *)
Lemma tf_alloc_all_spec (ws : list (Tensor N)) (e : Engine N) :
  engine_wf e ->
  exists ids, fst (tf_alloc_all ws e) = inr ids /\ List.length ids = List.length ws /\
    engine_wf (snd (tf_alloc_all ws e)) /\ NoDup ids /\
    (forall k, k ∈ ids -> eng_next e <= k /\ is_Some (eng_live (snd (tf_alloc_all ws e)) !! k)) /\
    (forall k, is_Some (eng_live e !! k) -> eng_live (snd (tf_alloc_all ws e)) !! k = eng_live e !! k) /\
    numTensors (snd (tf_alloc_all ws e)) = numTensors e + List.length ws.
Proof.
  revert e. induction ws as [|w ws IH]; intros e Hwf.
  - exists []. cbn. split_and!; [reflexivity|reflexivity|exact Hwf|constructor|set_solver|auto|lia].
  - pose proof (tf_alloc_wf (E:=JsError) w e Hwf) as Hw1. cbn in Hw1.
    destruct (IH _ Hw1) as (ids & Hr & Hlen & Hw & Hnd & Hin & Hkeep & Hn).
    cbn [tf_alloc_all]. unfold pm_bind, tf_alloc, pm_ret. cbn -[tf_alloc_all].
    destruct (tf_alloc_all ws _) as [r e2] eqn:E2. cbn in Hr, Hw, Hin, Hkeep, Hn |- *.
    subst r. exists (eng_next e :: ids). cbn.
    assert (Hfresh : eng_live e !! eng_next e = None) by (apply engine_wf_fresh, Hwf).
    split_and!; try reflexivity; auto.
    + constructor; [|exact Hnd]. intros Hk. apply Hin in Hk. cbn in Hk. lia.
    + intros k Hk. apply elem_of_cons in Hk as [->|Hk].
      * split; [lia|]. rewrite Hkeep; cbn; [rewrite lookup_insert_eq; eauto|rewrite lookup_insert_eq; eauto].
      * destruct (Hin k Hk) as [Hle Hs]. cbn in Hle. split; [lia|exact Hs].
    + intros k [v Hk]. assert (k <> eng_next e) by congruence.
      rewrite Hkeep; cbn; rewrite lookup_insert_ne; eauto.
    + rewrite Hn. unfold numTensors. cbn. rewrite map_size_insert_None by exact Hfresh. lia.
Qed.

(** After [model.dispose()] exactly the given ids are gone. *)
Lemma model_dispose_lookup (ids : list nat) (e : Engine N) k :
  eng_live (snd (model_dispose ids e)) !! k = if decide (k ∈ ids) then None else eng_live e !! k.
Proof.
  revert e. induction ids as [|i ids IH]; intros e; cbn [model_dispose].
  - case_decide; [set_solver|reflexivity].
  - unfold pm_bind, tf_dispose, pm_modify. cbn [snd]. rewrite IH. cbn [eng_live].
    destruct (decide (k = i)) as [->|Hne].
    + rewrite lookup_delete_eq. destruct (decide (i ∈ ids)), (decide (i ∈ i :: ids)); set_solver.
    + rewrite lookup_delete_ne by congruence.
      destruct (decide (k ∈ ids)), (decide (k ∈ i :: ids)); try reflexivity; set_solver.
Qed.

Lemma model_dispose_next (ids : list nat) (e : Engine N) :
  eng_next (snd (model_dispose ids e)) = eng_next e.
Proof. revert e. induction ids as [|i ids IH]; intros e; [reflexivity|]. cbn. rewrite IH. reflexivity. Qed.

Lemma model_dispose_wf (ids : list nat) (e : Engine N) :
  engine_wf e -> engine_wf (snd (model_dispose ids e)).
Proof.
  intros Hwf k Hk. rewrite model_dispose_next. apply Hwf.
  apply elem_of_dom in Hk. rewrite model_dispose_lookup in Hk. case_decide; [by destruct Hk|].
  by apply elem_of_dom.
Qed.

(** Disposing distinct live ids lowers [numTensors] by their number. *)
Lemma model_dispose_size (ids : list nat) (e : Engine N) :
  NoDup ids -> (forall k, k ∈ ids -> is_Some (eng_live e !! k)) ->
  numTensors (snd (model_dispose ids e)) + List.length ids = numTensors e.
Proof.
  revert e. induction ids as [|i ids IH]; intros e Hnd Hlive; cbn [List.length].
  - cbn. lia.
  - apply NoDup_cons in Hnd as [Hni Hnd].
    destruct (Hlive i ltac:(set_solver)) as [t Ht].
    pose proof (tf_dispose_numTensors (E:=JsError) i e t Ht) as Hsz.
    assert (Hpos : 0 < numTensors e).
    { unfold numTensors. apply Nat.neq_0_lt_0. intros Hz. apply map_size_empty_inv in Hz.
      rewrite Hz, lookup_empty in Ht. discriminate. }
    cbn [model_dispose]. unfold pm_bind. cbn [fst snd tf_dispose pm_modify].
    rewrite Nat.add_succ_r, IH; [|exact Hnd|].
    + unfold tf_dispose, pm_modify in Hsz. cbn in Hsz |- *. unfold numTensors in *. cbn in *. lia.
    + intros k Hk. cbn. rewrite lookup_delete_ne by (intros ->; contradiction). apply Hlive. set_solver.
Qed.

Lemma engine_ext (e1 e2 : Engine N) :
  eng_next e1 = eng_next e2 -> (forall k, eng_live e1 !! k = eng_live e2 !! k) -> e1 = e2.
Proof. destruct e1, e2; cbn. intros -> Hk. f_equal. by apply map_eq. Qed.

(** A second [model.dispose()] changes nothing. *)
Lemma model_dispose_idem (ids : list nat) (e : Engine N) :
  snd (model_dispose ids (snd (model_dispose ids e))) = snd (model_dispose ids e).
Proof.
  apply engine_ext; [rewrite !model_dispose_next; reflexivity|].
  intros k. rewrite !model_dispose_lookup. case_decide; reflexivity.
Qed.
End WeightLemmas.

Section Simulation.
Context {N : Type} `{JsNumber N} `{ImageLib} `{!ImageLibLaws}.

Lemma w_loadModel_match o (st st' : ServerState N) :
  model st = model st' -> isModelLoaded st = isModelLoaded st' ->
  engine_wf (engine st) -> engine_wf (engine st') ->
  let st1 := fst (w_loadModel o st) in let st1' := loadModel (fst <$> o) st' in
  model st1 = model st1' /\ isModelLoaded st1 = isModelLoaded st1' /\
  engine_wf (engine st1) /\ engine_wf (engine st1').
Proof.
  intros Hm Hl Hw Hw'. destruct o as [[gm ws]|]; cbn; [|auto].
  destruct (tf_alloc_all_spec ws (engine st) Hw) as (ids & _ & _ & Hwf & _).
  destruct (tf_alloc_all ws (engine st)) as [r e']. cbn in *. auto.
Qed.

Lemma w_shutdown_frame (st : ServerState N) ids :
  engine_wf (engine st) ->
  model (w_shutdown st ids) = model st /\ isModelLoaded (w_shutdown st ids) = isModelLoaded st /\
  engine_wf (engine (w_shutdown st ids)).
Proof.
  intros Hw. unfold w_shutdown. destruct (model st) eqn:Em; cbn; split_and!; try apply model_dispose_wf; auto.
Qed.

(** One step of the process with weights simulates one step of [Server]:
    the same response, and related states after. *)
Lemma w_step_sim (wp : WProcess N) p ev :
  w_match wp p ->
  snd (w_proc_step wp ev) = snd (proc_step p (abs_event ev)) /\
  w_match (fst (w_proc_step wp ev)) (fst (proc_step p (abs_event ev))).
Proof.
  destruct wp as [[ph st] ws], p as [ph' st']. unfold w_match. cbn.
  intros (-> & Hm & Hl & Hw & Hw').
  destruct ev as [o|req now|]; destruct ph'; cbn; try solve [split; [reflexivity|split_and!; auto]];
    try solve [destruct (w_shutdown_frame st ws Hw) as (Hm1 & Hl1 & Hw1);
               repeat split; try reflexivity; try congruence; auto].
  - destruct (w_loadModel_match o st st' Hm Hl Hw Hw') as (Hm1 & Hl1 & Hw1 & Hw1').
    destruct (w_loadModel o st) as [st1 ids]. cbn in *. split; [reflexivity|split_and!; auto].
  - destruct (dispatch_keeps req now st Hw) as (Hm1 & Hl1 & Hw1).
    destruct (dispatch_keeps req now st' Hw') as (Hm1' & Hl1' & Hw1').
    pose proof (dispatch_fst req now st Hw) as Hr. pose proof (dispatch_fst req now st' Hw') as Hr'.
    rewrite Hm, Hl in Hr. destruct (dispatch req now st) as [r s1], (dispatch req now st') as [r' s1'].
    cbn in *. subst r r'. repeat split; try reflexivity; try congruence; auto.
Qed.

Lemma w_run_sim (wp : WProcess N) p evs :
  w_match wp p ->
  snd (w_run wp evs) = snd (run p (map abs_event evs)) /\
  w_match (fst (w_run wp evs)) (fst (run p (map abs_event evs))).
Proof.
  revert wp p. induction evs as [|ev evs IH]; intros wp p Hm; [split; [reflexivity|exact Hm]|].
  cbn [w_run run map]. destruct (w_step_sim wp p ev Hm) as [Hr Hm1].
  destruct (w_proc_step wp ev) as [wp1 r], (proc_step p (abs_event ev)) as [p1 r'].
  cbn in Hr, Hm1. subst r'. destruct (IH wp1 p1 Hm1) as [Hrs Hm2].
  destruct (w_run wp1 evs) as [wp2 rs], (run p1 (map abs_event evs)) as [p2 rs'].
  cbn in *. subst rs'. split; [reflexivity|exact Hm2].
Qed.

End Simulation.

Section WeightsInvariant.
Context {N : Type} `{JsNumber N} `{ImageLib} `{!ImageLibLaws}.

Lemma w_inv_init : w_inv (N:=N) w_initial.
Proof.
  unfold w_inv. cbn. split_and!; auto using engine_wf_empty; [constructor|set_solver..].
Qed.

Lemma w_inv_step (wp : WProcess N) ev : w_inv wp -> w_inv (fst (w_proc_step wp ev)).
Proof.
  destruct wp as [[ph st] ids]. unfold w_inv. cbn.
  intros (Hwf & Hnd & Hload & Hnone & Hlive & Hdead).
  destruct ev as [o|req now|]; destruct ph; cbn; try solve [split_and!; auto].
  - rewrite (Hnone (Hload eq_refl)) in *. destruct o as [[gm ws]|]; cbn.
    + destruct (tf_alloc_all_spec ws (engine st) Hwf) as (ids' & Hr & _ & Hw' & Hnd' & Hin & _).
      destruct (tf_alloc_all ws (engine st)) as [r e']. cbn in *. subst r.
      split_and!; try discriminate; auto. intros _ k Hk. apply (Hin k Hk).
    + split_and!; try discriminate; try solve [constructor]; auto; set_solver.
  - destruct (dispatch_keeps req now st Hwf) as (Hm & _ & Hw').
    pose proof (dispatch_keeps_all (eng_live (engine st)) req now st (conj Hwf (fun _ _ h => h))) as Hk.
    destruct (dispatch req now st) as [r st']. cbn in *. destruct Hk as [_ Hk].
    split_and!; try discriminate; auto; [rewrite Hm; auto|].
    intros _ k Hin. destruct (Hlive eq_refl k Hin) as [v Hv]. exists v. apply Hk, Hv.
  - rewrite (Hnone (Hload eq_refl)). unfold w_shutdown. rewrite (Hload eq_refl).
    split_and!; try discriminate; try solve [constructor]; auto; set_solver.
  - destruct (w_shutdown_frame st ids Hwf) as (Hm & _ & Hw').
    split_and!; try discriminate; auto; [rewrite Hm; auto|].
    intros _ k Hk. unfold w_shutdown. destruct (model st) eqn:Em.
    + cbn. rewrite model_dispose_lookup. case_decide; [reflexivity|contradiction].
    + rewrite (Hnone eq_refl) in Hk. set_solver.
Qed.

Lemma w_inv_run (wp : WProcess N) evs : w_inv wp -> w_inv (fst (w_run wp evs)).
Proof.
  revert wp. induction evs as [|ev evs IH]; intros wp Hinv; [exact Hinv|].
  cbn [w_run]. pose proof (w_inv_step wp ev Hinv) as Hinv1.
  destruct (w_proc_step wp ev) as [wp1 r]. specialize (IH wp1 Hinv1).
  destruct (w_run wp1 evs) as [wp2 rs]. exact IH.
Qed.

(** C24: In every state the process reaches from its start, the model's
    weights are distinct registry ids, none before the load settles or
    when no model was loaded, all registered while the server listens,
    and all released once a signal made it exit. *)
Theorem w_run_inv (evs : list (WEvent N)) : w_inv (fst (w_run w_initial evs)).
Proof. apply w_inv_run, w_inv_init. Qed.

(** C25: A signal to a listening server (the [SIGINT] and [SIGTERM]
    handlers) exits and disposes exactly the model's weights: each of them
    is gone from the registry, every other tensor stays, and
    [numTensors] drops by their number. *)
Theorem shutdown_releases (wp : WProcess N) :
  w_inv wp -> phase (w_proc wp) = Listening ->
  phase (w_proc (fst (w_proc_step wp WSignal))) = Exited /\
  (forall k, k ∈ w_weights wp -> eng_live (engine (srv (w_proc (fst (w_proc_step wp WSignal))))) !! k = None) /\
  (forall k, k ∉ w_weights wp ->
     eng_live (engine (srv (w_proc (fst (w_proc_step wp WSignal))))) !! k = eng_live (engine (srv (w_proc wp))) !! k) /\
  numTensors (engine (srv (w_proc (fst (w_proc_step wp WSignal))))) + List.length (w_weights wp) =
    numTensors (engine (srv (w_proc wp))).
Proof.
  destruct wp as [[ph st] ids]. unfold w_inv. cbn.
  intros (Hwf & Hnd & _ & Hnone & Hlive & _) ->. cbn. unfold w_shutdown.
  destruct (model st) eqn:Em; cbn.
  - split_and!; [reflexivity| | |apply model_dispose_size; auto].
    + intros k Hk. rewrite model_dispose_lookup. case_decide; [reflexivity|contradiction].
    + intros k Hk. rewrite model_dispose_lookup. case_decide; [contradiction|reflexivity].
  - rewrite (Hnone eq_refl). cbn. split_and!; [reflexivity|set_solver|reflexivity|lia].
Qed.

End WeightsInvariant.

Section Growth.
Context {N : Type} `{JsNumber N} `{ImageLib} `{!ImageLibLaws}.

Lemma w_step_predict_ok (wp : WProcess N) gm b now :
  w_inv wp -> phase (w_proc wp) = Listening -> model (srv (w_proc wp)) = Some gm ->
  isModelLoaded (srv (w_proc wp)) = true -> image_ok gm b ->
  (exists body, snd (w_proc_step wp (predict_event now b)) = Some (mkResponse 200 body)) /\
  phase (w_proc (fst (w_proc_step wp (predict_event now b)))) = Listening /\
  model (srv (w_proc (fst (w_proc_step wp (predict_event now b))))) = Some gm /\
  isModelLoaded (srv (w_proc (fst (w_proc_step wp (predict_event now b))))) = true /\
  numTensors (engine (srv (w_proc (fst (w_proc_step wp (predict_event now b)))))) =
    S (numTensors (engine (srv (w_proc wp)))).
Proof.
  destruct wp as [[ph [m fl e]] ids]. cbn [w_proc srv phase model isModelLoaded engine].
  intros Hinv -> -> -> (s & bm & Himg & Hs & Hr & Hc).
  destruct Hinv as (Hwf & _). cbn in Hwf.
  destruct (predict_success_run b s now gm e bm Hwf Himg Hs Hr Hc) as (e' & Heq & _ & Hn).
  unfold w_proc_step, predict_event. cbn [w_proc phase srv].
  change (dispatch _ now _) with (predict_handler b now (mkServerState (Some gm) true e)).
  rewrite Heq. cbn. split_and!; [eexists; reflexivity|reflexivity..|exact Hn].
Qed.

Lemma w_run_predict_ok (wp : WProcess N) gm bodies now :
  w_inv wp -> phase (w_proc wp) = Listening -> model (srv (w_proc wp)) = Some gm ->
  isModelLoaded (srv (w_proc wp)) = true -> Forall (image_ok gm) bodies ->
  numTensors (engine (srv (w_proc (fst (w_run wp (map (predict_event now) bodies)))))) =
    numTensors (engine (srv (w_proc wp))) + List.length bodies /\
  Forall (fun r => exists body, r = Some (mkResponse 200 body)) (snd (w_run wp (map (predict_event now) bodies))).
Proof.
  revert wp. induction bodies as [|b bodies IH]; intros wp Hinv Hph Hm Hl Hok; cbn [map w_run].
  - split; [cbn; lia|constructor].
  - apply Forall_cons in Hok as [Hb Hok].
    destruct (w_step_predict_ok wp gm b now Hinv Hph Hm Hl Hb) as (Hr & Hph1 & Hm1 & Hl1 & Hn1).
    pose proof (w_inv_step wp (predict_event now b) Hinv) as Hinv1.
    destruct (w_proc_step wp (predict_event now b)) as [wp1 r]. cbn in Hr, Hph1, Hm1, Hl1, Hn1, Hinv1.
    destruct (IH wp1 Hinv1 Hph1 Hm1 Hl1 Hok) as [Hn Hrs].
    destruct (w_run wp1 (map (predict_event now) bodies)) as [wp2 rs]. cbn in *.
    split; [lia|constructor; assumption].
Qed.

(** C26: Over a whole run, the registry grows by one tensor per
    successful prediction. After the load of a model with weights [ws],
    [n] requests to [POST /predict] with images the model accepts are
    all answered 200, and leave exactly [|ws| + n] tensors registered:
    memory grows without bound for the life of the process, where the
    spec (section 4.2) calls the absence of leaks across calls
    critical. *)
Theorem registry_growth gm (ws : list (Tensor N)) bodies now :
  Forall (image_ok gm) bodies ->
  numTensors (engine (srv (w_proc (fst (w_run w_initial (WLoadSettled (Some (gm, ws)) :: map (predict_event now) bodies)))))) =
    List.length ws + List.length bodies /\
  Forall (fun r => exists body, r = Some (mkResponse 200 body))
    (tail (snd (w_run w_initial (WLoadSettled (Some (gm, ws)) :: map (predict_event now) bodies)))).
Proof.
  intros Hok. cbn [w_run].
  pose proof (w_inv_step w_initial (WLoadSettled (Some (gm, ws))) w_inv_init) as Hinv1.
  destruct (tf_alloc_all_spec ws (mkEngine 0 ∅) engine_wf_empty) as (_ & _ & _ & _ & _ & _ & _ & Hn0).
  destruct (w_proc_step w_initial (WLoadSettled (Some (gm, ws)))) as [wp1 r] eqn:E1.
  assert (Hwp1 : phase (w_proc wp1) = Listening /\ model (srv (w_proc wp1)) = Some gm /\
                 isModelLoaded (srv (w_proc wp1)) = true /\
                 numTensors (engine (srv (w_proc wp1))) = List.length ws).
  { revert E1. unfold w_proc_step, w_loadModel. cbn. destruct (tf_alloc_all ws _) as [r0 e0]. cbn in Hn0.
    intros [= <- _]. cbn. split_and!; [reflexivity..|]. rewrite Hn0. reflexivity. }
  destruct Hwp1 as (Hph & Hm & Hl & Hn1). cbn in Hinv1.
  destruct (w_run_predict_ok wp1 gm bodies now Hinv1 Hph Hm Hl Hok) as [Hn Hrs].
  destruct (w_run wp1 (map (predict_event now) bodies)) as [wp2 rs]. cbn in *. split; [lia|exact Hrs].
Qed.
End Growth.

(** ** Witnesses *)

(** Two weight tensors of the loaded model. *)
Definition weights_const : list (Tensor Q) := [mkTensor [2] [Some (1#2); Some (1#4)]; mkTensor [1] [Some (3#4)]].

Definition wp_loaded : WProcess Q := fst (w_run w_initial [WLoadSettled (Some (gm_const, weights_const))]).

Lemma shutdown_releases_witness :
  w_inv wp_loaded /\ phase (w_proc wp_loaded) = Listening /\
  phase (w_proc (fst (w_proc_step wp_loaded WSignal))) = Exited /\
  (forall k, k ∈ w_weights wp_loaded -> eng_live (engine (srv (w_proc (fst (w_proc_step wp_loaded WSignal))))) !! k = None) /\
  (forall k, k ∉ w_weights wp_loaded ->
     eng_live (engine (srv (w_proc (fst (w_proc_step wp_loaded WSignal))))) !! k = eng_live (engine (srv (w_proc wp_loaded))) !! k) /\
  numTensors (engine (srv (w_proc (fst (w_proc_step wp_loaded WSignal))))) + List.length (w_weights wp_loaded) =
    numTensors (engine (srv (w_proc wp_loaded))).
Proof.
  split; [apply w_inv_run, w_inv_init|]. split; [reflexivity|].
  apply shutdown_releases; [apply w_inv_run, w_inv_init|reflexivity].
Defined.

(** Load with two weights, a prediction, a signal. *)
Definition lifecycle_events : list (WEvent Q) :=
  [WLoadSettled (Some (gm_const, weights_const)); WIncoming (predict_request body_ok) now0; WSignal].

Lemma w_run_inv_witness : w_inv (fst (w_run w_initial lifecycle_events)).
Proof. apply w_run_inv. Defined.

Lemma image_ok_body_ok : image_ok gm_const body_ok.
Proof.
  exists image_url, (mkBitmap 1 1 pixel_rgba). split_and!; [reflexivity|discriminate|reflexivity|reflexivity].
Qed.

(** Two predictions after loading two weights leave four tensors. *)
Lemma registry_growth_witness :
  Forall (image_ok gm_const) [body_ok; body_ok] /\
  numTensors (engine (srv (w_proc (fst (w_run w_initial
      (WLoadSettled (Some (gm_const, weights_const)) :: map (predict_event now0) [body_ok; body_ok])))))) =
    List.length weights_const + List.length [body_ok; body_ok] /\
  Forall (fun r => exists body, r = Some (mkResponse 200 body))
    (tail (snd (w_run w_initial
      (WLoadSettled (Some (gm_const, weights_const)) :: map (predict_event now0) [body_ok; body_ok])))).
Proof.
  assert (Hok : Forall (image_ok gm_const) [body_ok; body_ok]).
  { constructor; [apply image_ok_body_ok|]. constructor; [apply image_ok_body_ok|]. constructor. }
  split; [exact Hok|]. apply registry_growth, Hok.
Defined.
