(* ===== verification/Readme.v ===== *)
(** The rest of [src/test-client.js]: its entry point (lines 89-98) and
    the README that follows [module.exports] (lines 99-293).

    The README documents the API: four endpoints (lines 125-181), a JSON
    example of each response, and the status codes (lines 206-211). It
    also holds a JavaScript integration example, [diagnosticar] (lines
    270-293), written here against the [Fetch] interface of [Client] like
    the client's own functions.

    A documented response is compared with the server's by its shape
    ([json_shape]): the keys in order and the JSON type of each value, as
    [res.json] sends them, so a NaN number is [null]. *)
From S2P Require Import Prelude Numbers Interpret Tensors Preprocess Base64 Server Client Express.
From Stdlib Require Import String.
Local Open Scope nat_scope.
Local Open Scope string_scope.

(** ** The entry point and the exports (lines 89-98) *)

(** [module.exports = { makePrediction, checkServerStatus, imageToBase64 }]. *)
Record ClientExports (N : Type) := mkClientExports {
  ex_makePrediction : string -> JsError + list byte -> Fetch N -> list (LogLine N) * option (json N);
  ex_checkServerStatus : Fetch N -> list (LogLine N) * option (json N);
  ex_imageToBase64 : string -> JsError + list byte -> list (LogLine N) * option string
}.
Arguments mkClientExports {N}.
Arguments ex_makePrediction {N}.
Arguments ex_checkServerStatus {N}.
Arguments ex_imageToBase64 {N}.

Definition client_exports {N} : ClientExports N :=
  mkClientExports client_makePrediction checkServerStatus imageToBase64_logged.

(** [if (require.main === module) ejemplo();]: run as a program, the
    file prints what [ejemplo] prints; required as a module, nothing. *)
Definition client_main {N} (is_main : bool) (fetch : Fetch N) : list (LogLine N) :=
  if is_main then ejemplo fetch else [].

(** ** The documented API *)

(** The endpoints of lines 127, 139, 151 and 179. *)
Definition readme_endpoints : list (string * string) :=
  [("GET", "/health"); ("GET", "/model/status"); ("POST", "/predict"); ("POST", "/predict/upload")].

(** The status codes of lines 208-211. *)
Definition readme_status_codes : list nat := [200; 400; 503; 500].

Definition readme_timestamp : string := "2025-11-08T10:30:00.000Z".

(** The response examples of lines 131-137, 143-149, 161-168 and
    171-176, and the request body of lines 154-158. *)
Definition readme_health : json Q :=
  JObj [("status", JStr "ok"); ("modelLoaded", JBool true); ("timestamp", JStr readme_timestamp)].

Definition readme_model_status : json Q :=
  JObj [("loaded", JBool true); ("classNames", JArr [JStr "Benigno"; JStr "Maligno"]);
        ("timestamp", JStr readme_timestamp)].

Definition readme_predict_request : json Q :=
  JObj [("image", JStr "data:image/jpeg;base64,/9j/4AAQSkZJRgABAQAAAQ...")].

Definition readme_predict_success : json Q :=
  JObj [("success", JBool true); ("diagnosis", JStr "Benigno"); ("confidence", JNum (Some (175 # 2)));
        ("timestamp", JStr readme_timestamp)].

Definition readme_predict_error : json Q :=
  JObj [("error", JStr "Imagen requerida"); ("message", JStr "Debe proporcionar una imagen en formato base64")].

(** Express's matching of a documented method: [app.get] also answers
    [HEAD]. *)
Definition method_is (documented meth : string) : bool :=
  if String.eqb documented "GET" then is_get meth else String.eqb meth documented.

(** A request the README documents an endpoint for. *)
Definition documented (meth path : string) : bool :=
  existsb (fun '(m, p) => method_is m meth && path_is p path) readme_endpoints.

(** ** Shapes of JSON values *)

Inductive shape :=
| SNull | SBool | SNum | SStr
| SArr (items : list shape)
| SObj (fields : list (string * shape)).

(** The shape [res.json] sends: NaN is serialized as [null]. *)
Fixpoint json_shape {N} (v : json N) : shape :=
  match v with
  | JNull => SNull
  | JBool _ => SBool
  | JNum None => SNull
  | JNum (Some _) => SNum
  | JStr _ => SStr
  | JArr l => SArr (map json_shape l)
  | JObj fs => SObj (map (fun '(k, x) => (k, json_shape x)) fs)
  end.

(** ** [diagnosticar] (lines 270-293) *)

(** It sends the request of the client's [makePrediction], the same
    text [client_raw] on the wire, prints the diagnosis and the
    confidence of an [ok] answer, and the [error] field of any other. A
    rejected [fetch], or a [response.json()] that rejects on an empty
    body, is caught as a connection error. *)
Definition diagnosticar {N} (imagenBase64 : string) (fetch : Fetch N) : list (LogLine N) :=
  match fetch (client_raw imagenBase64) with
  | None => [LogError [Txt "Error de conexión:"; Exn fetch_failed]]
  | Some (NoContent _) => [LogError [Txt "Error de conexión:"; Exn json_end_error]]
  | Some (JsonReply response) =>
      let resultado := body response in
      if response_ok response
      then [Log [Txt "Diagnóstico: "; Val (json_prop resultado "diagnosis")];
            Log [Txt "Confianza: "; Val (json_prop resultado "confidence"); Txt "%"]]
      else [LogError [Txt "Error:"; Val (json_prop resultado "error")]]
  end.

(** ** What the routes answer *)

Section Answers.
Context {N : Type} `{JsNumber N} `{ImageLib}.

(** Close a goal [error_answer r codes] whose [r] is an error body. *)
Local Ltac error_leaf := do 3 eexists; split; [reflexivity|cbn; tauto].

(** The pipeline succeeds with a prediction result, or fails. *)
Lemma pipeline_spec_cases m buf now :
  match pipeline_spec (N:=N) m buf now with
  | inl _ => True
  | inr r => exists res, r = mkResponse 200 (json_of_result res now)
  end.
Proof.
  unfold pipeline_spec. destruct (jimp_read buf); [|exact I].
  destruct m as [gm|]; [|exact I]. destruct (shape_compatible _ _); [|exact I]. eauto.
Qed.

(** An error answer of a route: its status and its two fields. *)
Definition error_answer (r : Response N) (codes : list nat) : Prop :=
  exists code e msg, r = mkResponse code (error_body e msg) /\ In code codes.

Lemma predict_spec_cases m loaded b now :
  (exists res, predict_spec (N:=N) m loaded b now = mkResponse 200 (json_of_result res now)) \/
  error_answer (predict_spec m loaded b now) [400; 503; 500].
Proof.
  unfold predict_spec, error_answer.
  destruct (negb loaded); [right; error_leaf|].
  destruct (negb (truthy _)); [right; error_leaf|].
  destruct (json_prop b "image") as [[| | |s| |]|];
    try (right; error_leaf).
  pose proof (pipeline_spec_cases m (base64_decode (strip_data_url s)) now) as Hp.
  destruct (pipeline_spec _ _ _); [right; error_leaf|left; exact Hp].
Qed.

Lemma upload_spec_cases m loaded f now :
  (exists res, upload_spec (N:=N) m loaded f now = mkResponse 200 (json_of_result res now)) \/
  error_answer (upload_spec m loaded f now) [400; 503; 500].
Proof.
  unfold upload_spec, error_answer.
  destruct (negb loaded); [right; error_leaf|].
  destruct f as [buf|]; [|right; error_leaf].
  pose proof (pipeline_spec_cases m buf now) as Hp.
  destruct (pipeline_spec _ _ _); [right; error_leaf|left; exact Hp].
Qed.

(** Every answer of the routes: the two status routes, a prediction, or
    an error body with a documented status, or 404 on a route the README
    does not document. *)
Lemma app_spec_cases m loaded (req : Request N) now :
  app_spec m loaded req now = health_handler loaded now \/
  app_spec m loaded req now = model_status_handler loaded now \/
  (exists res, app_spec m loaded req now = mkResponse 200 (json_of_result res now)) \/
  error_answer (app_spec m loaded req now) [400; 503; 500] \/
  (app_spec m loaded req now = not_found /\ documented (req_method req) (req_path req) = false).
Proof.
  unfold app_spec. destruct (req_body req) as [b|];
    [|right; right; right; left; error_leaf].
  destruct (is_get _ && path_is "/health" _) eqn:E1; [left; reflexivity|].
  destruct (is_get _ && path_is "/model/status" _) eqn:E2; [right; left; reflexivity|].
  destruct (String.eqb _ "POST" && path_is "/predict" _) eqn:E3.
  { destruct (predict_spec_cases m loaded b now); tauto. }
  destruct (String.eqb _ "POST" && path_is "/predict/upload" _) eqn:E4.
  { destruct (req_upload req);
      [destruct (upload_spec_cases m loaded None now)
      |destruct (upload_spec_cases m loaded (Some buf) now)
      |right; right; right; left; error_leaf]; tauto. }
  right; right; right; right. split; [reflexivity|].
  unfold documented, method_is. cbn. rewrite E1, E2, E3, E4. reflexivity.
Qed.
End Answers.

(** ** The documentation against the program *)

Section Conformance.
Context {N : Type} `{JsNumber N} `{ImageLib} `{!ImageLibLaws} `{JsonLib N}.

Lemma result_shape (res : PredictionResult N) now :
  json_shape (json_of_result res now) = json_shape readme_predict_success <-> confidence res <> None.
Proof. unfold json_of_result. destruct (confidence res); cbn; split; congruence. Qed.

(** C14: The status codes the README lists (200, 400, 503, 500) are
    all the application answers, with two exceptions the README does
    not document: 404 on a request to none of its endpoints, and the 204
    of [cors()] to [OPTIONS]. No request makes the application throw. *)
Theorem readme_status_codes_complete (raw : RawRequest) now (st : ServerState N) :
  engine_wf (engine st) ->
  match fst (express_app raw now st) with
  | inr (JsonReply r) =>
      In (status r) readme_status_codes \/
      (status r = 404 /\ documented (raw_method raw) (raw_path raw) = false)
  | inr (NoContent c) => c = 204 /\ raw_method raw = "OPTIONS"
  | inl _ => False
  end.
Proof.
  intros Hwf. destruct (String.eqb_spec (raw_method raw) "OPTIONS") as [Ho|Ho].
  { unfold express_app. rewrite Ho. cbn. auto. }
  rewrite express_app_fst by assumption.
  destruct (app_spec_cases (model st) (isModelLoaded st) (parse_request raw) now)
    as [E|[E|[(res & E)|[(code & e & msg & E & Hin)|(E & Hdoc)]]]]; rewrite E; cbn.
  - left. tauto.
  - left. tauto.
  - left. tauto.
  - left. cbn in Hin. tauto.
  - right. split; [reflexivity|exact Hdoc].
Qed.

(** C21: The JSON replies of the application have the shapes of the
    README's examples. Every request that is not a preflight gets a JSON
    reply; one whose status is not 200 has the shape [{error, message}]
    of lines 171-176, and a 200 has the shape of [/health], of
    [/model/status], or of a prediction. A prediction has the shape of
    lines 161-168 exactly when its confidence is a number: for a NaN
    score [res.json] sends [confidence: null]. *)
Theorem readme_response_shapes (raw : RawRequest) now (st : ServerState N) :
  raw_method raw <> "OPTIONS" -> engine_wf (engine st) ->
  exists r, fst (express_app raw now st) = inr (JsonReply r) /\
  (status r <> 200 -> json_shape (body r) = json_shape readme_predict_error) /\
  (status r = 200 ->
     json_shape (body r) = json_shape readme_health \/
     json_shape (body r) = json_shape readme_model_status \/
     exists res, body r = json_of_result res now /\
       (json_shape (body r) = json_shape readme_predict_success <-> confidence res <> None)).
Proof.
  intros Ho Hwf. eexists. split; [exact (express_app_fst raw now st Ho Hwf)|].
  destruct (app_spec_cases (model st) (isModelLoaded st) (parse_request raw) now)
    as [E|[E|[(res & E)|[(code & e & msg & E & Hin)|(E & _)]]]]; rewrite E.
  - cbn. split; [congruence|auto].
  - cbn. split; [congruence|auto].
  - cbn [status body]. split; [congruence|]. intros _. right; right.
    exists res. split; [reflexivity|apply result_shape].
  - cbn. split; [reflexivity|]. intros ->. cbn in Hin. lia.
  - cbn. split; [reflexivity|discriminate].
Qed.
End Conformance.

(** ** The README's integration example against the server *)

Section Integration.
Context {N : Type} `{JsNumber N} `{ImageLib} `{!ImageLibLaws} `{JsonLib N} `{!JsonLibLaws N}.

(** What [diagnosticar] prints for a prediction result. *)
Definition diagnosticar_log (r : PredictionResult N) : list (LogLine N) :=
  [Log [Txt "Diagnóstico: "; Val (Some (JStr (diagnosis r)))];
   Log [Txt "Confianza: "; Val (Some (JNum (confidence r))); Txt "%"]].

(** The answer of a listening server to [diagnosticar]'s request. *)
Lemma diagnosticar_listening (p : Process N) s now :
  phase p = Listening -> engine_wf (engine (srv p)) ->
  diagnosticar s (server_fetch p now) =
    let resp := if over json_limit (String.length (json_quote_body s) + 12) then unexpected_error
                else predict_spec (model (srv p)) (isModelLoaded (srv p)) (JObj [("image", JStr s)]) now in
    if response_ok resp
    then [Log [Txt "Diagnóstico: "; Val (json_prop (body resp) "diagnosis")];
          Log [Txt "Confianza: "; Val (json_prop (body resp) "confidence"); Txt "%"]]
    else [LogError [Txt "Error:"; Val (json_prop (body resp) "error")]].
Proof. intros Hph Hwf. unfold diagnosticar. rewrite server_fetch_client_raw by assumption. reflexivity. Qed.

(** C23: The README's [diagnosticar] against the server, through the
    Express application. A server that is loading or has exited refuses
    the connection, and it prints a connection error. On a listening
    server, a body whose JSON text exceeds the 50 MiB of [express.json]
    gets the 500 of the error middleware, and it prints
    [Error: Error interno del servidor]. A body within the limit
    reaches [POST /predict]: without a model the server answers 503, and
    it prints [Error: Modelo no disponible]; with a model it prints the
    diagnosis and the confidence of the model's output on the decoded
    image. *)
Theorem diagnosticar_e2e (p : Process N) s now :
  (phase p <> Listening ->
     diagnosticar s (server_fetch p now) = [LogError [Txt "Error de conexión:"; Exn fetch_failed]]) /\
  (phase p = Listening -> engine_wf (engine (srv p)) ->
     over json_limit (String.length (json_quote_body s) + 12) = true ->
     diagnosticar s (server_fetch p now) = [LogError [Txt "Error:"; Val (Some (JStr "Error interno del servidor"))]]) /\
  (phase p = Listening -> engine_wf (engine (srv p)) ->
     over json_limit (String.length (json_quote_body s) + 12) = false -> isModelLoaded (srv p) = false ->
     diagnosticar s (server_fetch p now) = [LogError [Txt "Error:"; Val (Some (JStr "Modelo no disponible"))]]) /\
  (forall gm bm, phase p = Listening -> engine_wf (engine (srv p)) ->
     over json_limit (String.length (json_quote_body s) + 12) = false ->
     model (srv p) = Some gm -> isModelLoaded (srv p) = true -> s <> "" ->
     jimp_read (base64_decode (strip_data_url s)) = Some bm ->
     shape_compatible (gm_input gm) [1; 224; 224; 3] = true ->
     diagnosticar s (server_fetch p now) =
       diagnosticar_log (interpret_prediction (default None (gm_forward gm (normalized bm) !! 0%nat)))).
Proof.
  split_and!.
  - intros Hph. unfold diagnosticar. rewrite server_fetch_down by exact Hph. reflexivity.
  - intros Hph Hwf Ho. rewrite diagnosticar_listening by assumption. cbv zeta. rewrite Ho. reflexivity.
  - intros Hph Hwf Ho Hl. rewrite diagnosticar_listening by assumption. cbv zeta. rewrite Ho.
    unfold predict_spec. rewrite Hl. reflexivity.
  - intros gm bm Hph Hwf Ho Hm Hl Hne Hr Hc. rewrite diagnosticar_listening by assumption. cbv zeta.
    rewrite Ho. unfold predict_spec. rewrite Hm, Hl. cbn [negb].
    change (json_prop (JObj [("image", JStr s)]) "image") with (Some (@JStr N s)).
    cbn [truthy negb]. apply String.eqb_neq in Hne. rewrite Hne. cbn [negb].
    unfold pipeline_spec. rewrite Hr, Hc. reflexivity.
Qed.
End Integration.

(** ** Witnesses *)

(** A [DELETE /predict]: a 404 the README does not list. *)
Lemma readme_status_codes_complete_witness :
  engine_wf (engine ready_state) /\
  match fst (express_app (N:=Q) (mkRaw "DELETE" "/predict" PNone) now0 ready_state) with
  | inr (JsonReply r) =>
      In (status r) readme_status_codes \/
      (status r = 404 /\ documented "DELETE" "/predict" = false)
  | inr (NoContent c) => c = 204 /\ "DELETE" = "OPTIONS"
  | inl _ => False
  end.
Proof.
  split; [exact empty_engine_wf|].
  apply (readme_status_codes_complete (mkRaw "DELETE" "/predict" PNone) now0 ready_state empty_engine_wf).
Defined.

(** A [POST /predict] while the model is not loaded: the 503 error. *)
Lemma readme_response_shapes_witness :
  exists r, fst (express_app (N:=Q) (client_raw image_url) now0 down_state) = inr (JsonReply r) /\
  (status r <> 200 -> json_shape (body r) = json_shape readme_predict_error) /\
  (status r = 200 ->
     json_shape (body r) = json_shape readme_health \/
     json_shape (body r) = json_shape readme_model_status \/
     exists res, body r = json_of_result res now0 /\
       (json_shape (body r) = json_shape readme_predict_success <-> confidence res <> None)).
Proof. apply (readme_response_shapes (client_raw image_url) now0 down_state); [discriminate|exact empty_engine_wf]. Defined.

(** A loading server, an oversized body, a server without a model, and a ready one. *)
Lemma diagnosticar_e2e_witness :
  diagnosticar image_url (server_fetch (N:=Q) initial_process now0) =
    [LogError [Txt "Error de conexión:"; Exn fetch_failed]] /\
  over json_limit (String.length (json_quote_body image_url) + 12) = false /\
  diagnosticar image_url (server_fetch listening_down now0) =
    [LogError [Txt "Error:"; Val (Some (JStr "Modelo no disponible"))]] /\
  diagnosticar image_url (server_fetch listening_ready now0) =
    diagnosticar_log (interpret_prediction (default None (gm_forward gm_const (normalized (mkBitmap 1 1 pixel_rgba)) !! 0%nat))).
Proof.
  split_and!.
  - apply (proj1 (diagnosticar_e2e initial_process image_url now0)). discriminate.
  - reflexivity.
  - apply (proj1 (proj2 (proj2 (diagnosticar_e2e listening_down image_url now0))));
      [reflexivity|exact empty_engine_wf|reflexivity|reflexivity].
  - apply (proj2 (proj2 (proj2 (diagnosticar_e2e listening_ready image_url now0))) gm_const (mkBitmap 1 1 pixel_rgba));
      [reflexivity|exact empty_engine_wf|reflexivity|reflexivity|reflexivity|discriminate|reflexivity|reflexivity].
Defined.
